(** * codemap: a shallow embedding of [codemap.py] and its properties

    The program scans a directory tree and assembles a markdown report.
    The embedding follows the source function by function:

    - Python [str] values are sequences of Unicode code points ([list N]);
    - the scanned directory is an inductive tree of nodes, each directory
      listing kept in the order in which the operating system returns it;
      a node is a directory, a regular file, or an entry that is neither
      and that [open] refuses at once (a socket, say); there are no
      symbolic links, no FIFOs, on which [open] waits for a writer, and no
      devices, from which it reads; a directory that cannot be listed can
      still be traversed; a property of a whole run that depends on the
      kind of the entries states it as a hypothesis ([all_regular]);
    - a file carries what opening it and reading its first characters as
      UTF-8 text gives: the text, or the exception;
    - what the interpreter's libraries compute ([ast.parse], [json.loads],
      the [re] engine, [str.lower], the file system outside the scanned tree)
      is gathered in a record [library] on which every function and theorem
      is parametric; [ast_parse] has the two outcomes that the program
      provides for, a tree or [SyntaxError], and [exists()] is a total
      test: a property that says that a call returns names the outcome of
      [ast.parse] in a hypothesis;
    - exceptions that escape a function are results of a small error monad;
    - the mutable counter of [build_file_tree] is threaded as state; the
      closure [add] of [find_entry_points] is run on the sequence of its
      calls;
    - [generate_map] is embedded section by section (statistics, README
      excerpt, file tree, entry points, module descriptions, dependency
      graph and diagram), the writing of the output file apart; of [main],
      the handling of the exceptions and the exit status. *)

From Stdlib Require Import Ascii String.
From Stdlib Require Import List NArith ZArith Bool Lia.
From Stdlib Require Import Sorted Permutation DecimalString DecimalNat.
Import ListNotations.

Set Implicit Arguments.
Set Warnings "-register-all".
Local Open Scope list_scope.

(* ------------------------------------------------------------------ *)
(** ** Python strings *)

Module PyStr.

Definition char := N.
Definition str := list char.

(** An ASCII literal as a Python string. *)
Definition py (s : string) : str :=
  List.map N_of_ascii (list_ascii_of_string s).

Fixpoint eqb (a b : str) : bool :=
  match a, b with
  | [], [] => true
  | x :: a', y :: b' => N.eqb x y && eqb a' b'
  | _, _ => false
  end.

(** Comparison of two strings as Python's [<] does it: code point by code
    point, a proper prefix being smaller. *)
Fixpoint compare (a b : str) : comparison :=
  match a, b with
  | [], [] => Eq
  | [], _ :: _ => Lt
  | _ :: _, [] => Gt
  | x :: a', y :: b' =>
      match N.compare x y with
      | Eq => compare a' b'
      | c => c
      end
  end.

Definition ltb (a b : str) : bool :=
  match compare a b with Lt => true | _ => false end.

(** [x in xs] for a list, tuple or set of strings. *)
Definition mem (x : str) (xs : list str) : bool := existsb (eqb x) xs.

(** [s.startswith(p)] *)
Fixpoint startswith (s p : str) : bool :=
  match p, s with
  | [], _ => true
  | y :: p', x :: s' => N.eqb x y && startswith s' p'
  | _ :: _, [] => false
  end.

(** [s.endswith(p)] *)
Definition endswith (s p : str) : bool := startswith (rev s) (rev p).

(** [s.find(p)]: the lowest index at which [p] occurs, [None] for -1. *)
Fixpoint find (s p : str) : option nat :=
  if startswith s p then Some 0
  else match s with
       | [] => None
       | _ :: s' => option_map S (find s' p)
       end.

(** [p in s] for two strings. *)
Definition contains (s p : str) : bool :=
  match find s p with Some _ => true | None => false end.

(** [s.rfind(c)] for a single character. *)
Fixpoint rfind_char (s : str) (c : char) : option nat :=
  match s with
  | [] => None
  | x :: s' =>
      match rfind_char s' c with
      | Some i => Some (S i)
      | None => if N.eqb x c then Some 0 else None
      end
  end.

(** [str.isspace] on one code point. *)
Definition is_space (c : char) : bool :=
  ((9 <=? c) && (c <=? 13) || (28 <=? c) && (c <=? 32) || (c =? 133)
   || (c =? 160) || (c =? 5760) || (8192 <=? c) && (c <=? 8202)
   || (c =? 8232) || (c =? 8233) || (c =? 8239) || (c =? 8287)
   || (c =? 12288))%N.

(** The line boundaries of [str.splitlines]. *)
Definition is_linebreak (c : char) : bool :=
  ((10 <=? c) && (c <=? 13) || (28 <=? c) && (c <=? 30) || (c =? 133)
   || (c =? 8232) || (c =? 8233))%N.

Fixpoint drop_while (f : char -> bool) (s : str) : str :=
  match s with
  | [] => []
  | c :: s' => if f c then drop_while f s' else s
  end.

(** [s.lstrip()], [s.rstrip()], [s.strip()] *)
Definition lstrip (s : str) : str := drop_while is_space s.
Definition rstrip (s : str) : str := rev (drop_while is_space (rev s)).
Definition strip (s : str) : str := rstrip (lstrip s).

(** [s.lstrip(chars)]: leading characters that occur in [chars] go. *)
Definition lstrip_chars (s chars : str) : str :=
  drop_while (fun c => existsb (N.eqb c) chars) s.

(** [s.splitlines()]: the current line is accumulated in reverse in [cur];
    a carriage return followed by a line feed is one boundary; no empty
    last line is produced after a final boundary. *)
Fixpoint splitlines_from (cur : str) (s : str) : list str :=
  match s with
  | [] => match cur with [] => [] | _ => [rev cur] end
  | c :: s' =>
      if is_linebreak c then
        match s' with
        | d :: s'' =>
            if (c =? 13)%N && (d =? 10)%N
            then rev cur :: splitlines_from [] s''
            else rev cur :: splitlines_from [] s'
        | [] => [rev cur]
        end
      else splitlines_from (c :: cur) s'
  end.

Definition splitlines (s : str) : list str := splitlines_from [] s.

(** [s.split(sep)] for a single character separator. *)
Fixpoint split_from (sep : char) (cur : str) (s : str) : list str :=
  match s with
  | [] => [rev cur]
  | c :: s' =>
      if N.eqb c sep then rev cur :: split_from sep [] s'
      else split_from sep (c :: cur) s'
  end.

Definition split (s : str) (sep : char) : list str := split_from sep [] s.

(** [sep.join(parts)] *)
Fixpoint join (sep : str) (parts : list str) : str :=
  match parts with
  | [] => []
  | [p] => p
  | p :: rest => p ++ sep ++ join sep rest
  end.

(** [str(n)] for a non-negative integer. *)
Definition of_nat (n : nat) : str :=
  py (NilZero.string_of_uint (Nat.to_uint n)).

(** [c * n] *)
Definition repeat_char (c : char) (n : nat) : str := List.repeat c n.

End PyStr.

Abbreviation str := PyStr.str.
Abbreviation py := PyStr.py.

(** [sorted(xs, key=...)] where [lt a b] compares the keys with [<]:
    a stable insertion sort (the order of elements with equal keys is the
    order of the input, as with Python's sort). *)
Section Sorting.
Context {A : Type} (lt : A -> A -> bool).

Fixpoint insert_sorted (x : A) (l : list A) : list A :=
  match l with
  | [] => [x]
  | y :: l' => if lt y x then y :: insert_sorted x l' else x :: l
  end.

Definition sorted (l : list A) : list A := fold_right insert_sorted [] l.
End Sorting.

(** [set(xs)] iterated: each element once (Python fixes no order; the order
    of first occurrence is taken here). *)
Fixpoint dedup (xs : list str) : list str :=
  match xs with
  | [] => []
  | x :: xs' => x :: filter (fun y => negb (PyStr.eqb x y)) (dedup xs')
  end.

(* ------------------------------------------------------------------ *)
(** ** Exceptions *)

Inductive exn : Type :=
| TypeError
| ValueError
| IndexError
| FileNotFoundError (msg : str)
| NotADirectoryError (msg : str)
| PermissionError (msg : str)
| KeyboardInterrupt.

(** The outcome of a call: a value, an exception that escapes it, or a loop
    that never ends. *)
Inductive result (A : Type) : Type :=
| Ret (a : A)
| Raise (e : exn)
| Diverges.

Arguments Ret {A} a.
Arguments Raise {A} e.
Arguments Diverges {A}.

Definition bind {A B : Type} (m : result A) (k : A -> result B) : result B :=
  match m with
  | Ret a => k a
  | Raise e => Raise e
  | Diverges => Diverges
  end.

Notation "x <- m ;; k" := (bind m (fun x => k))
  (at level 61, m at next level, right associativity).

(* ------------------------------------------------------------------ *)
(** ** Values of the libraries *)

(** What [json.loads] returns. A dict keeps its items in insertion order. *)
Inductive pyval : Type :=
| VNone
| VBool (b : bool)
| VInt (z : Z)
| VFloat (repr : str)
| VStr (s : str)
| VList (items : list pyval)
| VDict (items : list (str * pyval)).

(** The part of a Python syntax tree that the program inspects. [Module]
    carries what [ast.get_docstring] returns for it; [Node] stands for every
    other kind of node, with its children. *)
Inductive ast : Type :=
| Module (docstring : option str) (body : list ast)
| Import (names : list str)
| ImportFrom (module : option str) (level : nat)
| If (test : ast) (body : list ast) (orelse : list ast)
| Compare (lhs : ast) (comparators : list ast)
| Name (id : str)
| Node (children : list ast).

(** [ast.walk]: the node and all its descendants (the library fixes no
    order; this is the preorder). *)
Fixpoint ast_walk (t : ast) : list ast :=
  t :: match t with
       | Module _ body => flat_map ast_walk body
       | Import _ | ImportFrom _ _ | Name _ => []
       | If test body orelse =>
           ast_walk test ++ flat_map ast_walk body ++ flat_map ast_walk orelse
       | Compare lhs comparators =>
           ast_walk lhs ++ flat_map ast_walk comparators
       | Node children => flat_map ast_walk children
       end.

(** The interpreter's libraries and the world outside the scanned tree. *)
Record library : Type := {
  (** [ast.parse(source)]; [None] is [SyntaxError]. A source on which
      [ast.parse] raises another exception ([ValueError] for a null
      character, [RecursionError], [MemoryError]) has no outcome here. *)
  ast_parse : str -> option ast;
  (** [json.loads(source)]; [None] is [json.JSONDecodeError] *)
  json_loads : str -> option pyval;
  (** [re.match(pattern, s, re.DOTALL)]: group 1 of the match, if any *)
  re_match : str -> str -> option str;
  (** [re.finditer(pattern, s)]: group 1 of each match, in order *)
  re_finditer : str -> str -> list str;
  (** [s.lower()] *)
  str_lower : str -> str;
  (** [(dir / target).exists()] for a target that is absolute or has a
      [..] component, [dir] being given by its components below the root *)
  exists_outside : list str -> str -> bool;
  (** [Path(target).relative_to(root)] for an absolute target: the
      components below the root, or [None] for [ValueError] *)
  relative_to_root : str -> option (list str)
}.

(* ------------------------------------------------------------------ *)
(** ** The scanned tree *)

(** The exceptions that opening and reading a file as UTF-8 text raises. *)
Inductive read_error : Type :=
| UnicodeDecodeError
| ReadPermissionError
| OSError.

(** What opening and reading a file gives: its text, or an error. *)
Inductive file_data : Type :=
| Text (content : str)
| Unreadable (e : read_error).

(** A directory lists its children in the order of the operating system;
    [readable] is false when listing it raises [PermissionError]. A
    [Special] node is neither a regular file nor a directory, and [open]
    refuses it with [OSError]. An entry on which [open] waits (a FIFO) or
    from which it reads (a device), and a symbolic link, which
    [build_file_tree] follows and [os.walk] does not, are not nodes. *)
Inductive node : Type :=
| File (name : str) (data : file_data)
| Dir (name : str) (readable : bool) (children : list node)
| Special (name : str).

Definition node_name (n : node) : str :=
  match n with
  | File name _ | Dir name _ _ | Special name => name
  end.

Definition is_dir (n : node) : bool :=
  match n with Dir _ _ _ => true | _ => false end.

Definition is_file (n : node) : bool :=
  match n with File _ _ => true | _ => false end.

(** [str(path.relative_to(root))] for a path given by its components. *)
Definition path_str (p : list str) : str :=
  match p with
  | [] => py "."
  | _ => PyStr.join (py "/") p
  end.

(** [path.suffix] and [path.stem], from the last component. *)
Definition path_suffix (name : str) : str :=
  match PyStr.rfind_char name 46%N with
  | Some i =>
      if (0 <? i)%nat && (i <? length name - 1)%nat then skipn i name else []
  | None => []
  end.

Definition path_stem (name : str) : str :=
  match PyStr.rfind_char name 46%N with
  | Some i =>
      if (0 <? i)%nat && (i <? length name - 1)%nat then firstn i name else name
  | None => name
  end.

(* ------------------------------------------------------------------ *)
(** ** Constants *)

Definition SKIP_DIRS : list str :=
  List.map py
    [".git"; "__pycache__"; "node_modules"; ".venv"; "venv"; "env";
     ".env"; "dist"; "build"; ".tox"; ".mypy_cache"; ".pytest_cache";
     "htmlcov"; ".eggs"; ".idea"; ".vscode"; "coverage";
     ".ruff_cache"; ".DS_Store"; "__pypackages__"; "site-packages";
     "target"; "vendor"; ".nx"]%string.

Definition SKIP_EXTENSIONS : list str :=
  List.map py
    [".pyc"; ".pyo"; ".pyd"; ".so"; ".dll"; ".dylib"; ".exe"; ".bin";
     ".jpg"; ".jpeg"; ".png"; ".gif"; ".ico"; ".webp"; ".bmp"; ".tiff";
     ".mp3"; ".mp4"; ".wav"; ".avi"; ".mov";
     ".pdf"; ".docx"; ".xlsx";
     ".zip"; ".tar"; ".gz"; ".bz2"; ".7z"; ".rar";
     ".db"; ".sqlite"; ".sqlite3";
     ".wasm"]%string.

Definition ENTRY_POINT_NAMES : list str :=
  List.map py
    ["main.py"; "__main__.py"; "app.py"; "run.py"; "cli.py"; "manage.py";
     "server.py"; "wsgi.py"; "asgi.py"; "index.js"; "index.ts";
     "app.js"; "server.js"; "main.js"; "main.ts"; "main.go"; "main.rs";
     "Makefile"; "Dockerfile"]%string.

Definition LANG_COMMENT : list (str * str) :=
  List.map (fun kv => (py (fst kv), py (snd kv)))
    [(".py", "#"); (".js", "//"); (".ts", "//"); (".jsx", "//");
     (".tsx", "//"); (".go", "//"); (".rs", "//"); (".java", "//");
     (".kt", "//"); (".c", "//"); (".cpp", "//"); (".h", "//");
     (".sh", "#"); (".bash", "#"); (".zsh", "#");
     (".rb", "#"); (".pl", "#"); (".lua", "--"); (".hs", "--");
     (".r", "#"); (".R", "#")]%string.

(** [d.get(k)] on a dict kept as an association list. *)
Fixpoint dict_get {V : Type} (d : list (str * V)) (k : str) : option V :=
  match d with
  | [] => None
  | (k', v) :: d' => if PyStr.eqb k k' then Some v else dict_get d' k
  end.

(** [d[k] = v]: an existing key keeps its place, a new one goes last. *)
Fixpoint dict_set {V : Type} (d : list (str * V)) (k : str) (v : V)
  : list (str * V) :=
  match d with
  | [] => [(k, v)]
  | (k', v') :: d' =>
      if PyStr.eqb k k' then (k, v) :: d' else (k', v') :: dict_set d' k v
  end.

(* ------------------------------------------------------------------ *)
(** ** File tree *)

Definition _should_skip (name : str) (path : node) : bool :=
  if PyStr.mem name SKIP_DIRS && is_dir path then true
  else if PyStr.startswith name (py ".") && is_dir path
          && negb (PyStr.mem name [py ".github"]) then true
  else if is_file path && PyStr.mem (path_suffix (node_name path)) SKIP_EXTENSIONS
       then true
  else if is_file path
          && (PyStr.endswith name (py ".min.js")
              || PyStr.endswith name (py ".min.css")) then true
  else false.

(** The lines of the tree, kept apart by kind; [render_line] gives the text
    that the source builds with its f-strings. *)
Inductive line : Type :=
| EntryLine (prefix connector name : str)
| Truncated (prefix : str) (more : nat)
| MaxDepth (prefix : str)
| PermissionDeniedLine (prefix : str).

Definition render_line (l : line) : str :=
  match l with
  | EntryLine prefix connector name => prefix ++ connector ++ name
  | Truncated prefix more =>
      prefix ++ py "... (" ++ PyStr.of_nat more ++ py " more items truncated)"
  | MaxDepth prefix => prefix ++ py "... (max depth reached)"
  | PermissionDeniedLine prefix => prefix ++ py "[permission denied]"
  end.

Definition line_prefix (l : line) : str :=
  match l with
  | EntryLine prefix _ _ | Truncated prefix _ | MaxDepth prefix
  | PermissionDeniedLine prefix => prefix
  end.

Definition is_entry_line (l : line) : bool :=
  match l with EntryLine _ _ _ => true | _ => false end.

Definition is_truncated (l : line) : bool :=
  match l with Truncated _ _ => true | _ => false end.

(** The connectors and the indentation under them. *)
Definition conn_last : str := [9492; 9472; 9472; 32]%N.
Definition conn_mid : str := [9500; 9472; 9472; 32]%N.
Definition ext_last : str := py "    ".
Definition ext_mid : str := [9474; 32; 32; 32]%N.

Section Tree.
Variable L : library.

(** The key [(p.is_file(), p.name.lower())] of the listing, compared as
    Python compares tuples. *)
Definition tree_key_lt (a b : node) : bool :=
  match is_file a, is_file b with
  | false, true => true
  | true, false => false
  | _, _ => PyStr.ltb (str_lower L (node_name a)) (str_lower L (node_name b))
  end.

(** [all_entries]: the listing sorted, the skipped entries removed,
    directories first, then files. *)
Definition all_entries (children : list node) : list node :=
  let entries := sorted tree_key_lt children in
  let entries := filter (fun e => negb (_should_skip (node_name e) e)) entries in
  filter is_dir entries ++ filter is_file entries.

(** The loop of [build_file_tree] over [all_entries] from index [i] on;
    [rec] is the call on a sub-directory. The counter is threaded. *)
Fixpoint tree_loop
    (rec : bool -> list node -> str -> Z -> list line * Z)
    (prefix : str) (max_files : Z) (total : nat)
    (rest : list node) (i : nat) (counter : Z) : list line * Z :=
  match rest with
  | [] => ([], counter)
  | entry :: rest' =>
      if (counter >=? max_files)%Z
      then ([Truncated prefix (total - i)], counter)
      else
        let is_last := Nat.eqb i (total - 1) in
        let connector := if is_last then conn_last else conn_mid in
        let extension := if is_last then ext_last else ext_mid in
        let line := EntryLine prefix connector (node_name entry) in
        let counter := (counter + 1)%Z in
        let '(sub, counter) :=
          match entry with
          | Dir _ readable children =>
              rec readable children (prefix ++ extension) counter
          | _ => ([], counter)
          end in
        let '(more, counter) :=
          tree_loop rec prefix max_files total rest' (S i) counter in
        (line :: sub ++ more, counter)
  end.

(** [build_file_tree] on a directory given by its listing. [levels] is
    [max_depth - current_depth + 1], so that [current_depth > max_depth]
    reads [levels = 0]; it decreases by one at each recursive call. *)
Fixpoint build_file_tree_from (levels : nat)
    (readable : bool) (children : list node)
    (prefix : str) (max_files : Z) (counter : Z) : list line * Z :=
  match levels with
  | O => ([MaxDepth prefix], counter)
  | S levels' =>
      if negb readable then ([PermissionDeniedLine prefix], counter)
      else
        let entries := all_entries children in
        tree_loop
          (fun r cs p c => build_file_tree_from levels' r cs p max_files c)
          prefix max_files (length entries) entries 0 counter
  end.

(** [build_file_tree(root, max_depth=..., max_files=...)] as
    [generate_map] calls it: empty prefix, depth 0, a fresh counter. *)
Definition build_file_tree_lines
    (readable : bool) (children : list node) (max_depth max_files : Z)
  : list line :=
  fst (build_file_tree_from (Z.to_nat (max_depth + 1)) readable children
         [] max_files 0).

Definition build_file_tree
    (readable : bool) (children : list node) (max_depth max_files : Z)
  : list str :=
  List.map render_line
    (build_file_tree_lines readable children max_depth max_files).
End Tree.

(* ------------------------------------------------------------------ *)
(** ** Walking the tree *)

(** [os.walk(root)] top-down, the loop body pruning [dirnames] in place
    with [_should_skip] as every caller does: for each directory visited,
    its components below the root and its entries that are not
    directories. A directory that cannot be listed yields nothing. *)
Fixpoint os_walk (here : list str) (n : node) : list (list str * list node) :=
  match n with
  | Dir _ true children =>
      (here, filter (fun c => negb (is_dir c)) children)
      :: flat_map
           (fun c =>
              if is_dir c && negb (_should_skip (node_name c) c)
              then os_walk (here ++ [node_name c]) c
              else [])
           children
  | _ => []
  end.

(** [root.rglob(pattern)] before the pattern is applied: every path below
    the root, no directory being pruned. *)
Fixpoint descendants (here : list str) (n : node) : list (list str * node) :=
  match n with
  | Dir _ true children =>
      flat_map
        (fun c =>
           (here ++ [node_name c], c) :: descendants (here ++ [node_name c]) c)
        children
  | _ => []
  end.

(** The node that a path of plain names denotes below [n], if any. *)
Fixpoint lookup (n : node) (comps : list str) : option node :=
  match comps with
  | [] => Some n
  | c :: rest =>
      match n with
      | Dir _ _ children =>
          match List.find (fun ch => PyStr.eqb (node_name ch) c) children with
          | Some ch => lookup ch rest
          | None => None
          end
      | _ => None
      end
  end.

(* ------------------------------------------------------------------ *)
(** ** Module descriptions *)

(** The default of [max_bytes] in [_read_safe]. *)
Definition max_bytes_default : nat := Z.to_nat 8192.

(** [open(path, "r", encoding="utf-8", errors="strict")] and
    [f.read(max_bytes)]; opening a directory raises [IsADirectoryError],
    an [OSError], and so does opening a [Special] node. *)
Definition open_read (path : node) (max_bytes : nat) : read_error + str :=
  match path with
  | File _ (Text content) => inr (firstn max_bytes content)
  | File _ (Unreadable e) => inl e
  | Dir _ _ _ | Special _ => inl OSError
  end.

Definition _read_safe (path : node) (max_bytes : nat) : option str :=
  match open_read path max_bytes with
  | inr text => Some text
  | inl (UnicodeDecodeError | ReadPermissionError | OSError) => None
  end.

Definition dq : str := [34%N].
Definition triple_dq_pattern : str :=
  dq ++ dq ++ dq ++ py "(.*?)" ++ dq ++ dq ++ dq.
Definition triple_sq_pattern : str := py "'''(.*?)'''".

Definition ast_get_docstring (tree : ast) : option str :=
  match tree with
  | Module docstring _ => docstring
  | _ => None
  end.

(** Truth of an optional string: [None] and the empty string are false. *)
Definition truthy (s : option str) : bool :=
  match s with
  | Some (_ :: _) => true
  | _ => false
  end.

(** The loop [while stripped.startswith("#")] of the regex fallback. When no
    line feed follows, [find] is -1, the slice is the whole string and the
    loop never ends. [fuel] bounds the number of turns by the length. *)
Fixpoint skip_hash_lines (fuel : nat) (stripped : str) : result str :=
  if PyStr.startswith stripped (py "#") then
    match fuel with
    | O => Diverges
    | S fuel' =>
        match PyStr.find stripped [10%N] with
        | None => Diverges
        | Some k => skip_hash_lines fuel' (PyStr.lstrip (skipn (k + 1) stripped))
        end
    end
  else Ret stripped.

Section Describe.
Variable L : library.

Definition extract_python_docstring (source : str) : result (option str) :=
  match ast_parse L source with
  | Some tree => Ret (ast_get_docstring tree)
  | None =>
      let stripped := PyStr.lstrip source in
      stripped <- skip_hash_lines (List.length stripped) stripped ;;
      let m := match re_match L triple_dq_pattern stripped with
               | Some g => Some g
               | None => re_match L triple_sq_pattern stripped
               end in
      match m with
      | Some g => Ret (Some (PyStr.strip g))
      | None => Ret None
      end
  end.

Fixpoint first_comment_in (lines : list str) (comment_char : str)
  : option str :=
  match lines with
  | [] => None
  | line :: rest =>
      let stripped := PyStr.strip line in
      if PyStr.startswith stripped comment_char then
        let text := PyStr.strip (PyStr.lstrip_chars stripped comment_char) in
        if truthy (Some text) && negb (PyStr.startswith text (py "!"))
        then Some text
        else first_comment_in rest comment_char
      else first_comment_in rest comment_char
  end.

Definition extract_first_comment (source comment_char : str) : option str :=
  first_comment_in (PyStr.splitlines source) comment_char.

(** [k in data] followed at once by [data[k]]: the value under [k], or
    [None] when [k in data] is false. Only a dict can be indexed by a
    string; [in] fails on values that are no containers. *)
Definition py_lookup (data : pyval) (k : str) : result (option pyval) :=
  match data with
  | VDict items => Ret (dict_get items k)
  | VList items =>
      if existsb (fun v => match v with
                           | VStr s => PyStr.eqb s k
                           | _ => false
                           end) items
      then Raise TypeError else Ret None
  | VStr s => if PyStr.contains s k then Raise TypeError else Ret None
  | _ => Raise TypeError
  end.

(** [sep.join(parts)] for a list of values: each must be a string. *)
Fixpoint str_parts (parts : list pyval) : result (list str) :=
  match parts with
  | [] => Ret []
  | VStr s :: rest => rest' <- str_parts rest ;; Ret (s :: rest')
  | _ :: _ => Raise TypeError
  end.

Definition option_to_list {A : Type} (o : option A) : list A :=
  match o with Some a => [a] | None => [] end.

Definition sentinel_unreadable : str := py "[binary or unreadable]".

(** The manifest branch of [describe_file] for [package.json]. *)
Definition describe_package_json (source : str) : result (option str) :=
  match json_loads L source with
  | None => Ret None
  | Some data =>
      name <- py_lookup data (py "name") ;;
      description <- py_lookup data (py "description") ;;
      let parts := option_to_list name ++ option_to_list description in
      match parts with
      | [] => Ret None
      | _ =>
          parts' <- str_parts parts ;;
          Ret (Some (PyStr.join (py " - ") parts'))
      end
  end.

Definition describe_manifest (name source : str) : result (option str) :=
  if PyStr.mem name [py "package.json"; py "pyproject.toml"; py "Cargo.toml"]
  then if PyStr.eqb name (py "package.json")
       then describe_package_json source
       else Ret None
  else Ret None.

Definition describe_comment (suffix name source : str)
  : result (option str) :=
  let comment :=
    match dict_get LANG_COMMENT suffix with
    | Some comment_char =>
        if truthy (Some comment_char)
        then extract_first_comment source comment_char
        else None
    | None => None
    end in
  if truthy comment then Ret comment else describe_manifest name source.

Definition describe_file (path : node) : result (option str) :=
  let suffix := str_lower L (path_suffix (node_name path)) in
  match _read_safe path max_bytes_default with
  | None => Ret (Some sentinel_unreadable)
  | Some source =>
      if PyStr.eqb suffix (py ".py") then
        doc <- extract_python_docstring source ;;
        if truthy doc then
          match PyStr.splitlines
                  (match doc with Some d => d | None => [] end) with
          | first :: _ => Ret (Some (PyStr.strip first))
          | [] => Raise IndexError
          end
        else describe_comment suffix (node_name path) source
      else describe_comment suffix (node_name path) source
  end.

(** The inner loop of [collect_module_descriptions] over the sorted file
    names of one directory; the state is the mapping and the count. The
    [break] leaves the loop over this directory only. *)
Fixpoint describe_files (here : list str) (max_files : Z)
    (files : list node) (st : list (str * str) * Z)
  : result (list (str * str) * Z) :=
  match files with
  | [] => Ret st
  | f :: rest =>
      if _should_skip (node_name f) f
      then describe_files here max_files rest st
      else
        let '(descriptions, count) := st in
        if (count >=? max_files)%Z then Ret st
        else
          let rel := path_str (here ++ [node_name f]) in
          desc <- describe_file f ;;
          let descriptions :=
            if truthy desc
            then dict_set descriptions rel
                   (match desc with Some d => d | None => [] end)
            else descriptions in
          describe_files here max_files rest (descriptions, (count + 1)%Z)
  end.

Fixpoint describe_dirs (max_files : Z)
    (visits : list (list str * list node)) (st : list (str * str) * Z)
  : result (list (str * str) * Z) :=
  match visits with
  | [] => Ret st
  | (here, filenames) :: rest =>
      let files :=
        sorted (fun a b => PyStr.ltb (node_name a) (node_name b)) filenames in
      st <- describe_files here max_files files st ;;
      describe_dirs max_files rest st
  end.

Definition collect_module_descriptions (root : node) (max_files : Z)
  : result (list (str * str)) :=
  st <- describe_dirs max_files (os_walk [] root) ([], 0%Z) ;;
  Ret (fst st).
End Describe.

(* ------------------------------------------------------------------ *)
(** ** Entry points *)

Record entry_point : Type := {
  ep_path : str;
  ep_type : str;
  ep_reason : str
}.

(** The key [(e["type"], e["path"])] of the final sort. *)
Definition entry_key_lt (a b : entry_point) : bool :=
  match PyStr.compare (ep_type a) (ep_type b) with
  | Lt => true
  | Gt => false
  | Eq => PyStr.ltb (ep_path a) (ep_path b)
  end.

(** The closure [add] of [find_entry_points] on the state it mutates: the
    list [entries] and the set [seen]. A call is given by the record that it
    would append, its path already made relative to the root. *)
Definition ep_state : Type := (list entry_point * list str)%type.

Definition add (st : ep_state) (call : entry_point) : ep_state :=
  let '(entries, seen) := st in
  if negb (PyStr.mem (ep_path call) seen)
  then (entries ++ [call], ep_path call :: seen)
  else st.

(** [fpath.parent / target]: the components of [target] that pathlib keeps
    (empty components and [.] are dropped, [..] stays). *)
Definition target_parts (target : str) : list str :=
  filter (fun c => negb (PyStr.eqb c []) && negb (PyStr.eqb c (py ".")))
    (PyStr.split target 47%N).

Definition is_plain (target : str) : bool :=
  negb (PyStr.startswith target (py "/"))
  && negb (PyStr.mem (py "..") (target_parts target)).

(** The loops of [find_entry_points] read neither [entries] nor [seen]: they
    only call [add]. They are embedded as the sequence of these calls, which
    [find_entry_points] then runs through [add] in order. *)
Section EntryPoints.
Variable L : library.
Variable root : node.

Definition _has_python_main_guard (source : str) : bool :=
  match ast_parse L source with
  | Some tree =>
      existsb
        (fun node =>
           match node with
           | If (Compare (Name id) _) _ _ => PyStr.eqb id (py "__name__")
           | _ => false
           end)
        (ast_walk tree)
  | None => false
  end.

Definition _classify_entry (fname : str) : str :=
  let name_lower := str_lower L fname in
  if PyStr.mem name_lower
       [py "dockerfile"; py "docker-compose.yml"; py "docker-compose.yaml"]
  then py "docker"
  else if PyStr.eqb name_lower (py "makefile") then py "build"
  else if PyStr.mem name_lower
            [py "setup.py"; py "pyproject.toml"; py "setup.cfg"]
  then py "package"
  else if PyStr.mem name_lower [py "wsgi.py"; py "asgi.py"]
  then py "web-server"
  else if PyStr.eqb name_lower (py "manage.py") then py "django"
  else py "python-main".

(** [(fpath.parent / target).exists()], [here] being the directory of
    the manifest. The test is total: a target whose name the operating
    system refuses, and for which [exists()] raises [OSError], has no
    outcome here. *)
Definition target_exists (here : list str) (target : str) : bool :=
  if is_plain target
  then match lookup root (here ++ target_parts target) with
       | Some _ => true
       | None => false
       end
  else exists_outside L here target.

(** [str((fpath.parent / target).relative_to(root))] *)
Definition target_rel (here : list str) (target : str) : result str :=
  if PyStr.startswith target (py "/")
  then match relative_to_root L target with
       | Some comps => Ret (path_str comps)
       | None => Raise ValueError
       end
  else Ret (path_str (here ++ target_parts target)).

(** The [main] field of a manifest. *)
Definition main_calls (here : list str) (rel : str) (data : pyval)
  : result (list entry_point) :=
  main <- py_lookup data (py "main") ;;
  match main with
  | None => Ret []
  | Some (VStr target) =>
      if target_exists here target
      then main_rel <- target_rel here target ;;
           Ret [{| ep_path := main_rel;
                   ep_type := py "node-main";
                   ep_reason := py "referenced as `main` in " ++ rel |}]
      else Ret [{| ep_path := rel;
                   ep_type := py "node-config";
                   ep_reason := py "`main` field: " ++ target |}]
  | Some _ => Raise TypeError
  end.

(** The loop over the items of the [bin] mapping. *)
Fixpoint bin_items_calls (here : list str) (rel : str)
    (items : list (str * pyval)) : result (list entry_point) :=
  match items with
  | [] => Ret []
  | (bin_name, VStr bin_path) :: rest =>
      bp_rel <- (if target_exists here bin_path
                 then target_rel here bin_path else Ret rel) ;;
      calls <- bin_items_calls here rel rest ;;
      Ret ({| ep_path := bp_rel;
              ep_type := py "cli-binary";
              ep_reason := py "npm bin `" ++ bin_name ++ py "`" |} :: calls)
  | (_, _) :: _ => Raise TypeError
  end.

Definition bin_calls (here : list str) (rel : str) (data : pyval)
  : result (list entry_point) :=
  bin <- py_lookup data (py "bin") ;;
  match bin with
  | Some (VDict items) => bin_items_calls here rel items
  | _ => Ret []
  end.

Definition canonical_calls (rel fname : str) : list entry_point :=
  if PyStr.mem fname ENTRY_POINT_NAMES
  then [{| ep_path := rel;
           ep_type := _classify_entry fname;
           ep_reason :=
             py "canonical entry-point filename `" ++ fname ++ py "`" |}]
  else [].

Definition guard_calls (rel : str) (f : node) : list entry_point :=
  if PyStr.endswith (node_name f) (py ".py")
  then match _read_safe f max_bytes_default with
       | Some (c :: source) =>
           if _has_python_main_guard (c :: source)
           then [{| ep_path := rel;
                    ep_type := py "python-script";
                    ep_reason := py "contains `if __name__ == '__main__'`" |}]
           else []
       | _ => []
       end
  else [].

Definition manifest_calls (here : list str) (rel : str) (f : node)
  : result (list entry_point) :=
  if PyStr.eqb (node_name f) (py "package.json")
  then match _read_safe f max_bytes_default with
       | Some (c :: source) =>
           match json_loads L (c :: source) with
           | Some data =>
               main <- main_calls here rel data ;;
               bin <- bin_calls here rel data ;;
               Ret (main ++ bin)
           | None => Ret []
           end
       | _ => Ret []
       end
  else Ret [].

(** The body of the loop over the file names of one directory. *)
Definition file_calls (here : list str) (f : node)
  : result (list entry_point) :=
  let fname := node_name f in
  let rel := path_str (here ++ [fname]) in
  manifest <- manifest_calls here rel f ;;
  Ret (canonical_calls rel fname ++ guard_calls rel f ++ manifest).

Fixpoint files_calls (here : list str) (files : list node)
  : result (list entry_point) :=
  match files with
  | [] => Ret []
  | f :: rest =>
      calls <- file_calls here f ;;
      more <- files_calls here rest ;;
      Ret (calls ++ more)
  end.

Fixpoint dirs_calls (visits : list (list str * list node))
  : result (list entry_point) :=
  match visits with
  | [] => Ret []
  | (here, filenames) :: rest =>
      calls <- files_calls here filenames ;;
      more <- dirs_calls rest ;;
      Ret (calls ++ more)
  end.

Definition add_calls : result (list entry_point) :=
  dirs_calls (os_walk [] root).

Definition find_entry_points : result (list entry_point) :=
  calls <- add_calls ;;
  Ret (sorted entry_key_lt (fst (fold_left add calls ([], [])))).
End EntryPoints.

(* ------------------------------------------------------------------ *)
(** ** Dependency graph *)

Record deps : Type := {
  local : list str;
  external : list str
}.

Definition js_import_from_pattern : str :=
  py "import\s+.*?\s+from\s+[" ++ dq ++ py "\']([^" ++ dq ++ py "\']+)["
  ++ dq ++ py "\']".
Definition js_require_pattern : str :=
  py "require\s*\(\s*[" ++ dq ++ py "\']([^" ++ dq ++ py "\']+)[" ++ dq
  ++ py "\']\s*\)".
Definition js_dynamic_import_pattern : str :=
  py "import\s*\(\s*[" ++ dq ++ py "\']([^" ++ dq ++ py "\']+)[" ++ dq
  ++ py "\']\s*\)".

Section DepGraph.
Variable L : library.

Definition first_component (dotted : str) : str :=
  match PyStr.split dotted 46%N with
  | first :: _ => first
  | [] => []
  end.

Definition imports_of_node (node : ast) : list str :=
  match node with
  | Import names => List.map first_component names
  | ImportFrom module level =>
      if truthy module && Nat.eqb level 0
      then [first_component (match module with Some m => m | None => [] end)]
      else if Nat.ltb 0 level
      then [PyStr.repeat_char 46%N level
            ++ match module with Some m => m | None => [] end]
      else []
  | _ => []
  end.

Definition _collect_python_imports (source : str) : list str :=
  match ast_parse L source with
  | Some tree => flat_map imports_of_node (ast_walk tree)
  | None => []
  end.

Definition _collect_js_imports (source : str) : list str :=
  flat_map (fun pat => re_finditer L pat source)
    [js_import_from_pattern; js_require_pattern; js_dynamic_import_pattern].

(** The first loop of [build_dep_graph]: the names of the local Python
    modules, from every path below the root that matches [*.py]. *)
Definition local_py_modules (root : node) : list str :=
  flat_map
    (fun pn : list str * node =>
       let '(parts, n) := pn in
       if PyStr.endswith (node_name n) (py ".py") then
         match parts with
         | [_] => [path_stem (node_name n)]
         | first :: _ :: _ => [first]
         | [] => []
         end
       else [])
    (descendants [] root).

Definition js_suffixes : list str :=
  [py ".js"; py ".ts"; py ".jsx"; py ".tsx"; py ".mjs"; py ".cjs"].

(** The body of the second loop, for one file. *)
Definition graph_file (local_modules : list str) (here : list str)
    (f : node) (graph : list (str * deps)) : list (str * deps) :=
  let suffix := str_lower L (path_suffix (node_name f)) in
  let rel := path_str (here ++ [node_name f]) in
  match _read_safe f max_bytes_default with
  | None => graph
  | Some source =>
      if PyStr.eqb suffix (py ".py") then
        let imports := dedup (_collect_python_imports source) in
        let is_local imp :=
          PyStr.startswith imp (py ".") || PyStr.mem imp local_modules in
        let local := filter is_local imports in
        let external := filter (fun imp => negb (is_local imp)) imports in
        match local ++ external with
        | [] => graph
        | _ => dict_set graph rel
                 {| local := sorted PyStr.ltb local;
                    external := sorted PyStr.ltb external |}
        end
      else if PyStr.mem suffix js_suffixes then
        let imports := _collect_js_imports source in
        let local :=
          sorted PyStr.ltb
            (dedup (filter (fun i => PyStr.startswith i (py ".")) imports)) in
        let external :=
          sorted PyStr.ltb
            (dedup (filter (fun i => negb (PyStr.startswith i (py ".")))
                      imports)) in
        match local ++ external with
        | [] => graph
        | _ => dict_set graph rel {| local := local; external := external |}
        end
      else graph
  end.

Definition build_dep_graph (root : node) : list (str * deps) :=
  let local_modules := local_py_modules root in
  fold_left
    (fun graph visit =>
       fold_left (fun graph f => graph_file local_modules (fst visit) f graph)
         (snd visit) graph)
    (os_walk [] root) [].
End DepGraph.

(* ------------------------------------------------------------------ *)
(** ** The report: external dependencies, and the fatal conditions *)

(** [all_external[ext] += 1] on a [defaultdict(int)]. *)
Definition dict_incr (d : list (str * Z)) (k : str) : list (str * Z) :=
  dict_set d k (match dict_get d k with Some c => c | None => 0%Z end + 1)%Z.

Definition all_external (graph : list (str * deps)) : list (str * Z) :=
  fold_left (fun acc d => fold_left dict_incr (external (snd d)) acc) graph [].

(** [sorted(all_external.items(), key=lambda x: -x[1])[:20]] *)
Definition top_external (graph : list (str * deps)) : list (str * Z) :=
  firstn 20
    (sorted (fun a b => (- snd a <? - snd b)%Z) (all_external graph)).

Definition str_of_Z (z : Z) : str :=
  match z with
  | Zneg _ => py "-" ++ PyStr.of_nat (Z.abs_nat z)
  | _ => PyStr.of_nat (Z.abs_nat z)
  end.

(** The lines of the section "External Dependencies". *)
Definition external_dependencies_lines (graph : list (str * deps)) : list str :=
  match all_external graph with
  | [] => []
  | _ =>
      [py "### External Dependencies"; []]
      ++ List.map
           (fun pc : str * Z =>
              py "- `" ++ fst pc ++ py "` (imported in " ++ str_of_Z (snd pc)
              ++ py " file" ++ (if (snd pc >? 1)%Z then py "s" else [])
              ++ py ")")
           (top_external graph)
      ++ [[]]
  end.

(** The first lines of [generate_map]: the target must exist and be a
    directory. [target] is what [Path(directory).resolve()] denotes. *)
Definition generate_map_root (directory : str) (target : option node)
  : result node :=
  match target with
  | None => Raise (FileNotFoundError (py "Directory not found: " ++ directory))
  | Some (Dir name readable children) => Ret (Dir name readable children)
  | Some _ => Raise (NotADirectoryError (py "Not a directory: " ++ directory))
  end.

(** What the process does at its end: the text printed on the error stream
    and the exit status, or an exception that nothing catches. *)
Inductive termination : Type :=
| Exit (stderr : str) (status : Z)
| Uncaught (e : exn)
| Hangs.

(** The [try] statement of [main] around [generate_map], whose outcome is
    [run]; on success the report goes to the standard output (or the note
    "Map written to" to the error stream when [output] is given). *)
Definition main_handler (output : option str) (run : result str)
  : termination :=
  match run with
  | Ret _ =>
      match output with
      | Some file => Exit (py "Map written to: " ++ file ++ [10%N]) 0
      | None => Exit [] 0
      end
  | Raise (FileNotFoundError msg) => Exit (py "Error: " ++ msg ++ [10%N]) 1
  | Raise (NotADirectoryError msg) => Exit (py "Error: " ++ msg ++ [10%N]) 1
  | Raise (PermissionError msg) =>
      Exit (py "Error: permission denied - " ++ msg ++ [10%N]) 1
  | Raise KeyboardInterrupt => Exit ([10%N] ++ py "Aborted." ++ [10%N]) 130
  | Raise e => Uncaught e
  | Diverges => Hangs
  end.

(** [main] up to the point where the target is checked: a missing target and
    a target that is no directory stop [generate_map] at once; otherwise the
    run goes on to [rest], which an interrupt may end. *)
Definition main (directory : str) (output : option str)
    (target : option node) (rest : node -> result str) : termination :=
  main_handler output (root <- generate_map_root directory target ;; rest root).

(* ------------------------------------------------------------------ *)
(** ** Vocabulary of the properties of the file tree *)

Definition count_entries (ls : list line) : nat :=
  List.length (filter is_entry_line ls).

Definition has_truncation (ls : list line) : bool := existsb is_truncated ls.

(** The lines that a call emits for the directory itself, apart from those
    of the calls on its sub-directories: they carry the prefix of the call. *)
Definition own_level (prefix : str) (ls : list line) : list line :=
  filter (fun l => PyStr.eqb (line_prefix l) prefix) ls.

(** The entry lines of the siblings [es], the first of which has index [i]
    among [total]. *)
Fixpoint entry_lines (prefix : str) (total i : nat) (es : list node)
  : list line :=
  match es with
  | [] => []
  | e :: es' =>
      EntryLine prefix (if Nat.eqb i (total - 1) then conn_last else conn_mid)
        (node_name e)
      :: entry_lines prefix total (S i) es'
  end.

Section TreeVocabulary.
Variable L : library.
Variable max_files : Z.

(** The number of entries that the walk lists when no budget stops it. *)
Fixpoint listable (levels : nat) (readable : bool) (children : list node)
  : nat :=
  match levels with
  | O => 0
  | S levels' =>
      if negb readable then 0
      else list_sum
             (List.map
                (fun e => S match e with
                            | Dir _ r cs => listable levels' r cs
                            | _ => 0
                            end)
                (all_entries L children))
  end.

(** What a call that starts with the counter at [c] and has [n] entries to
    list returns. *)
Definition call_ok (n : nat) (c : Z) (out : list line * Z) : Prop :=
  (c <= snd out
   /\ Z.of_nat (count_entries (fst out)) = snd out - c
   /\ snd out <= Z.max c max_files
   /\ (c + Z.of_nat n <= max_files ->
       snd out = c + Z.of_nat n /\ has_truncation (fst out) = false)
   /\ ((0 < n)%nat -> max_files < c + Z.of_nat n ->
       has_truncation (fst out) = true /\ max_files <= snd out))%Z.

End TreeVocabulary.

(** The entries that one sibling accounts for: itself and, for a directory,
    the [weight] of its listing. *)
Definition entry_weight (weight : bool -> list node -> nat) (e : node) : nat :=
  S match e with Dir _ r cs => weight r cs | _ => 0 end.

(* ------------------------------------------------------------------ *)
(** ** Vocabulary of the other properties *)

(** Ascending order of strings, and of the keys of the two sorts. *)
Definition str_le (a b : str) : Prop := PyStr.ltb b a = false.
Definition str_lt (a b : str) : Prop := PyStr.ltb a b = true.
Definition entry_key_le (a b : entry_point) : Prop := entry_key_lt b a = false.

(** The categories that the spec enumerates, and those of the code. *)
Definition spec_categories : list str :=
  List.map py
    ["docker"; "build"; "package"; "web-server"; "script-framework";
     "generic-script"; "node-main"; "node-config"; "cli-binary"]%string.

Definition code_categories : list str :=
  List.map py
    ["docker"; "build"; "package"; "web-server"; "django"; "python-main";
     "python-script"; "node-main"; "node-config"; "cli-binary"]%string.

(** [reaches n p d]: [d] is the directory at the path [p] below [n], every
    directory entered on the way being listable, and none of those below [n]
    being matched by the skip predicate. *)
Inductive reaches : node -> list str -> node -> Prop :=
| reaches_here (n : node) : reaches n [] n
| reaches_step (name : str) (cs : list node) (c : node) (p : list str)
    (d : node) :
    In c cs ->
    is_dir c = true ->
    _should_skip (node_name c) c = false ->
    reaches c p d ->
    reaches (Dir name true cs) (node_name c :: p) d.

(** [listed root e]: the entry [e] is not skipped and lies in a directory
    that [reaches] finds. *)
Definition listed (root e : node) : Prop :=
  exists here name cs,
    reaches root here (Dir name true cs) /\ In e cs
    /\ _should_skip (node_name e) e = false.

(** [walked root p f]: [f] is no directory, lies in a directory that
    [reaches] finds, and [p] is its path below the root. *)
Definition walked (root : node) (p : list str) (f : node) : Prop :=
  exists here name cs,
    reaches root here (Dir name true cs) /\ In f cs /\ is_dir f = false
    /\ p = here ++ [node_name f].

Definition line_name (l : line) : str :=
  match l with
  | EntryLine _ _ name => name
  | _ => []
  end.

(** Ties in ascending order of name: in a list of packages with their
    counts, of two packages with the same count the one listed first does not
    have the greater name. *)
Definition ties_by_name (top : list (str * Z)) : Prop :=
  forall pre mid post p q n,
    top = pre ++ (p, n) :: mid ++ (q, n) :: post -> PyStr.ltb q p = false.

Definition exit_status (t : termination) : option Z :=
  match t with
  | Exit _ status => Some status
  | _ => None
  end.

Definition exit_stderr (t : termination) : option str :=
  match t with
  | Exit stderr _ => Some stderr
  | _ => None
  end.

Definition contains_linebreak (s : str) : bool := existsb PyStr.is_linebreak s.

(** A description is trimmed when stripping it changes nothing. *)
Definition trimmed (s : str) : Prop := PyStr.strip s = s.

(** The keys of the counting dict after one more key is counted. *)
Definition add_key (ks : list str) (k : str) : list str :=
  if PyStr.mem k ks then ks else ks ++ [k].

(** The number of occurrences of a string in a list. *)
Fixpoint occurrences (l : list str) (k : str) : nat :=
  match l with
  | [] => 0
  | x :: l' => (if PyStr.eqb k x then 1 else 0) + occurrences l' k
  end.

(** The records that the calls [calls] leave in [entries], [seen] being the
    paths recorded before. *)
Fixpoint keep_first (calls : list entry_point) (seen : list str)
  : list entry_point :=
  match calls with
  | [] => []
  | c :: rest =>
      if PyStr.mem (ep_path c) seen then keep_first rest seen
      else c :: keep_first rest (ep_path c :: seen)
  end.

(* ------------------------------------------------------------------ *)
(** ** Sample inputs

    A library that tabulates what the interpreter computes on the texts of
    the examples below, and the directory trees of these examples. *)

Module Sample.

(** [str.lower] on ASCII text. *)
Definition lower_ascii (s : str) : str :=
  List.map (fun c => if (65 <=? c)%N && (c <=? 90)%N then (c + 32)%N else c) s.

Definition nl : str := [10%N].

Definition src_main : str :=
  py "if __name__ == " ++ dq ++ py "__main__" ++ dq ++ py ": pass".
Definition src_utils : str := py "import os" ++ nl ++ py "import helpers" ++ nl.
Definition src_helpers : str := py "pass".
Definition src_import_zlib : str := py "import zlib" ++ nl.
Definition src_import_abc : str := py "import abc" ++ nl.

(** The syntax trees of these sources; [Node []] stands for the statement
    [pass] and for the string constant of the comparison. *)
Definition ast_main : ast :=
  Module None [If (Compare (Name (py "__name__")) [Node []]) [Node []] []].
Definition ast_utils : ast :=
  Module None [Import [py "os"]; Import [py "helpers"]].
Definition ast_helpers : ast := Module None [Node []].

Definition parse (s : str) : option ast :=
  if PyStr.eqb s src_main then Some ast_main
  else if PyStr.eqb s src_utils then Some ast_utils
  else if PyStr.eqb s src_helpers then Some ast_helpers
  else if PyStr.eqb s src_import_zlib then Some (Module None [Import [py "zlib"]])
  else if PyStr.eqb s src_import_abc then Some (Module None [Import [py "abc"]])
  else None.

(** [{"name": "pkg", "description": "first\nsecond"}], the line feed being
    written as an escape in the JSON text. *)
Definition json_two_lines : str :=
  py "{" ++ dq ++ py "name" ++ dq ++ py ": " ++ dq ++ py "pkg" ++ dq ++ py ", "
  ++ dq ++ py "description" ++ dq ++ py ": " ++ dq ++ py "first\nsecond" ++ dq
  ++ py "}".

(** [{"main": "dist/bundle.js"}] *)
Definition json_main_dist : str :=
  py "{" ++ dq ++ py "main" ++ dq ++ py ": " ++ dq ++ py "dist/bundle.js" ++ dq
  ++ py "}".

Definition loads (s : str) : option pyval :=
  if PyStr.eqb s json_two_lines then
    Some (VDict [(py "name", VStr (py "pkg"));
                 (py "description", VStr (py "first" ++ nl ++ py "second"))])
  else if PyStr.eqb s json_main_dist then
    Some (VDict [(py "main", VStr (py "dist/bundle.js"))])
  else None.

Definition lib : library := {|
  ast_parse := parse;
  json_loads := loads;
  re_match := fun _ _ => None;
  re_finditer := fun _ _ => [];
  str_lower := lower_ascii;
  exists_outside := fun _ _ => false;
  relative_to_root := fun _ => None
|}.

(** The directory of the round-trip scenario. *)
Definition scenario_files : list node :=
  [File (py "main.py") (Text src_main);
   File (py "utils.py") (Text src_utils);
   File (py "helpers.py") (Text src_helpers)].

Definition scenario : node := Dir (py "project") true scenario_files.

(** Two modules that each import one external package. *)
Definition two_imports : node :=
  Dir (py "project") true
    [File (py "a.py") (Text src_import_zlib);
     File (py "b.py") (Text src_import_abc)].

(** A manifest whose [main] field points into the build output. *)
Definition bundle : node := File (py "bundle.js") (Text (py "// bundle")).
Definition dist : node := Dir (py "dist") true [bundle].
Definition with_dist : node :=
  Dir (py "project") true
    [File (py "package.json") (Text json_main_dist); dist].

(** A manifest whose description has two lines, and a file that is no text. *)
Definition manifest_two_lines : node :=
  File (py "package.json") (Text json_two_lines).
Definition image : node := File (py "image.png") (Unreadable UnicodeDecodeError).

(** A directory with a sub-directory and three files. *)
Definition small_tree : list node :=
  [File (py "main.py") (Text src_main);
   File (py "utils.py") (Text src_utils);
   File (py "helpers.py") (Text src_helpers);
   Dir (py "sub") true
     [File (py "a.txt") (Text []); File (py "B.txt") (Text [])]].

End Sample.

(** What the interpreter computes on the texts of the scenario: the syntax
    trees of the three sources, and the lower case of the two strings that
    the program puts in lower case. *)
Definition scenario_facts (L : library) : Prop :=
  ast_parse L Sample.src_main = Some Sample.ast_main
  /\ ast_parse L Sample.src_utils = Some Sample.ast_utils
  /\ ast_parse L Sample.src_helpers = Some Sample.ast_helpers
  /\ str_lower L (py ".py") = py ".py"
  /\ str_lower L (py "main.py") = py "main.py".

(* ------------------------------------------------------------------ *)
(** ** Vocabulary of the further properties *)

(** The depth of a line below the directory of a call that has the prefix
    [p] and may still list [levels] levels: the prefix of the line is four
    characters longer for each level; the sentinel of the depth limit sits
    just below the last level, every other line within the levels. *)
Definition depth_ok (p : str) (levels : nat) (l : line) : Prop :=
  match l with
  | MaxDepth pre => List.length pre = List.length p + 4 * levels
  | _ =>
      exists d,
        d < levels /\ List.length (line_prefix l) = List.length p + 4 * d
  end.

(** Ascending order of the keys of the listing, and of the names in lower
    case. *)
Definition tree_key_le (L : library) (a b : node) : Prop :=
  tree_key_lt L b a = false.

Definition name_le (L : library) (a b : node) : Prop :=
  PyStr.ltb (str_lower L (node_name b)) (str_lower L (node_name a)) = false.

(** The values of [json.loads] that are no containers: the operator [in]
    fails on them. *)
Definition is_scalar (v : pyval) : bool :=
  match v with
  | VNone | VBool _ | VInt _ | VFloat _ => true
  | _ => false
  end.

(** The invariant of the two loops of [collect_module_descriptions]: the
    keys are distinct, no description is empty, and the counter bounds the
    number of descriptions and stays within the budget. *)
Definition descriptions_ok (max_files : Z) (st : list (str * str) * Z)
  : Prop :=
  NoDup (List.map fst (fst st))
  /\ (forall k v, In (k, v) (fst st) -> v <> [])
  /\ (Z.of_nat (List.length (fst st)) <= snd st)%Z
  /\ (snd st <= Z.max 0 max_files)%Z.

(* ------------------------------------------------------------------ *)
(** ** Statistics of the overview *)

(** [os.walk(root)] as [os_walk], the directory names that the pruning of
    the loop body keeps being given as well: for each directory visited,
    its components below the root, its sub-directories that are not
    skipped, and its entries that are not directories. *)
Fixpoint os_walk_dirs (here : list str) (n : node)
  : list (list str * list node * list node) :=
  match n with
  | Dir _ true children =>
      (here,
       filter (fun c => is_dir c && negb (_should_skip (node_name c) c))
         children,
       filter (fun c => negb (is_dir c)) children)
      :: flat_map
           (fun c =>
              if is_dir c && negb (_should_skip (node_name c) c)
              then os_walk_dirs (here ++ [node_name c]) c
              else [])
           children
  | _ => []
  end.

Record stats : Type := {
  total_files : Z;
  total_dirs : Z;
  top_extensions : list (str * Z)
}.

Section Stats.
Variable L : library.

(** [fpath.suffix.lower() or "(no ext)"] *)
Definition ext_key (f : node) : str :=
  match str_lower L (path_suffix (node_name f)) with
  | [] => py "(no ext)"
  | suffix => suffix
  end.

(** The body of the loop over the file names: the state is [counts] and
    [total_files]. *)
Definition count_file (st : list (str * Z) * Z) (f : node)
  : list (str * Z) * Z :=
  if negb (_should_skip (node_name f) f)
  then (dict_incr (fst st) (ext_key f), (snd st + 1)%Z)
  else st.

(** The body of the loop over the directories visited. *)
Definition count_visit (st : list (str * Z) * Z * Z)
    (visit : list str * list node * list node) : list (str * Z) * Z * Z :=
  let '(files_st, total_dirs) := st in
  let '(_, dirnames, filenames) := visit in
  (fold_left count_file filenames files_st,
   (total_dirs + Z.of_nat (List.length dirnames))%Z).

Definition _count_stats (root : node) : stats :=
  let '(counts, total_files, total_dirs) :=
    fold_left count_visit (os_walk_dirs [] root) ([], 0%Z, 0%Z) in
  {| total_files := total_files;
     total_dirs := total_dirs;
     top_extensions :=
       firstn 8 (sorted (fun a b => (- snd a <? - snd b)%Z) counts) |}.
End Stats.

(** The files that the walks of [_count_stats] and
    [collect_module_descriptions] take into account: the entries of the
    visited directories that are no directories and are not skipped. *)
Definition counted_files (root : node) : list node :=
  flat_map
    (fun v : list str * list node =>
       filter (fun f => negb (_should_skip (node_name f) f)) (snd v))
    (os_walk [] root).

Definition sum_counts (items : list (str * Z)) : Z :=
  fold_right Z.add 0%Z (List.map snd items).

(** What one visit of the walk adds to [total_dirs] and [total_files]. *)
Definition visit_weight (v : list str * list node * list node) : nat :=
  List.length (snd (fst v))
  + List.length (filter (fun f => negb (_should_skip (node_name f) f)) (snd v)).

Definition walk_weight (visits : list (list str * list node * list node))
  : nat :=
  list_sum (List.map visit_weight visits).

(** A tree all of whose entries are directories or regular files, and the
    number of levels of directories in a tree. *)
Fixpoint all_regular (n : node) : bool :=
  match n with
  | File _ _ => true
  | Dir _ _ children => forallb all_regular children
  | Special _ => false
  end.

Fixpoint height (n : node) : nat :=
  match n with
  | Dir _ _ children => S (list_max (List.map height children))
  | _ => 0
  end.

(* ------------------------------------------------------------------ *)
(** ** The diagram of the local dependencies *)

(** An edge line of the diagram, kept apart by its parts; [render_edge]
    gives the text of the f-string. *)
Record mermaid_edge : Type := {
  me_src_id : str;
  me_src_label : str;
  me_tgt_id : str;
  me_tgt_label : str
}.

Definition render_edge (e : mermaid_edge) : str :=
  py "    " ++ me_src_id e ++ py "[" ++ dq ++ me_src_label e ++ dq
  ++ py "] --> " ++ me_tgt_id e ++ py "[" ++ dq ++ me_tgt_label e ++ dq
  ++ py "]".

(** The closure [node_id] on the dict [node_ids] that it mutates: the
    identifier of the path, and the dict after the call. *)
Definition node_id (node_ids : list (str * str)) (path : str)
  : str * list (str * str) :=
  match dict_get node_ids path with
  | Some id => (id, node_ids)
  | None =>
      let id := py "N" ++ PyStr.of_nat (List.length node_ids) in
      (id, dict_set node_ids path id)
  end.

(** The order of the tuples [(src, tgt)]. *)
Definition edge_lt (a b : str * str) : bool :=
  match PyStr.compare (fst a) (fst b) with
  | Lt => true
  | Gt => false
  | Eq => PyStr.ltb (snd a) (snd b)
  end.

Definition edge_eqb (a b : str * str) : bool :=
  PyStr.eqb (fst a) (fst b) && PyStr.eqb (snd a) (snd b).

(** The set [edges] iterated: each tuple once. *)
Fixpoint dedup_edges (xs : list (str * str)) : list (str * str) :=
  match xs with
  | [] => []
  | x :: xs' => x :: filter (fun y => negb (edge_eqb x y)) (dedup_edges xs')
  end.

(** [Path(src).stem]: the stem of the last component that pathlib keeps. *)
Definition stem_of_path (src : str) : str :=
  path_stem (last (target_parts src) []).

(** [tgt.lstrip(".") or tgt] *)
Definition target_label (tgt : str) : str :=
  match PyStr.lstrip_chars tgt (py ".") with
  | [] => tgt
  | label => label
  end.

(** The loop over [sorted(edges)]; the state is [node_ids]. *)
Fixpoint mermaid_edges (edges : list (str * str))
    (node_ids : list (str * str)) : list mermaid_edge * list (str * str) :=
  match edges with
  | [] => ([], node_ids)
  | (src, tgt) :: rest =>
      let '(src_id, node_ids) := node_id node_ids src in
      let '(tgt_id, node_ids) := node_id node_ids tgt in
      let line :=
        {| me_src_id := src_id; me_src_label := stem_of_path src;
           me_tgt_id := tgt_id; me_tgt_label := target_label tgt |} in
      let '(lines, node_ids) := mermaid_edges rest node_ids in
      (line :: lines, node_ids)
  end.

(** The tuples [(src, local)] of the graph, and the set [edges] sorted. *)
Definition graph_edges (graph : list (str * deps)) : list (str * str) :=
  flat_map (fun sd : str * deps => List.map (pair (fst sd)) (local (snd sd)))
    graph.

Definition sorted_edges (graph : list (str * deps)) : list (str * str) :=
  sorted edge_lt (dedup_edges (graph_edges graph)).

Definition mermaid_edge_lines (graph : list (str * deps))
  : list mermaid_edge :=
  fst (mermaid_edges (sorted_edges graph) []).

Definition _build_mermaid_graph (graph : list (str * deps)) : list str :=
  match dedup_edges (graph_edges graph) with
  | [] => []
  | _ =>
      [py "```mermaid"; py "graph TD"]
      ++ List.map render_edge (mermaid_edge_lines graph)
      ++ [py "```"]
  end.

(** The dict [node_ids] numbers its keys in the order of their insertion. *)
Definition node_ids_ok (node_ids : list (str * str)) : Prop :=
  NoDup (List.map fst node_ids)
  /\ List.map snd node_ids
     = List.map (fun k => py "N" ++ PyStr.of_nat k)
         (seq 0 (List.length node_ids)).

(* ------------------------------------------------------------------ *)
(** ** The excerpt of the README *)

Definition README_NAMES : list str :=
  [py "README.md"; py "README.rst"; py "README.txt"; py "README"].

(** The loop over the candidate names, left at the first one that exists
    in the root. Every entry of the model exists; a symbolic link whose
    target is missing, for which [exists()] is false, is not a node. *)
Fixpoint first_existing (root : node) (names : list str) : option node :=
  match names with
  | [] => None
  | name :: rest =>
      match lookup root [name] with
      | Some candidate => Some candidate
      | None => first_existing root rest
      end
  end.

(** ["\n".join(content.splitlines()[:20])], stripped. *)
Definition readme_excerpt (content : str) : str :=
  PyStr.strip (PyStr.join [10%N] (firstn 20 (PyStr.splitlines content))).

Definition readme_lines (root : node) : list str :=
  match first_existing root README_NAMES with
  | Some readme_path =>
      let content :=
        match _read_safe readme_path 1200 with
        | Some text => text
        | None => []
        end in
      [py "### README Excerpt"; []; py "```"; readme_excerpt content;
       py "```"; []]
  | None => []
  end.

(** The number of line boundaries in a string. *)
Definition count_linebreaks (s : str) : nat :=
  List.length (filter PyStr.is_linebreak s).

(* ------------------------------------------------------------------ *)
(** ** The section of the module descriptions *)

(** [str(Path(rel).parent)] and [Path(rel).name] for a relative path. *)
Definition parent_of (rel : str) : str :=
  path_str (removelast (target_parts rel)).

Definition name_of (rel : str) : str := last (target_parts rel) [].

(** [by_dir[parent].append(item)] on a [defaultdict(list)]. *)
Definition dict_append (by_dir : list (str * list (str * str)))
    (parent : str) (item : str * str) : list (str * list (str * str)) :=
  dict_set by_dir parent
    (match dict_get by_dir parent with Some items => items | None => [] end
     ++ [item]).

Definition group_step (by_dir : list (str * list (str * str)))
    (item : str * str) : list (str * list (str * str)) :=
  dict_append by_dir (parent_of (fst item)) item.

(** The dict [by_dir], filled from the sorted items of [descriptions]. *)
Definition group_by_dir (descriptions : list (str * str))
  : list (str * list (str * str)) :=
  fold_left group_step (sorted edge_lt descriptions) [].

(** The groups in the order of the second loop: the sorted keys of
    [by_dir], each with [by_dir[parent]]. *)
Definition description_groups (descriptions : list (str * str))
  : list (str * list (str * str)) :=
  let by_dir := group_by_dir descriptions in
  List.map
    (fun parent =>
       (parent,
        match dict_get by_dir parent with Some items => items | None => [] end))
    (sorted PyStr.ltb (List.map fst by_dir)).

Definition group_lines (project_name : str)
    (group : str * list (str * str)) : list str :=
  let parent := fst group in
  let dir_label :=
    if negb (PyStr.eqb parent (py ".")) then parent
    else project_name ++ py "/" in
  [py "### `" ++ dir_label ++ py "`"; []]
  ++ List.map
       (fun item : str * str =>
          py "- **`" ++ name_of (fst item) ++ py "`** - " ++ snd item)
       (snd group)
  ++ [[]].

Definition description_lines (project_name : str)
    (descriptions : list (str * str)) : list str :=
  match descriptions with
  | [] => [py "_No module descriptions found._"; []]
  | _ => flat_map (group_lines project_name) (description_groups descriptions)
  end.

(** Ascending order of the tuples. *)
Definition edge_le (a b : str * str) : Prop := edge_lt b a = false.

(* ------------------------------------------------------------------ *)
(** ** The report, section by section *)

Definition header_lines (project_name root_path : str) : list str :=
  [py "# Codebase Map: `" ++ project_name ++ py "`"; [];
   py "> Generated by codemap.py | Path: `" ++ root_path ++ py "`"; []].

Definition overview_lines (s : stats) : list str :=
  [py "## Overview"; [];
   py "- **Files**: " ++ str_of_Z (total_files s);
   py "- **Directories**: " ++ str_of_Z (total_dirs s)]
  ++ match top_extensions s with
     | [] => []
     | exts =>
         [py "- **Top file types**: "
          ++ PyStr.join (py ", ")
               (List.map
                  (fun en : str * Z =>
                     py "`" ++ fst en ++ py "` (" ++ str_of_Z (snd en)
                     ++ py ")")
                  exts)]
     end
  ++ [[]].

Definition file_tree_lines (project_name : str) (tree_lines : list str)
  : list str :=
  [py "## File Tree"; []; py "```"; project_name ++ py "/"]
  ++ tree_lines ++ [py "```"; []].

Definition entry_point_lines (entry_points : list entry_point) : list str :=
  [py "## Entry Points"; []]
  ++ match entry_points with
     | [] => [py "_No entry points detected._"]
     | _ =>
         List.map
           (fun ep =>
              py "- **`" ++ ep_path ep ++ py "`** `[" ++ ep_type ep
              ++ py "]` - " ++ ep_reason ep)
           entry_points
     end
  ++ [[]].

Definition module_description_lines (project_name : str)
    (descriptions : list (str * str)) : list str :=
  [py "## Module Descriptions"; []]
  ++ description_lines project_name descriptions.

(** The loop over [sorted(graph.keys())] of the local dependencies; the
    state is the flag [has_local]. *)
Fixpoint local_rows (graph : list (str * deps)) (rels : list str)
    (has_local : bool) : list str * bool :=
  match rels with
  | [] => ([], has_local)
  | rel :: rest =>
      let locals :=
        match dict_get graph rel with
        | Some entry => local entry
        | None => []
        end in
      match locals with
      | [] => local_rows graph rest has_local
      | _ =>
          let deps_str :=
            PyStr.join (py ", ")
              (List.map (fun d => py "`" ++ d ++ py "`") locals) in
          let '(rows, has_local) := local_rows graph rest true in
          ((py "- **`" ++ rel ++ py "`** imports: " ++ deps_str) :: rows,
           has_local)
      end
  end.

Definition local_dependencies_lines (graph : list (str * deps)) : list str :=
  let '(rows, has_local) :=
    local_rows graph (sorted PyStr.ltb (List.map fst graph)) false in
  [py "### Local Module Dependencies"; []]
  ++ rows
  ++ (if negb has_local then [py "_No local dependencies detected._"] else [])
  ++ [[]].

Definition diagram_lines (graph : list (str * deps)) : list str :=
  match _build_mermaid_graph graph with
  | [] => []
  | mermaid_lines =>
      [py "### Dependency Diagram (Mermaid)"; []] ++ mermaid_lines ++ [[]]
  end.

Definition dependency_lines (mermaid : bool) (graph : list (str * deps))
  : list str :=
  [py "## Dependency Graph"; []]
  ++ match graph with
     | [] => [py "_No dependency information extracted._"; []]
     | _ =>
         external_dependencies_lines graph
         ++ local_dependencies_lines graph
         ++ (if mermaid then diagram_lines graph else [])
     end.

Section GenerateMap.
Variable L : library.

(** The lines of [generate_map] for a root that is a directory. The
    statistics, the README and the file tree are produced before the entry
    points and the descriptions, whose exceptions end the call. [root_path]
    is the text of the resolved path. *)
Definition generate_map_lines (root_path : str) (root : node)
    (max_depth max_files : Z) (mermaid no_deps : bool)
  : result (list str) :=
  let project_name := node_name root in
  let head :=
    header_lines project_name root_path
    ++ overview_lines (_count_stats L root)
    ++ readme_lines root
    ++ file_tree_lines project_name
         (match root with
          | Dir _ readable children =>
              build_file_tree L readable children max_depth max_files
          | _ => []
          end) in
  entry_points <- find_entry_points L root ;;
  descriptions <- collect_module_descriptions L root max_files ;;
  Ret (head
       ++ entry_point_lines entry_points
       ++ module_description_lines project_name descriptions
       ++ (if negb no_deps
           then dependency_lines mermaid (build_dep_graph L root)
           else [])).

(** [generate_map], the writing of the output file apart: the report, or
    the exception that ends the call. *)
Definition generate_map (directory root_path : str) (target : option node)
    (max_depth max_files : Z) (mermaid no_deps : bool) : result str :=
  root <- generate_map_root directory target ;;
  lines <- generate_map_lines root_path root max_depth max_files
             mermaid no_deps ;;
  Ret (PyStr.join [10%N] lines).
End GenerateMap.

(** A text that does not start with the number sign of a heading. *)
Definition no_heading (s : str) : Prop :=
  match s with
  | [] => True
  | c :: _ => c <> 35%N
  end.

(* ------------------------------------------------------------------ *)
(** ** Further sample inputs *)

Module Sample2.

(** [json.loads] on the texts of further manifests: a number, and a
    manifest with a name and an executable. *)
Definition json_named : str :=
  py "{" ++ dq ++ py "name" ++ dq ++ py ": " ++ dq ++ py "tool" ++ dq ++ py "}".

Definition loads (s : str) : option pyval :=
  if PyStr.eqb s (py "42") then Some (VInt 42)
  else if PyStr.eqb s json_named then Some (VDict [(py "name", VStr (py "tool"))])
  else Sample.loads s.

Definition lib : library := {|
  ast_parse := Sample.parse;
  json_loads := loads;
  re_match := fun _ _ => None;
  re_finditer := fun _ _ => [];
  str_lower := Sample.lower_ascii;
  exists_outside := fun _ _ => false;
  relative_to_root := fun _ => None
|}.

(** Two scripts that each start with a comment. *)
Definition two_scripts : node :=
  Dir (py "project") true
    [File (py "a.js") (Text (py "// first"));
     File (py "b.js") (Text (py "// second"))].

(** A project whose manifest holds a number. *)
Definition scalar_manifest : node :=
  Dir (py "project") true [File (py "package.json") (Text (py "42"))].

(** A project with a Python file below a skipped directory. *)
Definition six : node := File (py "six.py") (Text (py "pass")).
Definition lib_python : node := Dir (py "lib") true [six].
Definition vendored : node := Dir (py "node_modules") true [lib_python].

(** The project of the test of [_count_stats]. *)
Definition four_files : node :=
  Dir (py "project") true
    [File (py "a.py") (Text (py "pass"));
     File (py "b.py") (Text (py "pass"));
     File (py "c.js") (Text (py "pass"));
     Dir (py "sub") true [File (py "d.py") (Text (py "pass"))]].

(** The graph of a script with a local and an external reference, and a
    graph in which two modules import a third. *)
Definition js_graph : list (str * deps) :=
  [(py "app.js", {| local := [py "./utils"]; external := [py "express"] |})].

Definition shared_graph : list (str * deps) :=
  [(py "b.py", {| local := [py "util"]; external := [] |});
   (py "a.py", {| local := [py "util"]; external := [] |})].

(** A project whose README has twenty-two lines. *)
Definition long_readme : str :=
  PyStr.join [10%N] (List.repeat (py "line") 22).

Definition with_readme : node :=
  Dir (py "project") true
    [File (py "README.rst") (Text (py "other"));
     File (py "README.md") (Text long_readme)].

(** The descriptions of three files in two directories. *)
Definition three_descriptions : list (str * str) :=
  [(py "src/b.py", py "second");
   (py "main.py", py "entry");
   (py "src/a.py", py "first")].

(** A project whose only file is a script with a main guard. *)
Definition tool_project : node :=
  Dir (py "project") true [File (py "tool.py") (Text Sample.src_main)].

(** A module with nine import statements: four local modules, one of
    them imported twice, and three packages, one of them imported twice. *)
Definition src_app : str :=
  py "import zlib" ++ [10%N] ++ py "import os" ++ [10%N]
  ++ py "import util" ++ [10%N] ++ py "import helpers" ++ [10%N]
  ++ py "import os" ++ [10%N] ++ py "import core" ++ [10%N]
  ++ py "import abc" ++ [10%N] ++ py "import api" ++ [10%N]
  ++ py "import util" ++ [10%N].

Definition ast_app : ast :=
  Module None
    [Import [py "zlib"]; Import [py "os"]; Import [py "util"];
     Import [py "helpers"]; Import [py "os"]; Import [py "core"];
     Import [py "abc"]; Import [py "api"]; Import [py "util"]].

Definition parse (s : str) : option ast :=
  if PyStr.eqb s src_app then Some ast_app else Sample.parse s.

Definition imports_lib : library := {|
  ast_parse := parse;
  json_loads := Sample.loads;
  re_match := fun _ _ => None;
  re_finditer := fun _ _ => [];
  str_lower := Sample.lower_ascii;
  exists_outside := fun _ _ => false;
  relative_to_root := fun _ => None
|}.

Definition imports_project : node :=
  Dir (py "project") true
    [File (py "app.py") (Text src_app);
     File (py "util.py") (Text Sample.src_helpers);
     File (py "helpers.py") (Text Sample.src_helpers);
     File (py "core.py") (Text Sample.src_helpers);
     File (py "api.py") (Text Sample.src_helpers)].

End Sample2.

(* ================================================================== *)
(** * Properties *)

(** ** Strings *)

Lemma str_eqb_eq (a b : str) : PyStr.eqb a b = true <-> a = b.
Proof.
  revert b; induction a as [|x a IH]; intros [|y b]; simpl;
    try (split; congruence).
  rewrite andb_true_iff, N.eqb_eq, IH. split.
  - intros [-> ->]; reflexivity.
  - intros H; inversion H; auto.
Qed.

Lemma str_eqb_refl (a : str) : PyStr.eqb a a = true.
Proof. apply str_eqb_eq; reflexivity. Qed.

Lemma str_eqb_neq (a b : str) : PyStr.eqb a b = false <-> a <> b.
Proof.
  rewrite <- str_eqb_eq. destruct (PyStr.eqb a b); split; congruence.
Qed.

Lemma str_mem_In (x : str) (xs : list str) : PyStr.mem x xs = true <-> In x xs.
Proof.
  unfold PyStr.mem. rewrite existsb_exists. split.
  - intros (y & Hy & E). apply str_eqb_eq in E. subst; assumption.
  - intros H. exists x. split; [assumption | apply str_eqb_refl].
Qed.

(* ------------------------------------------------------------------ *)
(** ** The file tree keeps to its budget *)

Section TreeBudget.
Variable L : library.
Variable max_files : Z.

Lemma count_entries_app (a b : list line) :
  count_entries (a ++ b) = count_entries a + count_entries b.
Proof. unfold count_entries. rewrite filter_app, length_app. reflexivity. Qed.

Lemma has_truncation_app (a b : list line) :
  has_truncation (a ++ b) = has_truncation a || has_truncation b.
Proof. unfold has_truncation. apply existsb_app. Qed.

(** One turn of the loop: an entry line, the lines of the sub-directory,
    the lines of the siblings that follow. *)
Lemma call_ok_step (w n : nat) (c c2 c3 : Z) (l : line) (ls more : list line) :
  (c < max_files)%Z ->
  is_entry_line l = true ->
  call_ok max_files w (c + 1) (ls, c2) ->
  call_ok max_files n c2 (more, c3) ->
  call_ok max_files (S w + n) c (l :: ls ++ more, c3).
Proof.
  intros Hlt Hl Hsub Hmore. unfold call_ok in *; cbn [fst snd] in *.
  destruct Hsub as (S1 & S2 & S3 & S4 & S5).
  destruct Hmore as (I1 & I2 & I3 & I4 & I5).
  assert (count_entries (l :: ls ++ more)
          = S (count_entries ls + count_entries more)) as ->.
  { unfold count_entries at 1. cbn [filter]. rewrite Hl. cbn [List.length].
    fold (count_entries (ls ++ more)). rewrite count_entries_app. reflexivity. }
  assert (has_truncation (l :: ls ++ more)
          = has_truncation ls || has_truncation more) as ->.
  { unfold has_truncation at 1. cbn [existsb].
    fold (has_truncation (ls ++ more)). rewrite has_truncation_app.
    destruct l; try discriminate; reflexivity. }
  repeat split; try lia.
  - specialize (S4 ltac:(lia)). destruct S4 as [E1 E2].
    specialize (I4 ltac:(lia)). destruct I4 as [E3 E4].
    rewrite E2, E4. reflexivity.
  - destruct (Z.leb_spec (c + 1 + Z.of_nat w) max_files) as [Hle|Hgt].
    + specialize (S4 Hle). destruct S4 as [E1 E2].
      specialize (I5 ltac:(lia) ltac:(lia)). destruct I5 as [E3 E4].
      rewrite E3. apply orb_true_r.
    + specialize (S5 ltac:(lia) Hgt). destruct S5 as [E1 E2].
      rewrite E1. reflexivity.
Qed.

Section Loop.
Variable rec : bool -> list node -> str -> Z -> list line * Z.
Variable weight : bool -> list node -> nat.
Hypothesis rec_ok : forall r cs p c, call_ok max_files (weight r cs) c (rec r cs p c).

Lemma tree_loop_ok (prefix : str) (total : nat) (rest : list node) :
  forall i c,
    call_ok max_files (list_sum (List.map (entry_weight weight) rest)) c
      (tree_loop rec prefix max_files total rest i c).
Proof.
  induction rest as [|e rest IH]; intros i c.
  - unfold call_ok; simpl. repeat split; try lia.
  - cbn [tree_loop List.map list_sum].
    destruct (c >=? max_files)%Z eqn:Hc.
    + apply Z.geb_le in Hc. unfold call_ok; simpl.
      unfold entry_weight at 1. repeat split; try lia.
    + assert (c < max_files)%Z as Hlt.
      { rewrite Z.geb_leb in Hc. apply Z.leb_gt in Hc. exact Hc. }
      destruct e as [name data | name r cs | name]; unfold entry_weight at 1.
      * specialize (IH (S i) (c + 1)%Z).
        destruct (tree_loop rec prefix max_files total rest (S i) (c + 1))
          as [more c3].
        apply (@call_ok_step 0 _ c (c + 1) c3 _ [] more); auto.
        unfold call_ok; simpl; repeat split; lia.
      * pose proof (rec_ok r cs
                      (prefix ++ (if Nat.eqb i (total - 1)
                                  then ext_last else ext_mid)) (c + 1))
          as Hsub.
        destruct (rec r cs _ (c + 1)%Z) as [ls c2].
        specialize (IH (S i) c2).
        destruct (tree_loop rec prefix max_files total rest (S i) c2)
          as [more c3].
        apply (@call_ok_step (weight r cs) _ c c2 c3 _ ls more); auto.
      * specialize (IH (S i) (c + 1)%Z).
        destruct (tree_loop rec prefix max_files total rest (S i) (c + 1))
          as [more c3].
        apply (@call_ok_step 0 _ c (c + 1) c3 _ [] more); auto.
        unfold call_ok; simpl; repeat split; lia.
Qed.
End Loop.

Lemma build_file_tree_from_ok (levels : nat) :
  forall readable children prefix c,
    call_ok max_files (listable L levels readable children) c
      (build_file_tree_from L levels readable children prefix max_files c).
Proof.
  induction levels as [|levels IH]; intros readable children prefix c.
  - unfold call_ok; simpl. repeat split; lia.
  - cbn [build_file_tree_from listable].
    destruct readable; cbn [negb].
    + apply (tree_loop_ok
               (fun r cs p c => build_file_tree_from L levels r cs p max_files c)
               (listable L levels)).
      intros r cs p c0. apply IH.
    + unfold call_ok; simpl. repeat split; lia.
Qed.
End TreeBudget.

(* ------------------------------------------------------------------ *)
(** ** The lines of one directory: its listed children, then the sentinel *)

Lemma ext_nonempty (b : bool) : (if b then ext_last else ext_mid) <> [].
Proof. destruct b; discriminate. Qed.

Lemma own_level_app (p : str) (a b : list line) :
  own_level p (a ++ b) = own_level p a ++ own_level p b.
Proof. apply filter_app. Qed.

Lemma own_level_deeper (p e : str) (ls : list line) :
  e <> [] ->
  (forall l, In l ls -> exists s, line_prefix l = (p ++ e) ++ s) ->
  own_level p ls = [].
Proof.
  intros He H. induction ls as [|l ls IH]; [reflexivity|].
  cbn [own_level filter].
  destruct (PyStr.eqb (line_prefix l) p) eqn:E.
  - exfalso. apply str_eqb_eq in E.
    destruct (H l (or_introl eq_refl)) as [s Hs].
    rewrite E in Hs. apply (f_equal (@List.length _)) in Hs.
    rewrite !length_app in Hs. destruct e; [congruence | simpl in Hs; lia].
  - apply IH. intros l' Hl'. apply H. right; assumption.
Qed.

Section TreeLevels.
Variable L : library.
Variable max_files : Z.

Section Loop.
Variable rec : bool -> list node -> str -> Z -> list line * Z.
Hypothesis rec_prefix :
  forall r cs p c l, In l (fst (rec r cs p c)) -> exists s, line_prefix l = p ++ s.

Lemma tree_loop_prefix (prefix : str) (total : nat) (rest : list node) :
  forall i c l,
    In l (fst (tree_loop rec prefix max_files total rest i c)) ->
    exists s, line_prefix l = prefix ++ s.
Proof.
  induction rest as [|e rest IH]; intros i c l; cbn [tree_loop].
  - intros [].
  - destruct (c >=? max_files)%Z.
    + intros [<- | []]. exists []. simpl. symmetry; apply app_nil_r.
    + destruct e as [name data | name r cs | name].
      * specialize (IH (S i) (c + 1)%Z l).
        destruct (tree_loop rec prefix max_files total rest (S i) (c + 1)).
        cbn [fst app]. intros [<- | H]; [|auto].
        exists []. simpl. symmetry; apply app_nil_r.
      * pose proof (rec_prefix r cs
                      (prefix ++ (if Nat.eqb i (total - 1)
                                  then ext_last else ext_mid)) (c + 1) l)
          as Hsub.
        destruct (rec r cs _ (c + 1)%Z) as [ls c2].
        specialize (IH (S i) c2 l).
        destruct (tree_loop rec prefix max_files total rest (S i) c2).
        cbn [fst] in *. intros [<- | H].
        -- exists []. simpl. symmetry; apply app_nil_r.
        -- apply in_app_or in H. destruct H as [H | H]; [|auto].
           destruct (Hsub H) as [s Hs]. rewrite <- app_assoc in Hs.
           eexists; exact Hs.
      * specialize (IH (S i) (c + 1)%Z l).
        destruct (tree_loop rec prefix max_files total rest (S i) (c + 1)).
        cbn [fst app]. intros [<- | H]; [|auto].
        exists []. simpl. symmetry; apply app_nil_r.
Qed.

Lemma tree_loop_levels (prefix : str) (total : nat) (rest : list node) :
  forall i c,
  exists k,
    k <= List.length rest
    /\ own_level prefix (fst (tree_loop rec prefix max_files total rest i c))
       = entry_lines prefix total i (firstn k rest)
         ++ (if Nat.ltb k (List.length rest)
             then [Truncated prefix (total - (i + k))] else [])
    /\ (k < List.length rest ->
        (max_files <= snd (tree_loop rec prefix max_files total rest i c))%Z).
Proof.
  induction rest as [|e rest IH]; intros i c; cbn [tree_loop].
  - exists 0. repeat split; simpl; lia.
  - destruct (c >=? max_files)%Z eqn:Hc.
    + exists 0. cbn [fst snd own_level filter line_prefix firstn entry_lines
                     List.length Nat.ltb Nat.leb app].
      rewrite str_eqb_refl, Nat.add_0_r. apply Z.geb_le in Hc.
      repeat split; [lia | lia].
    + assert (forall ls c2,
                own_level prefix ls = [] ->
                exists k,
                  k <= List.length (e :: rest)
                  /\ own_level prefix
                       (fst (let '(more, counter) :=
                               tree_loop rec prefix max_files total rest (S i) c2 in
                             (EntryLine prefix
                                (if Nat.eqb i (total - 1)
                                 then conn_last else conn_mid)
                                (node_name e) :: ls ++ more, counter)))
                     = entry_lines prefix total i (firstn k (e :: rest))
                       ++ (if Nat.ltb k (List.length (e :: rest))
                           then [Truncated prefix (total - (i + k))] else [])
                  /\ (k < List.length (e :: rest) ->
                      (max_files
                       <= snd (let '(more, counter) :=
                                 tree_loop rec prefix max_files total rest (S i) c2 in
                               (EntryLine prefix
                                  (if Nat.eqb i (total - 1)
                                   then conn_last else conn_mid)
                                  (node_name e) :: ls ++ more, counter)))%Z))
        as Hstep.
      { intros ls c2 Hls. destruct (IH (S i) c2) as (k & Hk & Hown & Hmax).
        destruct (tree_loop rec prefix max_files total rest (S i) c2)
          as [more c3].
        exists (S k). cbn [fst snd] in *. split; [simpl; lia|]. split.
        - cbn [own_level filter line_prefix]. rewrite str_eqb_refl.
          fold (own_level prefix (ls ++ more)).
          rewrite own_level_app, Hls, Hown. cbn [app firstn entry_lines].
          change (Nat.ltb (S k) (List.length (e :: rest)))
            with (Nat.ltb k (List.length rest)).
          replace (i + S k) with (S i + k) by lia. reflexivity.
        - intros H. apply Hmax. simpl in H. lia. }
      destruct e as [name data | name r cs | name].
      * apply (Hstep [] (c + 1)%Z). reflexivity.
      * pose proof (rec_prefix r cs
                      (prefix ++ (if Nat.eqb i (total - 1)
                                  then ext_last else ext_mid)) (c + 1))
          as Hsub.
        destruct (rec r cs _ (c + 1)%Z) as [ls c2].
        apply (Hstep ls c2).
        apply own_level_deeper with
          (e := if Nat.eqb i (total - 1) then ext_last else ext_mid);
          [apply ext_nonempty | exact Hsub].
      * apply (Hstep [] (c + 1)%Z). reflexivity.
Qed.
End Loop.

Lemma build_file_tree_from_prefix (levels : nat) :
  forall readable children prefix c l,
    In l (fst (build_file_tree_from L levels readable children prefix
                 max_files c)) ->
    exists s, line_prefix l = prefix ++ s.
Proof.
  induction levels as [|levels IH]; intros readable children prefix c l;
    cbn [build_file_tree_from].
  - intros [<- | []]. exists []. simpl. symmetry; apply app_nil_r.
  - destruct readable; cbn [negb].
    + apply tree_loop_prefix. intros r cs p c0 l0. apply IH.
    + intros [<- | []]. exists []. simpl. symmetry; apply app_nil_r.
Qed.
End TreeLevels.

(** C6. [build_file_tree] lists at most as many entries as the budget
    [max_files] allows (and none when the budget is not positive); when the
    entries that the depth limit lets it list exceed the budget, it emits a
    truncation sentinel; and in every directory that it lists, the lines of
    the directory itself are the entry lines of its first [k] siblings
    followed, exactly when [k] is less than their number [n], by one
    sentinel that reports [n - k], the siblings left unlisted, the counter
    having then reached the budget. *)
Theorem build_file_tree_budget :
  forall (L : library) (max_files : Z),
    (forall readable children max_depth,
        let lines :=
          build_file_tree_lines L readable children max_depth max_files in
        (Z.of_nat (count_entries lines) <= Z.max 0 max_files)%Z
        /\ ((0 <= max_files)%Z ->
            (Z.of_nat (count_entries lines) <= max_files)%Z)
        /\ ((Z.max 0 max_files
             < Z.of_nat (listable L (Z.to_nat (max_depth + 1)) readable children))%Z ->
            has_truncation lines = true))
    /\ (forall levels children prefix counter,
          let siblings := all_entries L children in
          let out :=
            build_file_tree_from L (S levels) true children prefix max_files
              counter in
          exists k,
            k <= List.length siblings
            /\ own_level prefix (fst out)
               = entry_lines prefix (List.length siblings) 0 (firstn k siblings)
                 ++ (if Nat.ltb k (List.length siblings)
                     then [Truncated prefix (List.length siblings - k)]
                     else [])
            /\ (k < List.length siblings -> (max_files <= snd out)%Z)).
Proof.
  intros L max_files. split.
  - intros readable children max_depth lines.
    pose proof (build_file_tree_from_ok L max_files (Z.to_nat (max_depth + 1))
                  readable children [] 0%Z) as H.
    unfold call_ok in H. subst lines. unfold build_file_tree_lines.
    destruct H as (H1 & H2 & H3 & H4 & H5). split; [lia|]. split; [lia|].
    intros Hlt. apply H5; lia.
  - intros levels children prefix counter siblings out.
    subst out. cbn [build_file_tree_from negb]. fold siblings.
    destruct (tree_loop_levels max_files
                (fun r cs p c => build_file_tree_from L levels r cs p max_files c)
                (fun r cs p c l => @build_file_tree_from_prefix L max_files
                                     levels r cs p c l)
                prefix (List.length siblings) siblings 0 counter)
      as (k & Hk & Hown & Hmax).
    exists k. split; [exact Hk|]. split; [exact Hown | exact Hmax].
Qed.

(** With a budget of two, the sample tree (six entries) is cut twice: in
    [sub] after its first file, and at the root after [sub]. *)
Lemma build_file_tree_budget_witness :
  (Z.max 0 2 < Z.of_nat (listable Sample.lib (Z.to_nat (6 + 1)) true
                           Sample.small_tree))%Z
  /\ has_truncation
       (build_file_tree_lines Sample.lib true Sample.small_tree 6 2) = true.
Proof.
  split.
  - vm_compute. reflexivity.
  - apply (proj1 (build_file_tree_budget Sample.lib 2) true Sample.small_tree
             6%Z).
    vm_compute. reflexivity.
Defined.

(** C9. When opening or reading the file fails, or its bytes are no UTF-8
    text, [describe_file] returns the sentinel and raises nothing. *)
Theorem describe_file_unreadable :
  forall (L : library) (path : node) (e : read_error),
    open_read path max_bytes_default = inl e ->
    describe_file L path = Ret (Some (py "[binary or unreadable]")).
Proof.
  intros L path e H. unfold describe_file, _read_safe. rewrite H.
  destruct e; reflexivity.
Qed.

Lemma describe_file_unreadable_witness :
  open_read Sample.image max_bytes_default = inl UnicodeDecodeError
  /\ describe_file Sample.lib Sample.image
     = Ret (Some (py "[binary or unreadable]")).
Proof.
  split.
  - reflexivity.
  - apply (describe_file_unreadable Sample.lib Sample.image
             (e := UnicodeDecodeError)).
    reflexivity.
Defined.

(* ------------------------------------------------------------------ *)
(** ** The sort *)

Section SortingFacts.
Context {A : Type} (lt : A -> A -> bool).

Lemma insert_sorted_perm (x : A) (l : list A) :
  Permutation (x :: l) (insert_sorted lt x l).
Proof.
  induction l as [|y l IH]; simpl; [reflexivity|].
  destruct (lt y x); [|reflexivity].
  rewrite perm_swap. constructor. exact IH.
Qed.

Lemma sorted_perm (l : list A) : Permutation l (sorted lt l).
Proof.
  induction l as [|x l IH]; simpl; [constructor|].
  rewrite <- insert_sorted_perm. constructor. exact IH.
Qed.

Lemma sorted_In (l : list A) (x : A) : In x (sorted lt l) <-> In x l.
Proof.
  split; apply Permutation_in;
    [apply Permutation_sym|]; apply sorted_perm.
Qed.

(** The sort is stable: the elements of a class in which no element is
    smaller than another keep the order of the input. *)
Lemma insert_sorted_filter (P : A -> bool) (x : A) (l : list A) :
  (forall a b, P a = true -> P b = true -> lt a b = false) ->
  filter P (insert_sorted lt x l) = filter P (x :: l).
Proof.
  intros HP. induction l as [|y l IH]; [reflexivity|].
  cbn [insert_sorted]. destruct (lt y x) eqn:E; [|reflexivity].
  cbn [filter] in *. rewrite IH.
  destruct (P y) eqn:Py, (P x) eqn:Px; try reflexivity.
  rewrite (HP y x Py Px) in E. discriminate.
Qed.

Lemma sorted_stable (P : A -> bool) (l : list A) :
  (forall a b, P a = true -> P b = true -> lt a b = false) ->
  filter P (sorted lt l) = filter P l.
Proof.
  intros HP. induction l as [|x l IH]; [reflexivity|].
  cbn [sorted fold_right]. fold (sorted lt l).
  rewrite insert_sorted_filter by exact HP.
  cbn [filter]. rewrite IH. reflexivity.
Qed.

Hypothesis lt_asym : forall a b, lt a b = true -> lt b a = false.
Hypothesis le_trans :
  forall a b c, lt b a = false -> lt c b = false -> lt c a = false.

Lemma insert_sorted_ok (x : A) (l : list A) :
  StronglySorted (fun a b => lt b a = false) l ->
  StronglySorted (fun a b => lt b a = false) (insert_sorted lt x l).
Proof.
  induction 1 as [|y l Hl IH Hy]; simpl.
  - constructor; constructor.
  - destruct (lt y x) eqn:E.
    + constructor; [exact IH|].
      apply (Permutation_Forall (insert_sorted_perm x l)).
      constructor; [apply lt_asym; exact E | exact Hy].
    + constructor; [constructor; assumption|].
      constructor; [exact E|].
      rewrite Forall_forall in *. intros z Hz.
      apply le_trans with (b := y); [exact E | apply Hy; exact Hz].
Qed.

Lemma sorted_ok (l : list A) :
  StronglySorted (fun a b => lt b a = false) (sorted lt l).
Proof.
  induction l as [|x l IH]; simpl; [constructor|].
  apply insert_sorted_ok. exact IH.
Qed.
End SortingFacts.

(** ** The order of strings *)

Lemma str_compare_refl (a : str) : PyStr.compare a a = Eq.
Proof.
  induction a as [|x a IH]; simpl; [reflexivity|].
  rewrite N.compare_refl. exact IH.
Qed.

Lemma str_compare_eq (a b : str) : PyStr.compare a b = Eq -> a = b.
Proof.
  revert b; induction a as [|x a IH]; intros [|y b]; simpl; try congruence.
  destruct (N.compare x y) eqn:E; try discriminate.
  apply N.compare_eq in E. intros H. rewrite (IH b H), E. reflexivity.
Qed.

Lemma str_compare_antisym (a b : str) :
  PyStr.compare b a = CompOpp (PyStr.compare a b).
Proof.
  revert b; induction a as [|x a IH]; intros [|y b]; simpl; try reflexivity.
  rewrite (N.compare_antisym x y).
  destruct (N.compare x y); simpl; auto.
Qed.

Lemma str_compare_lt_trans (a b c : str) :
  PyStr.compare a b = Lt -> PyStr.compare b c = Lt -> PyStr.compare a c = Lt.
Proof.
  revert b c; induction a as [|x a IH]; intros [|y b] [|z c]; simpl;
    try congruence.
  destruct (N.compare x y) eqn:Exy; try discriminate;
    destruct (N.compare y z) eqn:Eyz; try discriminate; intros H1 H2.
  - apply N.compare_eq in Exy, Eyz. subst. rewrite N.compare_refl.
    eapply IH; eassumption.
  - apply N.compare_eq in Exy. subst. rewrite Eyz. reflexivity.
  - apply N.compare_eq in Eyz. subst. rewrite Exy. reflexivity.
  - rewrite N.compare_lt_iff in Exy, Eyz.
    assert (x < z)%N as H by lia. rewrite <- N.compare_lt_iff in H.
    rewrite H. reflexivity.
Qed.

Lemma str_ltb_asym (a b : str) : PyStr.ltb a b = true -> PyStr.ltb b a = false.
Proof.
  unfold PyStr.ltb. rewrite (str_compare_antisym a b).
  destruct (PyStr.compare a b); simpl; congruence.
Qed.

Lemma str_le_trans (a b c : str) :
  PyStr.ltb b a = false -> PyStr.ltb c b = false -> PyStr.ltb c a = false.
Proof.
  unfold PyStr.ltb. intros H1 H2.
  destruct (PyStr.compare b a) eqn:Eba; try discriminate;
    destruct (PyStr.compare c b) eqn:Ecb; try discriminate.
  - apply str_compare_eq in Eba, Ecb. subst. rewrite str_compare_refl.
    reflexivity.
  - apply str_compare_eq in Eba. subst. rewrite Ecb. reflexivity.
  - apply str_compare_eq in Ecb. subst. rewrite Eba. reflexivity.
  - rewrite (str_compare_antisym a b) in Eba.
    rewrite (str_compare_antisym b c) in Ecb.
    rewrite (str_compare_antisym a c).
    assert (PyStr.compare a c = Lt) as ->; [|reflexivity].
    apply str_compare_lt_trans with (b := b).
    + destruct (PyStr.compare a b); simpl in Eba; congruence.
    + destruct (PyStr.compare b c); simpl in Ecb; congruence.
Qed.

Lemma str_le_neq_lt (a b : str) : PyStr.ltb b a = false -> a <> b -> PyStr.ltb a b = true.
Proof.
  unfold PyStr.ltb. intros H Hne. rewrite (str_compare_antisym a b) in H.
  destruct (PyStr.compare a b) eqn:E; simpl in H; try congruence.
  apply str_compare_eq in E. contradiction.
Qed.

Lemma entry_key_lt_asym (a b : entry_point) :
  entry_key_lt a b = true -> entry_key_lt b a = false.
Proof.
  unfold entry_key_lt. rewrite (str_compare_antisym (ep_type a) (ep_type b)).
  destruct (PyStr.compare (ep_type a) (ep_type b)); simpl; try congruence.
  apply str_ltb_asym.
Qed.

Lemma entry_key_le_trans (a b c : entry_point) :
  entry_key_lt b a = false -> entry_key_lt c b = false ->
  entry_key_lt c a = false.
Proof.
  unfold entry_key_lt. intros H1 H2.
  destruct (PyStr.compare (ep_type b) (ep_type a)) eqn:Eba; try discriminate;
    destruct (PyStr.compare (ep_type c) (ep_type b)) eqn:Ecb; try discriminate.
  - apply str_compare_eq in Eba, Ecb. rewrite Ecb, Eba, str_compare_refl.
    eapply str_le_trans; eassumption.
  - apply str_compare_eq in Eba. rewrite <- Eba, Ecb. reflexivity.
  - apply str_compare_eq in Ecb. rewrite Ecb, Eba. reflexivity.
  - assert (PyStr.compare (ep_type c) (ep_type a) = Gt) as ->; [|reflexivity].
    rewrite (str_compare_antisym (ep_type a) (ep_type b)) in Eba.
    rewrite (str_compare_antisym (ep_type b) (ep_type c)) in Ecb.
    rewrite (str_compare_antisym (ep_type a) (ep_type c)).
    assert (PyStr.compare (ep_type a) (ep_type c) = Lt) as ->; [|reflexivity].
    apply str_compare_lt_trans with (b := ep_type b).
    + destruct (PyStr.compare (ep_type a) (ep_type b)); simpl in Eba; congruence.
    + destruct (PyStr.compare (ep_type b) (ep_type c)); simpl in Ecb; congruence.
Qed.

(* ------------------------------------------------------------------ *)
(** ** The dependency graph *)

Lemma dedup_In (xs : list str) (x : str) : In x (dedup xs) <-> In x xs.
Proof.
  induction xs as [|y xs IH]; simpl; [tauto|].
  rewrite filter_In, IH, negb_true_iff, str_eqb_neq.
  destruct (list_eq_dec N.eq_dec y x) as [E|E]; [tauto|].
  split; [tauto|]. intros [H|H]; [tauto|]. right; split; assumption.
Qed.

Lemma dedup_NoDup (xs : list str) : NoDup (dedup xs).
Proof.
  induction xs as [|x xs IH]; simpl; constructor.
  - rewrite filter_In, negb_true_iff, str_eqb_neq. intros [_ H]. congruence.
  - apply NoDup_filter. exact IH.
Qed.

Lemma sorted_str_ok (l : list str) : StronglySorted str_le (sorted PyStr.ltb l).
Proof.
  apply (sorted_ok PyStr.ltb str_ltb_asym).
  intros a b c. apply str_le_trans.
Qed.

Lemma sorted_NoDup {A : Type} (lt : A -> A -> bool) (l : list A) :
  NoDup l -> NoDup (sorted lt l).
Proof. apply Permutation_NoDup, sorted_perm. Qed.

Lemma dict_set_In {V : Type} (d : list (str * V)) (k k' : str) (v v' : V) :
  In (k, v) (dict_set d k' v') -> (k, v) = (k', v') \/ In (k, v) d.
Proof.
  induction d as [|[k0 v0] d IH]; simpl.
  - intros [H|[]]. left; congruence.
  - destruct (PyStr.eqb k' k0); simpl; intros [H|H]; auto.
    destruct (IH H); auto.
Qed.

Lemma dict_set_keys {V : Type} (d : list (str * V)) (k k' : str) (v' : V) :
  In k (List.map fst (dict_set d k' v')) -> k = k' \/ In k (List.map fst d).
Proof.
  induction d as [|[k0 v0] d IH]; simpl.
  - intros [H|[]]. left; congruence.
  - destruct (PyStr.eqb k' k0); simpl; intros [H|H]; auto.
    destruct (IH H); auto.
Qed.

(** A property of the entries of the graph that each file preserves holds
    of the whole graph. *)
Lemma build_dep_graph_ind (L : library) (root : node)
    (P : str -> deps -> Prop) :
  (forall here files f rel d,
      In (here, files) (os_walk [] root) -> In f files ->
      (forall g, In (rel, d) (graph_file L (local_py_modules root) here f g) ->
                 In (rel, d) g \/ P rel d)) ->
  forall rel d, In (rel, d) (build_dep_graph L root) -> P rel d.
Proof.
  intros Hstep rel d. unfold build_dep_graph.
  assert (forall visits g,
             (forall v, In v visits -> In v (os_walk [] root)) ->
             In (rel, d)
               (fold_left
                  (fun graph visit =>
                     fold_left
                       (fun graph f =>
                          graph_file L (local_py_modules root) (fst visit) f graph)
                       (snd visit) graph)
                  visits g) ->
             In (rel, d) g \/ P rel d) as H.
  { induction visits as [|[here files] visits IH]; intros g Hsub; simpl; [auto|].
    intros Hin. apply IH in Hin; [|intros v Hv; apply Hsub; right; exact Hv].
    destruct Hin as [Hin|]; [|auto].
    assert (forall fs g0,
               (forall f, In f fs -> In f files) ->
               In (rel, d)
                 (fold_left
                    (fun graph f =>
                       graph_file L (local_py_modules root) here f graph) fs g0) ->
               In (rel, d) g0 \/ P rel d) as H2.
    { induction fs as [|f fs IHf]; intros g0 Hfs; simpl; [auto|].
      intros Hin0. apply IHf in Hin0; [|intros f0 Hf0; apply Hfs; right; exact Hf0].
      destruct Hin0 as [Hin0|]; [|auto].
      apply (Hstep here files f rel d) in Hin0; auto.
      - apply Hsub. left; reflexivity.
      - apply Hfs. left; reflexivity. }
    apply (H2 files g); auto. }
  intros Hin. destruct (H (os_walk [] root) [] (fun v Hv => Hv) Hin) as [[]|]; auto.
Qed.

(** C10. In every entry of the graph, the local and the external lists have
    no duplicates and are in ascending order. *)
Theorem build_dep_graph_lists_sorted :
  forall (L : library) (root : node) (rel : str) (d : deps),
    In (rel, d) (build_dep_graph L root) ->
    NoDup (local d) /\ StronglySorted str_le (local d)
    /\ NoDup (external d) /\ StronglySorted str_le (external d).
Proof.
  intros L root. apply build_dep_graph_ind.
  intros here files f rel d _ _ g. unfold graph_file.
  destruct (_read_safe f max_bytes_default) as [source|]; [|auto].
  destruct (PyStr.eqb _ (py ".py")).
  - match goal with |- In _ (match ?l with [] => _ | _ => _ end) -> _ =>
      destruct l end; [auto|].
    intros H. apply dict_set_In in H. destruct H as [H|H]; [|auto].
    right. inversion H; subst; cbn [local external].
    repeat split; try apply sorted_str_ok;
      apply sorted_NoDup, NoDup_filter, dedup_NoDup.
  - destruct (PyStr.mem _ js_suffixes); [|auto].
    match goal with |- In _ (match ?l with [] => _ | _ => _ end) -> _ =>
      destruct l end; [auto|].
    intros H. apply dict_set_In in H. destruct H as [H|H]; [|auto].
    right. inversion H; subst; cbn [local external].
    repeat split; try apply sorted_str_ok; apply sorted_NoDup, dedup_NoDup.
Qed.

Lemma build_dep_graph_lists_sorted_witness :
  In (py "app.py",
      {| local := [py "api"; py "core"; py "helpers"; py "util"];
         external := [py "abc"; py "os"; py "zlib"] |})
    (build_dep_graph Sample2.imports_lib Sample2.imports_project)
  /\ NoDup [py "api"; py "core"; py "helpers"; py "util"]
  /\ StronglySorted str_le [py "api"; py "core"; py "helpers"; py "util"]
  /\ NoDup [py "abc"; py "os"; py "zlib"]
  /\ StronglySorted str_le [py "abc"; py "os"; py "zlib"].
Proof.
  assert (In (py "app.py",
              {| local := [py "api"; py "core"; py "helpers"; py "util"];
                 external := [py "abc"; py "os"; py "zlib"] |})
            (build_dep_graph Sample2.imports_lib Sample2.imports_project))
    as H by (left; reflexivity).
  split; [exact H|].
  exact (@build_dep_graph_lists_sorted Sample2.imports_lib Sample2.imports_project
           _ _ H).
Defined.

(* ------------------------------------------------------------------ *)
(** ** The external dependencies of the report *)

Lemma str_eqb_sym (a b : str) : PyStr.eqb a b = PyStr.eqb b a.
Proof.
  destruct (PyStr.eqb a b) eqn:E.
  - apply str_eqb_eq in E. subst. symmetry. apply str_eqb_refl.
  - symmetry. apply str_eqb_neq. apply str_eqb_neq in E. congruence.
Qed.

Lemma dict_set_fst {V : Type} (d : list (str * V)) (k : str) (v : V) :
  List.map fst (dict_set d k v) = add_key (List.map fst d) k.
Proof.
  unfold add_key. induction d as [|[k0 v0] d IH]; [reflexivity|].
  cbn [dict_set List.map fst PyStr.mem existsb].
  destruct (PyStr.eqb k k0) eqn:E; cbn [orb List.map fst].
  - apply str_eqb_eq in E. subst. reflexivity.
  - rewrite IH. fold (PyStr.mem k (List.map fst d)).
    destruct (PyStr.mem k (List.map fst d)); reflexivity.
Qed.

Lemma dict_get_set {V : Type} (d : list (str * V)) (k k' : str) (v : V) :
  dict_get (dict_set d k v) k'
  = if PyStr.eqb k' k then Some v else dict_get d k'.
Proof.
  induction d as [|[k0 v0] d IH]; cbn [dict_set dict_get].
  - destruct (PyStr.eqb k' k); reflexivity.
  - destruct (PyStr.eqb k k0) eqn:E; cbn [dict_get].
    + apply str_eqb_eq in E. subst.
      destruct (PyStr.eqb k' k0); reflexivity.
    + rewrite IH. destruct (PyStr.eqb k' k0) eqn:E0; [|reflexivity].
      apply str_eqb_eq in E0. subst.
      rewrite str_eqb_sym, E. reflexivity.
Qed.

Lemma dict_get_In {V : Type} (d : list (str * V)) (k : str) (v : V) :
  NoDup (List.map fst d) -> In (k, v) d -> dict_get d k = Some v.
Proof.
  induction d as [|[k0 v0] d IH]; cbn [List.map fst dict_get]; [intros _ []|].
  intros Hnd [H|H].
  - inversion H; subst. rewrite str_eqb_refl. reflexivity.
  - inversion Hnd as [|? ? Hk0 Hd]; subst.
    destruct (PyStr.eqb k k0) eqn:E.
    + apply str_eqb_eq in E. subst. exfalso. apply Hk0.
      apply (in_map fst) in H. exact H.
    + apply IH; assumption.
Qed.

Lemma fold_left_flat_map {A B C : Type} (f : A -> C -> A) (g : B -> list C)
    (l : list B) (a : A) :
  fold_left (fun acc b => fold_left f (g b) acc) l a
  = fold_left f (flat_map g l) a.
Proof.
  revert a; induction l as [|b l IH]; intros a; simpl; [reflexivity|].
  rewrite fold_left_app. apply IH.
Qed.

Lemma fold_dict_incr_fst (l : list str) (d : list (str * Z)) :
  List.map fst (fold_left dict_incr l d) = fold_left add_key l (List.map fst d).
Proof.
  revert d; induction l as [|k l IH]; intros d; simpl; [reflexivity|].
  rewrite IH. unfold dict_incr. rewrite dict_set_fst. reflexivity.
Qed.

Lemma str_mem_app (x : str) (a b : list str) :
  PyStr.mem x (a ++ b) = PyStr.mem x a || PyStr.mem x b.
Proof. apply existsb_app. Qed.

Lemma filter_mem_skip (x : str) (ks D : list str) :
  PyStr.mem x ks = true ->
  filter (fun y => negb (PyStr.mem y ks))
    (filter (fun y => negb (PyStr.eqb x y)) D)
  = filter (fun y => negb (PyStr.mem y ks)) D.
Proof.
  intros E. induction D as [|y D IHD]; [reflexivity|].
  cbn [filter]. destruct (PyStr.eqb x y) eqn:Exy; cbn [negb filter].
  - apply str_eqb_eq in Exy. subst. rewrite E. exact IHD.
  - rewrite IHD. reflexivity.
Qed.

Lemma filter_mem_snoc (x : str) (ks D : list str) :
  filter (fun y => negb (PyStr.mem y (ks ++ [x]))) D
  = filter (fun y => negb (PyStr.mem y ks))
      (filter (fun y => negb (PyStr.eqb x y)) D).
Proof.
  induction D as [|y D IHD]; [reflexivity|].
  cbn [filter]. rewrite str_mem_app. cbn [PyStr.mem existsb].
  rewrite orb_false_r, (str_eqb_sym y x).
  destruct (PyStr.eqb x y) eqn:Exy; cbn [negb filter].
  - rewrite orb_true_r. exact IHD.
  - rewrite orb_false_r. rewrite IHD. reflexivity.
Qed.

Lemma fold_add_key (l ks : list str) :
  fold_left add_key l ks
  = ks ++ filter (fun x => negb (PyStr.mem x ks)) (dedup l).
Proof.
  revert ks; induction l as [|x l IH]; intros ks; cbn [fold_left dedup filter].
  - symmetry; apply app_nil_r.
  - rewrite IH. unfold add_key.
    destruct (PyStr.mem x ks) eqn:E; cbn [negb].
    + rewrite filter_mem_skip by exact E. reflexivity.
    + rewrite <- app_assoc. cbn [app]. rewrite filter_mem_snoc. reflexivity.
Qed.

Lemma filter_all (l : list str) : filter (fun x => negb (PyStr.mem x [])) l = l.
Proof.
  induction l as [|x l IH]; [reflexivity|].
  cbn [filter]. change (PyStr.mem x []) with false. cbn [negb].
  f_equal. exact IH.
Qed.

Lemma fold_dict_incr_get (l : list str) (d : list (str * Z)) (k : str) :
  dict_get (fold_left dict_incr l d) k
  = match occurrences l k, dict_get d k with
    | O, v => v
    | n, Some c => Some (c + Z.of_nat n)%Z
    | n, None => Some (Z.of_nat n)
    end.
Proof.
  revert d; induction l as [|x l IH]; intros d; cbn [fold_left occurrences].
  - destruct (dict_get d k); reflexivity.
  - rewrite IH. unfold dict_incr. rewrite !dict_get_set.
    destruct (PyStr.eqb k x) eqn:E.
    + apply str_eqb_eq in E. subst x.
      destruct (occurrences l k) as [|n], (dict_get d k) as [c|];
        cbn [Nat.add]; f_equal; lia.
    + cbn [Nat.add]. reflexivity.
Qed.

Lemma firstn_In {A : Type} (n : nat) (l : list A) (x : A) :
  In x (firstn n l) -> In x l.
Proof.
  intros H. rewrite <- (firstn_skipn n l). apply in_or_app. left; exact H.
Qed.

Lemma StronglySorted_weaken {A : Type} (R R' : A -> A -> Prop) (l : list A) :
  (forall a b, R a b -> R' a b) -> StronglySorted R l -> StronglySorted R' l.
Proof.
  intros HR. induction 1 as [|x l Hl IH Hx]; constructor; [exact IH|].
  eapply Forall_impl; [|exact Hx]. intros b. apply HR.
Qed.

Lemma StronglySorted_firstn {A : Type} (R : A -> A -> Prop) (n : nat)
    (l : list A) :
  StronglySorted R l -> StronglySorted R (firstn n l).
Proof.
  intros H. revert n. induction H as [|x l Hl IH Hx]; intros [|n]; simpl;
    try constructor.
  - apply IH.
  - rewrite Forall_forall in *. intros y Hy. apply Hx.
    apply firstn_In with (n := n). exact Hy.
Qed.

(** C4, as the code has it. The packages of the section are in descending
    order of their count; the packages with one and the same count keep the
    order of the counting dict, which is the order in which the scan of the
    graph first meets them (no order of names); a count is the number of
    occurrences of the package in the external lists; at most twenty
    packages are listed. *)
Theorem top_external_order :
  forall (graph : list (str * deps)),
    let items := all_external graph in
    let met := flat_map (fun kd => external (snd kd)) graph in
    let top := top_external graph in
    StronglySorted (fun a b => (snd b <= snd a)%Z) top
    /\ (forall n, exists rest,
           filter (fun pc => (snd pc =? n)%Z) items
           = filter (fun pc => (snd pc =? n)%Z) top ++ rest)
    /\ List.map fst items = dedup met
    /\ (forall p n, In (p, n) items -> n = Z.of_nat (occurrences met p))
    /\ List.length top <= 20.
Proof.
  intros graph items met top.
  assert (items = fold_left dict_incr met []) as Hitems.
  { subst items met. unfold all_external.
    apply (fold_left_flat_map dict_incr (fun kd : str * deps => external (snd kd))). }
  assert (List.map fst items = dedup met) as Hkeys.
  { rewrite Hitems, fold_dict_incr_fst, fold_add_key. cbn [List.map app].
    apply filter_all. }
  split; [|split; [|split; [exact Hkeys|split]]].
  - subst top. unfold top_external. apply StronglySorted_firstn.
    eapply StronglySorted_weaken;
      [|apply (sorted_ok (fun a b : str * Z => (- snd a <? - snd b)%Z))].
    + intros a b H. cbn beta in H. apply Z.ltb_ge in H. lia.
    + intros a b H. apply Z.ltb_lt in H. apply Z.ltb_ge. lia.
    + intros a b c H1 H2. apply Z.ltb_ge in H1, H2. apply Z.ltb_ge. lia.
  - intros n. subst top. unfold top_external. fold items.
    exists (filter (fun pc : str * Z => (snd pc =? n)%Z)
              (skipn 20 (sorted (fun a b : str * Z => (- snd a <? - snd b)%Z)
                           items))).
    rewrite <- filter_app, firstn_skipn.
    symmetry. apply sorted_stable.
    intros a b Ha Hb. apply Z.eqb_eq in Ha, Hb. apply Z.ltb_ge. lia.
  - intros p n Hin.
    assert (NoDup (List.map fst items)) as Hnd
        by (rewrite Hkeys; apply dedup_NoDup).
    pose proof (@dict_get_In _ items p n Hnd Hin) as Hget.
    rewrite Hitems, fold_dict_incr_get in Hget. cbn [dict_get] in Hget.
    destruct (occurrences met p); [discriminate|]. congruence.
  - subst top. unfold top_external. apply firstn_le_length.
Qed.

Lemma top_external_order_witness :
  In (py "zlib", 1%Z)
    (all_external (build_dep_graph Sample.lib Sample.two_imports))
  /\ 1%Z
     = Z.of_nat
         (occurrences
            (flat_map (fun kd : str * deps => external (snd kd))
               (build_dep_graph Sample.lib Sample.two_imports))
            (py "zlib")).
Proof.
  assert (In (py "zlib", 1%Z)
            (all_external (build_dep_graph Sample.lib Sample.two_imports)))
    as H by (left; reflexivity).
  split; [exact H|].
  exact (proj1 (proj2 (proj2 (proj2
           (top_external_order
              (build_dep_graph Sample.lib Sample.two_imports)))))
           (py "zlib") 1%Z H).
Defined.

(** C4, counterexample: the module listed first imports [zlib], the second
    [abc]; both packages count once and [zlib] is listed before [abc]. *)
Lemma top_external_ties_not_by_name :
  top_external (build_dep_graph Sample.lib Sample.two_imports)
  = [(py "zlib", 1%Z); (py "abc", 1%Z)]
  /\ ~ ties_by_name (top_external (build_dep_graph Sample.lib Sample.two_imports)).
Proof.
  split; [reflexivity|].
  intros H.
  specialize (H [] [] [] (py "zlib") (py "abc") 1%Z eq_refl).
  vm_compute in H. discriminate.
Qed.

(* ------------------------------------------------------------------ *)
(** ** The fatal conditions *)

(** C3, as the code has it. A target that does not exist and a target that
    is no directory both end the process with status 1, each with its own
    message on the error stream; an interrupt ends it with status 130 and
    the message "Aborted."; a run that succeeds ends with status 0. The
    status of the interrupt differs from that of the two other conditions,
    and both differ from that of success. *)
Theorem fatal_conditions_exit :
  forall (directory : str) (output : option str) (rest : node -> result str),
    main directory output None rest
    = Exit (py "Error: Directory not found: " ++ directory ++ [10%N]) 1
    /\ (forall name data,
           main directory output (Some (File name data)) rest
           = Exit (py "Error: Not a directory: " ++ directory ++ [10%N]) 1)
    /\ (forall name,
           main directory output (Some (Special name)) rest
           = Exit (py "Error: Not a directory: " ++ directory ++ [10%N]) 1)
    /\ (forall name readable children,
           main directory output (Some (Dir name readable children))
             (fun _ => Raise KeyboardInterrupt)
           = Exit ([10%N] ++ py "Aborted." ++ [10%N]) 130)
    /\ (forall name readable children report,
           exit_status
             (main directory output (Some (Dir name readable children))
                (fun _ => Ret report))
           = Some 0%Z)
    /\ (1 <> 130)%Z /\ (1 <> 0)%Z /\ (130 <> 0)%Z.
Proof.
  intros directory output rest. repeat split; try discriminate.
  intros name readable children report. unfold main. simpl.
  destruct output; reflexivity.
Qed.

(** C3, counterexample: the missing target and the target that is a file
    end the process with the same status. *)
Lemma fatal_exit_codes_not_distinct :
  exit_status (main (py "gone") None None (fun _ => Ret []))
  = exit_status
      (main (py "file.py") None (Some (File (py "file.py") (Text (py "pass"))))
         (fun _ => Ret [])).
Proof. reflexivity. Qed.

(* ------------------------------------------------------------------ *)
(** ** Descriptions *)

(** C5, the failing input: for a [package.json] whose description field has
    two lines, [describe_file] returns both lines. *)
Theorem describe_file_manifest_two_lines :
  describe_file Sample.lib Sample.manifest_two_lines
  = Ret (Some (py "pkg - first" ++ [10%N] ++ py "second"))
  /\ contains_linebreak (py "pkg - first" ++ [10%N] ++ py "second") = true.
Proof. split; reflexivity. Qed.

(* ------------------------------------------------------------------ *)
(** ** The walk and the skip predicate *)

Lemma node_nested_ind (P : node -> Prop) :
  (forall name data, P (File name data)) ->
  (forall name readable children,
      Forall P children -> P (Dir name readable children)) ->
  (forall name, P (Special name)) ->
  forall n, P n.
Proof.
  intros HF HD HS. fix IH 1. intros [name data | name readable children | name].
  - apply HF.
  - apply HD. induction children as [|c cs IHcs]; constructor.
    + apply IH.
    + exact IHcs.
  - apply HS.
Qed.

Lemma os_walk_reaches (n : node) :
  forall pre here files,
    In (here, files) (os_walk pre n) ->
    exists p name cs,
      here = pre ++ p /\ reaches n p (Dir name true cs)
      /\ files = filter (fun c => negb (is_dir c)) cs.
Proof.
  pattern n; apply node_nested_ind; clear n;
    [intros name data | intros name readable children IH | intros name];
    intros pre here files; cbn [os_walk]; try (now intros []).
  destruct readable; [|intros []].
  intros [H | H].
  - inversion H; subst. exists [], name, children.
    rewrite app_nil_r. repeat split. constructor.
  - apply in_flat_map in H. destruct H as (c & Hc & H).
    destruct (is_dir c && negb (_should_skip (node_name c) c)) eqn:E;
      [|destruct H].
    apply andb_true_iff in E. destruct E as [Ed Es].
    apply negb_true_iff in Es.
    rewrite Forall_forall in IH.
    destruct (IH c Hc _ _ _ H) as (p & dname & cs & -> & Hr & ->).
    exists (node_name c :: p), dname, cs. rewrite <- app_assoc.
    repeat split. apply reaches_step; assumption.
Qed.

Lemma reaches_os_walk (n : node) (p : list str) (d : node) :
  reaches n p d ->
  forall name cs pre,
    d = Dir name true cs ->
    In (pre ++ p, filter (fun c => negb (is_dir c)) cs) (os_walk pre n).
Proof.
  induction 1 as [n | name0 cs0 c p d Hc Hd Hs Hr IH]; intros name cs pre ->.
  - rewrite app_nil_r. left; reflexivity.
  - cbn [os_walk]. right. apply in_flat_map. exists c. split; [exact Hc|].
    rewrite Hd, Hs. cbn [andb negb].
    specialize (IH name cs (pre ++ [node_name c]) eq_refl).
    rewrite <- app_assoc in IH. exact IH.
Qed.

(** The files that the walk hands to the loop bodies are those that lie
    outside every skipped directory. *)
Lemma os_walk_walked (root : node) (here : list str) (files : list node)
    (f : node) :
  In (here, files) (os_walk [] root) -> In f files ->
  walked root (here ++ [node_name f]) f.
Proof.
  intros H Hf. apply os_walk_reaches in H.
  destruct H as (p & name & cs & -> & Hr & ->).
  apply filter_In in Hf. destruct Hf as [Hf Hd]. apply negb_true_iff in Hd.
  exists p, name, cs. repeat split; assumption.
Qed.

Lemma walked_os_walk (root : node) (p : list str) (f : node) :
  walked root p f ->
  exists here files,
    In (here, files) (os_walk [] root) /\ In f files
    /\ p = here ++ [node_name f].
Proof.
  intros (here & name & cs & Hr & Hf & Hd & ->).
  exists here, (filter (fun c => negb (is_dir c)) cs). repeat split.
  - apply (@reaches_os_walk _ _ _ Hr name cs [] eq_refl).
  - apply filter_In. split; [exact Hf|]. rewrite Hd. reflexivity.
Qed.

(* ------------------------------------------------------------------ *)
(** ** Entry points: the calls to [add] *)

Lemma bind_Ret {A B : Type} (m : result A) (k : A -> result B) (b : B) :
  bind m k = Ret b -> exists a, m = Ret a /\ k a = Ret b.
Proof. destruct m; simpl; try discriminate. intros H. eauto. Qed.

Lemma Ret_inj {A : Type} (a b : A) : Ret a = Ret b -> a = b.
Proof. intros H. injection H. auto. Qed.

Lemma fold_add_keep_first (calls : list entry_point) :
  forall entries seen,
    fst (fold_left add calls (entries, seen))
    = entries ++ keep_first calls seen.
Proof.
  induction calls as [|c calls IH]; intros entries seen;
    cbn [fold_left keep_first].
  - symmetry; apply app_nil_r.
  - unfold add at 2. destruct (PyStr.mem (ep_path c) seen); cbn [negb].
    + apply IH.
    + rewrite IH, <- app_assoc. reflexivity.
Qed.

Lemma keep_first_sound (calls : list entry_point) :
  forall seen e,
    In e (keep_first calls seen) ->
    ~ In (ep_path e) seen
    /\ exists pre post,
         calls = pre ++ e :: post
         /\ forall e', In e' pre -> ep_path e' <> ep_path e.
Proof.
  induction calls as [|c calls IH]; intros seen e; cbn [keep_first]; [intros []|].
  destruct (PyStr.mem (ep_path c) seen) eqn:E.
  - intros H. destruct (IH _ _ H) as (Hs & pre & post & -> & Hpre).
    split; [exact Hs|]. exists (c :: pre), post. split; [reflexivity|].
    intros e' [<- | He']; [|auto].
    intros Heq. apply Hs. rewrite <- Heq. apply str_mem_In. exact E.
  - intros [<- | H].
    + split.
      * rewrite <- str_mem_In, E. discriminate.
      * exists [], calls. split; [reflexivity | intros e' []].
    + destruct (IH _ _ H) as (Hs & pre & post & -> & Hpre).
      split; [intros Hin; apply Hs; right; exact Hin|].
      exists (c :: pre), post. split; [reflexivity|].
      intros e' [<- | He']; [|auto].
      intros Heq. apply Hs. left. exact Heq.
Qed.

Lemma keep_first_NoDup (calls : list entry_point) :
  forall seen, NoDup (List.map ep_path (keep_first calls seen)).
Proof.
  induction calls as [|c calls IH]; intros seen; cbn [keep_first];
    [constructor|].
  destruct (PyStr.mem (ep_path c) seen); [apply IH|].
  cbn [List.map]. constructor; [|apply IH].
  intros H. apply in_map_iff in H. destruct H as (e & He & Hin).
  apply keep_first_sound in Hin. destruct Hin as [Hs _].
  apply Hs. left. symmetry. exact He.
Qed.

Lemma keep_first_complete (calls : list entry_point) :
  forall seen c,
    In c calls -> ~ In (ep_path c) seen ->
    In (ep_path c) (List.map ep_path (keep_first calls seen)).
Proof.
  induction calls as [|c0 calls IH]; intros seen c; [intros []|].
  cbn [keep_first]. intros Hin Hs.
  destruct (PyStr.mem (ep_path c0) seen) eqn:E.
  - destruct Hin as [<- | Hin].
    + exfalso. apply Hs. apply str_mem_In. exact E.
    + apply IH; assumption.
  - cbn [List.map].
    destruct (list_eq_dec N.eq_dec (ep_path c0) (ep_path c)) as [Heq|Hne];
      [left; exact Heq|].
    right. destruct Hin as [<- | Hin]; [congruence|].
    apply IH; [exact Hin|]. intros [H|H]; auto.
Qed.

Lemma occurrences_NoDup (l : list str) (x : str) :
  NoDup l -> In x l -> occurrences l x = 1.
Proof.
  induction 1 as [|y l Hy Hl IH]; [intros []|].
  cbn [occurrences]. intros [-> | Hin].
  - rewrite str_eqb_refl.
    assert (occurrences l x = 0) as ->; [|reflexivity].
    clear IH Hl. induction l as [|z l IHl]; [reflexivity|].
    cbn [occurrences]. destruct (PyStr.eqb x z) eqn:E.
    + apply str_eqb_eq in E. subst. exfalso. apply Hy. left; reflexivity.
    + apply IHl. intros H. apply Hy. right; exact H.
  - destruct (PyStr.eqb x y) eqn:E.
    + apply str_eqb_eq in E. subst. contradiction.
    + apply IH. exact Hin.
Qed.

Section CallsOrigin.
Variable L : library.
Variable root : node.

Lemma files_calls_origin (here : list str) (files : list node) :
  forall calls,
    files_calls L root here files = Ret calls ->
    (forall c, In c calls ->
               exists f fc, In f files /\ file_calls L root here f = Ret fc
                            /\ In c fc)
    /\ (forall f, In f files ->
                  exists fc, file_calls L root here f = Ret fc
                             /\ incl fc calls).
Proof.
  induction files as [|f files IH]; intros calls; cbn [files_calls].
  - intros H. inversion H; subst. split; [intros c [] | intros f []].
  - intros H. apply bind_Ret in H. destruct H as (fc & Hfc & H).
    apply bind_Ret in H. destruct H as (more & Hmore & H).
    inversion H; subst. destruct (IH _ Hmore) as [IH1 IH2]. split.
    + intros c Hc. apply in_app_or in Hc. destruct Hc as [Hc|Hc].
      * exists f, fc. repeat split; auto. left; reflexivity.
      * destruct (IH1 c Hc) as (f' & fc' & Hf' & Hfc' & Hc').
        exists f', fc'. repeat split; auto. right; exact Hf'.
    + intros f' [<- | Hf'].
      * exists fc. split; [exact Hfc|]. apply incl_appl, incl_refl.
      * destruct (IH2 f' Hf') as (fc' & Hfc' & Hincl).
        exists fc'. split; [exact Hfc'|]. apply incl_appr. exact Hincl.
Qed.

Lemma dirs_calls_origin (visits : list (list str * list node)) :
  forall calls,
    dirs_calls L root visits = Ret calls ->
    (forall c, In c calls ->
               exists here files f fc,
                 In (here, files) visits /\ In f files
                 /\ file_calls L root here f = Ret fc /\ In c fc)
    /\ (forall here files f,
           In (here, files) visits -> In f files ->
           exists fc, file_calls L root here f = Ret fc /\ incl fc calls).
Proof.
  induction visits as [|[here0 files0] visits IH]; intros calls;
    cbn [dirs_calls].
  - intros H. inversion H; subst. split; [intros c [] | intros ? ? ? []].
  - intros H. apply bind_Ret in H. destruct H as (fc0 & Hfc0 & H).
    apply bind_Ret in H. destruct H as (more & Hmore & H).
    inversion H; subst. destruct (IH _ Hmore) as [IH1 IH2].
    destruct (files_calls_origin _ _ Hfc0) as [F1 F2]. split.
    + intros c Hc. apply in_app_or in Hc. destruct Hc as [Hc|Hc].
      * destruct (F1 c Hc) as (f & fc & Hf & Hfc & Hin).
        exists here0, files0, f, fc. repeat split; auto. left; reflexivity.
      * destruct (IH1 c Hc) as (here & files & f & fc & Hv & Hf & Hfc & Hin).
        exists here, files, f, fc. repeat split; auto. right; exact Hv.
    + intros here files f [Hv | Hv] Hf.
      * inversion Hv; subst. destruct (F2 f Hf) as (fc & Hfc & Hincl).
        exists fc. split; [exact Hfc|]. apply incl_appl. exact Hincl.
      * destruct (IH2 here files f Hv Hf) as (fc & Hfc & Hincl).
        exists fc. split; [exact Hfc|]. apply incl_appr. exact Hincl.
Qed.

(** What [find_entry_points] returns: the calls to [add], the first call
    for each path being kept, in the order of the sort. *)
Lemma find_entry_points_Ret (es : list entry_point) :
  find_entry_points L root = Ret es ->
  exists calls,
    add_calls L root = Ret calls
    /\ es = sorted entry_key_lt (keep_first calls []).
Proof.
  unfold find_entry_points. intros H. apply bind_Ret in H.
  destruct H as (calls & Hcalls & H). exists calls. split; [exact Hcalls|].
  inversion H. rewrite fold_add_keep_first. reflexivity.
Qed.
End CallsOrigin.

Section CallsOfFile.
Variable L : library.
Variable root : node.

Lemma classify_entry_cases (fname : str) :
  In (_classify_entry L fname)
    [py "docker"; py "build"; py "package"; py "web-server"; py "django";
     py "python-main"].
Proof.
  unfold _classify_entry.
  repeat match goal with
         | |- context [if ?b then _ else _] => destruct b
         end; simpl; auto 10.
Qed.

Lemma bin_items_calls_type (here : list str) (rel : str)
    (items : list (str * pyval)) :
  forall calls,
    bin_items_calls L root here rel items = Ret calls ->
    forall c, In c calls -> ep_type c = py "cli-binary".
Proof.
  induction items as [|[bin_name v] items IH]; intros calls;
    cbn [bin_items_calls].
  - intros H. inversion H. intros c [].
  - destruct v; try discriminate.
    intros H. apply bind_Ret in H. destruct H as (bp & _ & H).
    apply bind_Ret in H. destruct H as (more & Hmore & H).
    inversion H; subst. intros c [<- | Hc]; [reflexivity|].
    eapply IH; eassumption.
Qed.

(** The calls for one file: by the name, by the guard, by the manifest. The
    calls of the first two rules and the call for a [main] target that does
    not exist name the file itself. *)
Lemma file_calls_cases (here : list str) (f : node) (fc : list entry_point) :
  file_calls L root here f = Ret fc ->
  forall c, In c fc ->
    (ep_path c = path_str (here ++ [node_name f])
     /\ In (ep_type c)
          [py "docker"; py "build"; py "package"; py "web-server";
           py "django"; py "python-main"; py "python-script";
           py "node-config"])
    \/ ep_type c = py "node-main"
    \/ ep_type c = py "cli-binary".
Proof.
  unfold file_calls. intros H. apply bind_Ret in H.
  destruct H as (manifest & Hm & H). inversion H; subst. clear H.
  intros c Hc. apply in_app_or in Hc. destruct Hc as [Hc|Hc].
  { unfold canonical_calls in Hc.
    destruct (PyStr.mem (node_name f) ENTRY_POINT_NAMES); [|destruct Hc].
    destruct Hc as [<- | []]. left. split; [reflexivity|]. cbn [ep_type].
    pose proof (classify_entry_cases (node_name f)) as Hk.
    simpl in Hk. simpl. tauto. }
  apply in_app_or in Hc. destruct Hc as [Hc|Hc].
  { unfold guard_calls in Hc.
    destruct (PyStr.endswith (node_name f) (py ".py")); [|destruct Hc].
    destruct (_read_safe f max_bytes_default) as [[|ch source]|];
      try destruct Hc.
    destruct (_has_python_main_guard L (ch :: source)); [|destruct Hc].
    destruct Hc as [<- | []]. left. split; [reflexivity|]. simpl. tauto. }
  unfold manifest_calls in Hm.
  destruct (PyStr.eqb (node_name f) (py "package.json"));
    [|inversion Hm; subst; destruct Hc].
  destruct (_read_safe f max_bytes_default) as [[|ch source]|];
    try (inversion Hm; subst; destruct Hc).
  destruct (json_loads L (ch :: source)) as [data|];
    [|inversion Hm; subst; destruct Hc].
  apply bind_Ret in Hm. destruct Hm as (mainc & Hmain & Hm).
  apply bind_Ret in Hm. destruct Hm as (binc & Hbin & Hm).
  inversion Hm; subst. clear Hm.
  apply in_app_or in Hc. destruct Hc as [Hc|Hc].
  - unfold main_calls in Hmain. apply bind_Ret in Hmain.
    destruct Hmain as (mainv & _ & Hmain).
    destruct mainv as [[| | | |target| |]|]; try discriminate;
      [|inversion Hmain; subst; destruct Hc].
    destruct (target_exists L root here target).
    + apply bind_Ret in Hmain. destruct Hmain as (main_rel & _ & Hmain).
      inversion Hmain; subst. destruct Hc as [<- | []]. right; left; reflexivity.
    + inversion Hmain; subst. destruct Hc as [<- | []].
      left. split; [reflexivity|]. simpl. tauto.
  - unfold bin_calls in Hbin. apply bind_Ret in Hbin.
    destruct Hbin as (binv & _ & Hbin).
    destruct binv as [[| | | | | |items]|];
      try (inversion Hbin; subst; destruct Hc).
    right; right. eapply bin_items_calls_type; eassumption.
Qed.

Lemma file_calls_canonical (here : list str) (f : node)
    (fc : list entry_point) :
  file_calls L root here f = Ret fc ->
  PyStr.mem (node_name f) ENTRY_POINT_NAMES = true ->
  exists c, In c fc /\ ep_path c = path_str (here ++ [node_name f]).
Proof.
  unfold file_calls. intros H Hn. apply bind_Ret in H.
  destruct H as (manifest & _ & H). inversion H; subst.
  unfold canonical_calls. rewrite Hn.
  eexists. split; [left; reflexivity | reflexivity].
Qed.
End CallsOfFile.

(* ------------------------------------------------------------------ *)
(** ** Entry points: categories, order, first match *)

Lemma sorted_entries_ok (l : list entry_point) :
  StronglySorted entry_key_le (sorted entry_key_lt l).
Proof.
  apply (sorted_ok entry_key_lt entry_key_lt_asym).
  intros a b c. apply entry_key_le_trans.
Qed.

(** C2, as the code has it. Every record that [find_entry_points] returns
    has one of the categories docker, build, package, web-server, django,
    python-main, python-script, node-main, node-config and cli-binary, and
    the list is in ascending order of (category, path). *)
Theorem find_entry_points_categories_sorted :
  forall (L : library) (root : node) (es : list entry_point),
    find_entry_points L root = Ret es ->
    (forall e, In e es -> In (ep_type e) code_categories)
    /\ StronglySorted entry_key_le es.
Proof.
  intros L root es H. apply find_entry_points_Ret in H.
  destruct H as (calls & Hcalls & ->). split; [|apply sorted_entries_ok].
  intros e He. apply sorted_In in He. apply keep_first_sound in He.
  destruct He as (_ & pre & post & -> & _).
  destruct (dirs_calls_origin _ _ _ Hcalls) as [Horigin _].
  destruct (Horigin e) as (here & files & f & fc & _ & _ & Hfc & Hin).
  { apply in_or_app. right. left. reflexivity. }
  destruct (file_calls_cases _ _ _ _ Hfc e Hin) as [[_ Ht] | [Ht | Ht]].
  - simpl in Ht. unfold code_categories. simpl.
    repeat (destruct Ht as [Ht | Ht]; [rewrite <- Ht; tauto|]). destruct Ht.
  - rewrite Ht. simpl. tauto.
  - rewrite Ht. simpl. tauto.
Qed.

Lemma find_entry_points_categories_sorted_witness :
  find_entry_points Sample.lib Sample.scenario
  = Ret [{| ep_path := py "main.py";
            ep_type := py "python-main";
            ep_reason := py "canonical entry-point filename `main.py`" |}]
  /\ In (py "python-main") code_categories.
Proof.
  assert (find_entry_points Sample.lib Sample.scenario
          = Ret [{| ep_path := py "main.py";
                    ep_type := py "python-main";
                    ep_reason := py "canonical entry-point filename `main.py`" |}])
    as H by reflexivity.
  split; [exact H|].
  apply (proj1 (find_entry_points_categories_sorted Sample.lib Sample.scenario H)
           {| ep_path := py "main.py";
              ep_type := py "python-main";
              ep_reason := py "canonical entry-point filename `main.py`" |}).
  left. reflexivity.
Defined.

(** C2, counterexample: the record of [main.py] has the category
    python-main, which the enumeration of the spec does not contain. *)
Lemma find_entry_points_category_outside_spec :
  exists e,
    find_entry_points Sample.lib Sample.scenario = Ret [e]
    /\ ~ In (ep_type e) spec_categories.
Proof.
  eexists. split; [reflexivity|].
  cbn [ep_type]. unfold spec_categories. cbn [List.map].
  intros H. repeat (destruct H as [H | H]; [vm_compute in H; discriminate|]).
  destruct H.
Qed.

(** The calls of a run are the calls for the files that the walk visits,
    one segment for each file, in the order of the walk. *)
Lemma concat_split {A : Type} (segs : list (list A)) :
  forall pre e post,
    concat segs = pre ++ e :: post ->
    exists before seg after s1 s2,
      segs = before ++ seg :: after
      /\ seg = s1 ++ e :: s2
      /\ pre = concat before ++ s1.
Proof.
  induction segs as [|seg segs IH]; intros pre e post; cbn [concat].
  - destruct pre; discriminate.
  - intros H. apply app_eq_app in H. destruct H as [l [[H1 H2] | [H1 H2]]].
    + destruct l as [|x l].
      * cbn [app] in H2. symmetry in H2. rewrite app_nil_r in H1. subst seg.
        destruct (IH [] e post H2)
          as (before & seg & after & s1 & s2 & -> & -> & Hpre).
        exists (pre :: before), (s1 ++ e :: s2), after, s1, s2.
        repeat split. cbn [concat].
        rewrite <- app_assoc, <- Hpre, app_nil_r. reflexivity.
      * cbn [app] in H2. injection H2 as He Hpost. subst x seg.
        exists [], (pre ++ e :: l), segs, pre, l. repeat split.
    + destruct (IH l e post H2)
        as (before & seg' & after & s1 & s2 & -> & -> & Hl).
      exists (seg :: before), (s1 ++ e :: s2), after, s1, s2.
      repeat split. cbn [concat]. rewrite H1, Hl, app_assoc. reflexivity.
Qed.

Section CallsSegments.
Variable L : library.
Variable root : node.

Lemma files_calls_concat (here : list str) (files : list node) :
  forall calls,
    files_calls L root here files = Ret calls ->
    exists segs,
      calls = concat segs
      /\ Forall (fun seg => exists f, In f files
                                      /\ file_calls L root here f = Ret seg)
           segs.
Proof.
  induction files as [|f files IH]; intros calls; cbn [files_calls].
  - intros H. apply Ret_inj in H. subst. exists []. split; constructor.
  - intros H. apply bind_Ret in H. destruct H as (fc & Hfc & H).
    apply bind_Ret in H. destruct H as (more & Hmore & H).
    apply Ret_inj in H. subst.
    destruct (IH _ Hmore) as (segs & -> & Hsegs).
    exists (fc :: segs). split; [reflexivity|]. constructor.
    + exists f. split; [left; reflexivity | exact Hfc].
    + eapply Forall_impl; [|exact Hsegs].
      intros seg (f' & Hf' & Hseg). exists f'. split; [right|]; assumption.
Qed.

Lemma dirs_calls_concat (visits : list (list str * list node)) :
  forall calls,
    dirs_calls L root visits = Ret calls ->
    exists segs,
      calls = concat segs
      /\ Forall (fun seg => exists here files f,
                     In (here, files) visits /\ In f files
                     /\ file_calls L root here f = Ret seg)
           segs.
Proof.
  induction visits as [|[here files] visits IH]; intros calls;
    cbn [dirs_calls].
  - intros H. apply Ret_inj in H. subst. exists []. split; constructor.
  - intros H. apply bind_Ret in H. destruct H as (fc & Hfc & H).
    apply bind_Ret in H. destruct H as (more & Hmore & H).
    apply Ret_inj in H. subst.
    destruct (IH _ Hmore) as (segs & -> & Hsegs).
    destruct (files_calls_concat _ _ Hfc) as (segs0 & -> & Hsegs0).
    exists (segs0 ++ segs). split; [symmetry; apply concat_app|].
    apply Forall_app. split.
    + eapply Forall_impl; [|exact Hsegs0].
      intros seg (f & Hf & Hseg). exists here, files, f.
      split; [left; reflexivity | split; assumption].
    + eapply Forall_impl; [|exact Hsegs].
      intros seg (here' & files' & f & Hv & Hf & Hseg).
      exists here', files', f. split; [right|split]; assumption.
Qed.

Lemma main_calls_type (here : list str) (rel : str) (data : pyval)
    (calls : list entry_point) (c : entry_point) :
  main_calls L root here rel data = Ret calls ->
  In c calls ->
  In (ep_type c) [py "node-main"; py "node-config"].
Proof.
  unfold main_calls. intros H Hc. apply bind_Ret in H.
  destruct H as (mainv & _ & H).
  destruct mainv as [[| | | |target| |]|]; try discriminate;
    [|apply Ret_inj in H; subst; destruct Hc].
  destruct (target_exists L root here target).
  - apply bind_Ret in H. destruct H as (main_rel & _ & H).
    apply Ret_inj in H. subst. destruct Hc as [<- | []].
    left. reflexivity.
  - apply Ret_inj in H. subst. destruct Hc as [<- | []].
    right. left. reflexivity.
Qed.

Lemma bin_calls_type (here : list str) (rel : str) (data : pyval)
    (calls : list entry_point) (c : entry_point) :
  bin_calls L root here rel data = Ret calls ->
  In c calls ->
  ep_type c = py "cli-binary".
Proof.
  unfold bin_calls. intros H Hc. apply bind_Ret in H.
  destruct H as (binv & _ & H).
  destruct binv as [[| | | | | |items]|];
    try (apply Ret_inj in H; subst; destruct Hc).
  exact (@bin_items_calls_type _ _ _ _ _ _ H c Hc).
Qed.

(** The calls of the rule of the manifest: none for a file that is not a
    [package.json] with a text that [json.loads] accepts; otherwise the
    calls for the field [main], then those for the field [bin]. *)
Lemma manifest_calls_split (here : list str) (rel : str) (f : node)
    (manifest : list entry_point) :
  manifest_calls L root here rel f = Ret manifest ->
  manifest = []
  \/ (node_name f = py "package.json"
      /\ exists c source data mainc binc,
           _read_safe f max_bytes_default = Some (c :: source)
           /\ json_loads L (c :: source) = Some data
           /\ main_calls L root here rel data = Ret mainc
           /\ bin_calls L root here rel data = Ret binc
           /\ manifest = mainc ++ binc).
Proof.
  unfold manifest_calls. intros Hm.
  destruct (PyStr.eqb (node_name f) (py "package.json")) eqn:E;
    [|apply Ret_inj in Hm; left; symmetry; exact Hm].
  apply str_eqb_eq in E.
  destruct (_read_safe f max_bytes_default) as [[|ch source]|];
    try (apply Ret_inj in Hm; left; symmetry; exact Hm).
  destruct (json_loads L (ch :: source)) as [data|] eqn:Ej;
    [|apply Ret_inj in Hm; left; symmetry; exact Hm].
  apply bind_Ret in Hm. destruct Hm as (mainc & Hmain & Hm).
  apply bind_Ret in Hm. destruct Hm as (binc & Hbin & Hm).
  apply Ret_inj in Hm. right. split; [exact E|].
  exists ch, source, data, mainc, binc.
  split; [reflexivity|]. split; [exact Ej|].
  split; [exact Hmain|]. split; [exact Hbin|]. symmetry. exact Hm.
Qed.

(** A call for one file that no earlier call for the same file precedes
    with the same path is the call of the first rule that matches: the rule
    of the canonical names; failing that, the rule of the main guard; and
    for a manifest, the rule of the field [main] before the rule of the
    field [bin]. *)
Lemma file_calls_first_rule (here : list str) (f : node)
    (s1 s2 : list entry_point) (e : entry_point) :
  file_calls L root here f = Ret (s1 ++ e :: s2) ->
  (forall e', In e' s1 -> ep_path e' <> ep_path e) ->
  (PyStr.mem (node_name f) ENTRY_POINT_NAMES = true
   /\ e = {| ep_path := path_str (here ++ [node_name f]);
             ep_type := _classify_entry L (node_name f);
             ep_reason := py "canonical entry-point filename `"
                          ++ node_name f ++ py "`" |})
  \/ (PyStr.mem (node_name f) ENTRY_POINT_NAMES = false
      /\ PyStr.endswith (node_name f) (py ".py") = true
      /\ (exists c source,
             _read_safe f max_bytes_default = Some (c :: source)
             /\ _has_python_main_guard L (c :: source) = true)
      /\ e = {| ep_path := path_str (here ++ [node_name f]);
                ep_type := py "python-script";
                ep_reason := py "contains `if __name__ == '__main__'`" |})
  \/ (PyStr.mem (node_name f) ENTRY_POINT_NAMES = false
      /\ node_name f = py "package.json"
      /\ exists c source data mainc binc,
           _read_safe f max_bytes_default = Some (c :: source)
           /\ json_loads L (c :: source) = Some data
           /\ main_calls L root here (path_str (here ++ [node_name f])) data
              = Ret mainc
           /\ bin_calls L root here (path_str (here ++ [node_name f])) data
              = Ret binc
           /\ ((In e mainc
                /\ In (ep_type e) [py "node-main"; py "node-config"])
               \/ (In e binc
                   /\ ep_type e = py "cli-binary"
                   /\ forall e', In e' mainc -> ep_path e' <> ep_path e))).
Proof.
  unfold file_calls. intros H Hfirst. apply bind_Ret in H.
  destruct H as (manifest & Hm & H). apply Ret_inj in H.
  assert (forall c, In c (guard_calls L (path_str (here ++ [node_name f])) f) ->
                    PyStr.endswith (node_name f) (py ".py") = true
                    /\ (exists ch source,
                           _read_safe f max_bytes_default = Some (ch :: source)
                           /\ _has_python_main_guard L (ch :: source) = true)
                    /\ c = {| ep_path := path_str (here ++ [node_name f]);
                              ep_type := py "python-script";
                              ep_reason :=
                                py "contains `if __name__ == '__main__'`" |})
    as Hguard.
  { intros c Hc. unfold guard_calls in Hc.
    destruct (PyStr.endswith (node_name f) (py ".py")); [|destruct Hc].
    destruct (_read_safe f max_bytes_default) as [[|ch source]|];
      try destruct Hc.
    destruct (_has_python_main_guard L (ch :: source)) eqn:Eg;
      [|destruct Hc].
    destruct Hc as [<- | []]. split; [reflexivity|].
    split; [exists ch, source; split; [reflexivity | exact Eg]|].
    reflexivity. }
  apply manifest_calls_split in Hm.
  unfold canonical_calls in H.
  destruct (PyStr.mem (node_name f) ENTRY_POINT_NAMES) eqn:Emem;
    cbn [app] in H.
  - destruct s1 as [|x s1]; cbn [app] in H.
    + injection H as He _. left. split; [reflexivity | symmetry; exact He].
    + exfalso. injection H as Hx Hrest.
      assert (ep_path x <> ep_path e) as Hne
          by (apply Hfirst; left; reflexivity).
      assert (In e (guard_calls L (path_str (here ++ [node_name f])) f
                    ++ manifest)) as Hin
          by (rewrite Hrest; apply in_or_app; right; left; reflexivity).
      apply in_app_or in Hin. destruct Hin as [Hin|Hin].
      * destruct (Hguard e Hin) as (_ & _ & ->). apply Hne.
        rewrite <- Hx. reflexivity.
      * destruct Hm as [-> | (Hn & _)]; [destruct Hin|].
        rewrite Hn in Emem. discriminate Emem.
  - destruct Hm as [-> | (Hn & ch & source & data & mainc & binc
                           & Hr & Hj & Hmain & Hbin & ->)].
    + rewrite app_nil_r in H.
      assert (In e (guard_calls L (path_str (here ++ [node_name f])) f))
        as Hin by (rewrite H; apply in_or_app; right; left; reflexivity).
      right. left. destruct (Hguard e Hin) as (Hend & Hsrc & He).
      split; [reflexivity | split; [exact Hend | split; assumption]].
    + right. right. split; [reflexivity|]. split; [exact Hn|].
      exists ch, source, data, mainc, binc.
      split; [exact Hr|]. split; [exact Hj|].
      split; [exact Hmain|]. split; [exact Hbin|].
      assert (guard_calls L (path_str (here ++ [node_name f])) f = [])
        as Hg by (unfold guard_calls; rewrite Hn; reflexivity).
      rewrite Hg in H. cbn [app] in H.
      apply app_eq_app in H. destruct H as [l [[H1 H2] | [H1 H2]]].
      * destruct l as [|x l]; cbn [app] in H2.
        -- right. rewrite app_nil_r in H1. subst s1.
           assert (In e binc) as Hin by (rewrite <- H2; left; reflexivity).
           split; [exact Hin|].
           split; [exact (@bin_calls_type _ _ _ _ _ Hbin Hin) | exact Hfirst].
        -- injection H2 as Hx _. subst x.
           assert (In e mainc) as Hin
               by (rewrite H1; apply in_or_app; right; left; reflexivity).
           left. split; [exact Hin|].
           exact (@main_calls_type _ _ _ _ _ Hmain Hin).
      * right.
        assert (In e binc) as Hin
            by (rewrite H2; apply in_or_app; right; left; reflexivity).
        split; [exact Hin|].
        split; [exact (@bin_calls_type _ _ _ _ _ Hbin Hin)|].
        intros e' He'. apply Hfirst. rewrite H1. apply in_or_app. left.
        exact He'.
Qed.
End CallsSegments.

(** C7. The paths of the records that [find_entry_points] returns are
    pairwise distinct, even when several rules match a path; each record is
    the one of the first call to [add] for its path, the calls being taken
    in the order of the walk; it comes from a file that the walk visits and
    is the record of the first rule that matches there: the rule of the
    canonical names; for a name that is not canonical, the rule of the main
    guard; and for a manifest, the rule of the field [main] before that of
    the field [bin]; and the path of a file that the walk visits and whose
    name is a canonical entry-point name occurs exactly once. *)
Theorem find_entry_points_first_match :
  forall (L : library) (root : node) (es : list entry_point),
    find_entry_points L root = Ret es ->
    NoDup (List.map ep_path es)
    /\ (exists calls,
           add_calls L root = Ret calls
           /\ forall e, In e es ->
                exists pre post,
                  calls = pre ++ e :: post
                  /\ forall e', In e' pre -> ep_path e' <> ep_path e)
    /\ (forall e, In e es ->
          exists here files f,
            In (here, files) (os_walk [] root)
            /\ In f files
            /\ ((PyStr.mem (node_name f) ENTRY_POINT_NAMES = true
                 /\ e = {| ep_path := path_str (here ++ [node_name f]);
                           ep_type := _classify_entry L (node_name f);
                           ep_reason :=
                             py "canonical entry-point filename `"
                             ++ node_name f ++ py "`" |})
                \/ (PyStr.mem (node_name f) ENTRY_POINT_NAMES = false
                    /\ PyStr.endswith (node_name f) (py ".py") = true
                    /\ (exists c source,
                           _read_safe f max_bytes_default
                           = Some (c :: source)
                           /\ _has_python_main_guard L (c :: source) = true)
                    /\ e = {| ep_path := path_str (here ++ [node_name f]);
                              ep_type := py "python-script";
                              ep_reason :=
                                py "contains `if __name__ == '__main__'`" |})
                \/ (PyStr.mem (node_name f) ENTRY_POINT_NAMES = false
                    /\ node_name f = py "package.json"
                    /\ exists c source data mainc binc,
                         _read_safe f max_bytes_default = Some (c :: source)
                         /\ json_loads L (c :: source) = Some data
                         /\ main_calls L root here
                              (path_str (here ++ [node_name f])) data
                            = Ret mainc
                         /\ bin_calls L root here
                              (path_str (here ++ [node_name f])) data
                            = Ret binc
                         /\ ((In e mainc
                              /\ In (ep_type e)
                                   [py "node-main"; py "node-config"])
                             \/ (In e binc
                                 /\ ep_type e = py "cli-binary"
                                 /\ forall e', In e' mainc ->
                                               ep_path e' <> ep_path e)))))
    /\ (forall p f,
           walked root p f ->
           PyStr.mem (node_name f) ENTRY_POINT_NAMES = true ->
           occurrences (List.map ep_path es) (path_str p) = 1).
Proof.
  intros L root es H. apply find_entry_points_Ret in H.
  destruct H as (calls & Hcalls & ->).
  assert (NoDup (List.map ep_path (sorted entry_key_lt (keep_first calls []))))
    as Hnd.
  { eapply Permutation_NoDup;
      [apply Permutation_map, sorted_perm | apply keep_first_NoDup]. }
  split; [exact Hnd|]. split; [|split].
  - exists calls. split; [exact Hcalls|].
    intros e He. apply sorted_In in He. apply keep_first_sound in He.
    destruct He as (_ & pre & post & Hsplit & Hpre). exists pre, post. auto.
  - intros e He. apply sorted_In in He. apply keep_first_sound in He.
    destruct He as (_ & pre & post & Hsplit & Hfirst).
    pose proof Hcalls as Hsegs. unfold add_calls in Hsegs.
    apply dirs_calls_concat in Hsegs.
    destruct Hsegs as (segs & Hconcat & Hsegs).
    rewrite Hconcat in Hsplit. apply concat_split in Hsplit.
    destruct Hsplit as (before & seg & after & s1 & s2 & -> & -> & ->).
    rewrite Forall_forall in Hsegs.
    destruct (Hsegs (s1 ++ e :: s2)) as (here & files & f & Hv & Hf & Hfc).
    { apply in_or_app. right. left. reflexivity. }
    exists here, files, f. split; [exact Hv|]. split; [exact Hf|].
    apply (@file_calls_first_rule L root here f s1 s2 e Hfc).
    intros e' He'. apply Hfirst. apply in_or_app. right. exact He'.
  - intros p f Hw Hn. apply occurrences_NoDup; [exact Hnd|].
    apply walked_os_walk in Hw. destruct Hw as (here & files & Hv & Hf & ->).
    destruct (dirs_calls_origin _ _ _ Hcalls) as [_ Hfiles].
    destruct (Hfiles here files f Hv Hf) as (fc & Hfc & Hincl).
    destruct (file_calls_canonical _ _ _ _ Hfc Hn) as (c & Hc & <-).
    eapply Permutation_in;
      [apply Permutation_map, sorted_perm|].
    apply keep_first_complete; [apply Hincl; exact Hc | intros []].
Qed.

Lemma find_entry_points_first_match_witness :
  find_entry_points Sample.lib Sample.scenario
  = Ret [{| ep_path := py "main.py";
            ep_type := py "python-main";
            ep_reason := py "canonical entry-point filename `main.py`" |}]
  /\ NoDup [py "main.py"]
  /\ exists here files f,
       In (here, files) (os_walk [] Sample.scenario)
       /\ In f files
       /\ PyStr.mem (node_name f) ENTRY_POINT_NAMES = true
       /\ _read_safe f max_bytes_default = Some Sample.src_main
       /\ _has_python_main_guard Sample.lib Sample.src_main = true
       /\ path_str (here ++ [node_name f]) = py "main.py".
Proof.
  assert (find_entry_points Sample.lib Sample.scenario
          = Ret [{| ep_path := py "main.py";
                    ep_type := py "python-main";
                    ep_reason := py "canonical entry-point filename `main.py`" |}])
    as H by reflexivity.
  split; [exact H|].
  destruct (@find_entry_points_first_match Sample.lib Sample.scenario _ H)
    as (Hnd & _ & Hrule & _).
  split; [exact Hnd|].
  destruct (Hrule _ (or_introl eq_refl))
    as (here & files & f & Hv & Hf & Hcase).
  exists here, files, f. split; [exact Hv|]. split; [exact Hf|].
  destruct Hv as [Hv|[]]. injection Hv as <- <-.
  destruct Hf as [<- | [<- | [<- | []]]];
    destruct Hcase as [(Hmem & He) | [(Hmem & _ & _ & He) | (Hmem & Hn & _)]];
    try (vm_compute in Hmem; discriminate Hmem);
    try (vm_compute in He; discriminate He);
    try (vm_compute in Hn; discriminate Hn).
  repeat split.
Defined.

(* ------------------------------------------------------------------ *)
(** ** Nothing below a skipped directory *)

Lemma all_entries_In (L : library) (children : list node) (e : node) :
  In e (all_entries L children) ->
  In e children /\ _should_skip (node_name e) e = false.
Proof.
  unfold all_entries. intros H.
  assert (In e (filter (fun e0 => negb (_should_skip (node_name e0) e0))
                  (sorted (tree_key_lt L) children))) as H'.
  { apply in_app_or in H. destruct H as [H|H]; apply filter_In in H; tauto. }
  apply filter_In in H'. destruct H' as [H1 H2].
  apply sorted_In in H1. apply negb_true_iff in H2. auto.
Qed.

Section TreeLines.
Variable L : library.
Variable max_files : Z.

Lemma tree_loop_lines (rec : bool -> list node -> str -> Z -> list line * Z)
    (prefix : str) (total : nat) (rest : list node) :
  forall i c l,
    In l (fst (tree_loop rec prefix max_files total rest i c)) ->
    is_entry_line l = true ->
    (exists e, In e rest /\ line_name l = node_name e)
    \/ (exists name r cs p c',
           In (Dir name r cs) rest /\ In l (fst (rec r cs p c'))).
Proof.
  induction rest as [|e rest IH]; intros i c l; cbn [tree_loop]; [intros []|].
  destruct (c >=? max_files)%Z.
  { intros [<- | []]. discriminate. }
  assert (forall ls c2,
             In l (fst (let '(more, counter) :=
                          tree_loop rec prefix max_files total rest (S i) c2 in
                        (EntryLine prefix
                           (if Nat.eqb i (total - 1) then conn_last else conn_mid)
                           (node_name e) :: ls ++ more, counter))) ->
             In l (EntryLine prefix
                     (if Nat.eqb i (total - 1) then conn_last else conn_mid)
                     (node_name e) :: ls)
             \/ In l (fst (tree_loop rec prefix max_files total rest (S i) c2)))
    as Hsplit.
  { intros ls c2.
    destruct (tree_loop rec prefix max_files total rest (S i) c2) as [more c3].
    cbn [fst]. intros [H|H]; [left; left; exact H|].
    apply in_app_or in H. destruct H; [left; right|right]; assumption. }
  assert (forall c2,
             In l (fst (tree_loop rec prefix max_files total rest (S i) c2)) ->
             is_entry_line l = true ->
             (exists e0, In e0 (e :: rest) /\ line_name l = node_name e0)
             \/ (exists name r cs p c',
                    In (Dir name r cs) (e :: rest) /\ In l (fst (rec r cs p c'))))
    as Hrest.
  { intros c2 H Hl. destruct (IH _ _ _ H Hl) as [(e0 & He0 & Hn) | Hsub].
    - left. exists e0. split; [right; exact He0 | exact Hn].
    - right. destruct Hsub as (name & r & cs & p & c' & Hin & Hl').
      exists name, r, cs, p, c'. split; [right; exact Hin | exact Hl']. }
  destruct e as [name data | name r cs | name].
  - intros H Hl. apply Hsplit in H. destruct H as [[<- | []] | H].
    + left. eexists. split; [left; reflexivity | reflexivity].
    + eapply Hrest; eassumption.
  - destruct (rec r cs _ (c + 1)%Z) as [ls c2] eqn:Erec.
    intros H Hl. apply Hsplit in H. destruct H as [[<- | H] | H].
    + left. eexists. split; [left; reflexivity | reflexivity].
    + right. exists name, r, cs. do 2 eexists.
      split; [left; reflexivity|]. rewrite Erec. exact H.
    + eapply Hrest; eassumption.
  - intros H Hl. apply Hsplit in H. destruct H as [[<- | []] | H].
    + left. eexists. split; [left; reflexivity | reflexivity].
    + eapply Hrest; eassumption.
Qed.

Lemma build_file_tree_from_listed (levels : nat) :
  forall name readable children prefix c l,
    In l (fst (build_file_tree_from L levels readable children prefix
                 max_files c)) ->
    is_entry_line l = true ->
    exists e, listed (Dir name readable children) e /\ line_name l = node_name e.
Proof.
  induction levels as [|levels IH]; intros name readable children prefix c l;
    cbn [build_file_tree_from].
  - intros [<- | []]; discriminate.
  - destruct readable; cbn [negb]; [|intros [<- | []]; discriminate].
    intros H Hl. apply tree_loop_lines in H; [|exact Hl].
    destruct H as [(e & He & Hn) | (n' & r' & cs' & p & c' & Hin & Hsub)].
    + apply all_entries_In in He. destruct He as [He Hs].
      exists e. split; [|exact Hn].
      exists [], name, children. repeat split; [constructor | exact He | exact Hs].
    + apply all_entries_In in Hin. destruct Hin as [Hin Hs].
      destruct (IH n' r' cs' p c' l Hsub Hl)
        as (e & (here & dname & dcs & Hr & He & Hse) & Hn).
      exists e. split; [|exact Hn].
      exists (n' :: here), dname, dcs. repeat split; [|exact He | exact Hse].
      change (n' :: here) with (node_name (Dir n' r' cs') :: here).
      apply reaches_step; auto.
Qed.
End TreeLines.

Section DescriptionKeys.
Variable L : library.

Lemma describe_files_keys (here : list str) (max_files : Z)
    (files : list node) :
  forall st st',
    describe_files L here max_files files st = Ret st' ->
    forall k, In k (List.map fst (fst st')) ->
      In k (List.map fst (fst st))
      \/ exists f, In f files /\ _should_skip (node_name f) f = false
                   /\ k = path_str (here ++ [node_name f]).
Proof.
  induction files as [|f files IH]; intros st st'; cbn [describe_files].
  - intros H. inversion H; subst. auto.
  - destruct (_should_skip (node_name f) f) eqn:Es.
    + intros H k Hk. destruct (IH _ _ H k Hk) as [|(f' & Hf' & Hs' & ->)]; auto.
      right. exists f'. repeat split; auto. right; exact Hf'.
    + destruct st as [descriptions count].
      destruct (count >=? max_files)%Z.
      * intros H. inversion H; subst. auto.
      * intros H. apply bind_Ret in H. destruct H as (desc & _ & H).
        intros k Hk. destruct (IH _ _ H k Hk) as [Hin|(f' & Hf' & Hs' & ->)].
        -- cbn [fst] in Hin. destruct (truthy desc).
           ++ apply dict_set_keys in Hin. destruct Hin as [-> | Hin]; auto.
              right. exists f. repeat split; auto. left; reflexivity.
           ++ auto.
        -- right. exists f'. repeat split; auto. right; exact Hf'.
Qed.

Lemma describe_dirs_keys (max_files : Z)
    (visits : list (list str * list node)) :
  forall st st',
    describe_dirs L max_files visits st = Ret st' ->
    forall k, In k (List.map fst (fst st')) ->
      In k (List.map fst (fst st))
      \/ exists here files f,
           In (here, files) visits /\ In f files
           /\ _should_skip (node_name f) f = false
           /\ k = path_str (here ++ [node_name f]).
Proof.
  induction visits as [|[here files] visits IH]; intros st st';
    cbn [describe_dirs].
  - intros H. inversion H; subst. auto.
  - intros H. apply bind_Ret in H. destruct H as (st1 & H1 & H).
    intros k Hk.
    destruct (IH _ _ H k Hk) as [Hin|(here' & files' & f & Hv & Hf & Hs & ->)].
    + destruct (describe_files_keys _ _ _ _ H1 k Hin)
        as [|(f & Hf & Hs & ->)]; auto.
      right. exists here, files, f. repeat split; auto; [left; reflexivity|].
      apply sorted_In in Hf. exact Hf.
    + right. exists here', files', f. repeat split; auto. right; exact Hv.
Qed.
End DescriptionKeys.

(** C8, as the code has it. Every entry line of the file tree names an
    entry that is not skipped and lies in no skipped directory; every key of
    the description mapping and every key of the dependency graph is the
    path of a file that lies in no skipped directory; and so is the path of
    every record of the entry-point list whose category is neither
    node-main nor cli-binary. (The records of these two categories carry the
    target that a [package.json] names, wherever it lies.) *)
Theorem skipped_directories_excluded :
  forall (L : library) (name : str) (readable : bool) (children : list node),
    (forall max_depth max_files l,
        In l (build_file_tree_lines L readable children max_depth max_files) ->
        is_entry_line l = true ->
        exists e,
          listed (Dir name readable children) e /\ line_name l = node_name e)
    /\ (forall max_files ds,
           collect_module_descriptions L (Dir name readable children) max_files
           = Ret ds ->
           forall k v, In (k, v) ds ->
             exists p f,
               walked (Dir name readable children) p f
               /\ _should_skip (node_name f) f = false /\ k = path_str p)
    /\ (forall rel d,
           In (rel, d) (build_dep_graph L (Dir name readable children)) ->
           exists p f,
             walked (Dir name readable children) p f /\ rel = path_str p)
    /\ (forall es,
           find_entry_points L (Dir name readable children) = Ret es ->
           forall e, In e es ->
             ep_type e <> py "node-main" -> ep_type e <> py "cli-binary" ->
             exists p f,
               walked (Dir name readable children) p f
               /\ ep_path e = path_str p).
Proof.
  intros L name readable children. split; [|split; [|split]].
  - intros max_depth max_files l. unfold build_file_tree_lines.
    apply build_file_tree_from_listed.
  - intros max_files ds H k v Hin. unfold collect_module_descriptions in H.
    apply bind_Ret in H. destruct H as (st & Hst & H). inversion H; subst.
    apply (in_map fst) in Hin. cbn [fst] in Hin.
    destruct (describe_dirs_keys _ _ _ _ Hst k Hin)
      as [[] | (here & files & f & Hv & Hf & Hs & ->)].
    exists (here ++ [node_name f]), f. repeat split; auto.
    eapply os_walk_walked; eassumption.
  - apply build_dep_graph_ind.
    intros here files f rel d Hv Hf g. unfold graph_file.
    assert (forall v, In (rel, d) (dict_set g (path_str (here ++ [node_name f])) v) ->
                      In (rel, d) g
                      \/ exists p f0,
                           walked (Dir name readable children) p f0
                           /\ rel = path_str p) as Hset.
    { intros v H. apply dict_set_In in H. destruct H as [H|H]; [|auto].
      right. inversion H; subst.
      exists (here ++ [node_name f]), f. split; [|reflexivity].
      eapply os_walk_walked; eassumption. }
    destruct (_read_safe f max_bytes_default) as [source|]; [|auto].
    destruct (PyStr.eqb _ (py ".py")).
    + match goal with |- In _ (match ?l with [] => _ | _ => _ end) -> _ =>
        destruct l end; [auto | apply Hset].
    + destruct (PyStr.mem _ js_suffixes); [|auto].
      match goal with |- In _ (match ?l with [] => _ | _ => _ end) -> _ =>
        destruct l end; [auto | apply Hset].
  - intros es H e He Hmain Hbin. apply find_entry_points_Ret in H.
    destruct H as (calls & Hcalls & ->).
    apply sorted_In in He. apply keep_first_sound in He.
    destruct He as (_ & pre & post & -> & _).
    destruct (dirs_calls_origin _ _ _ Hcalls) as [Horigin _].
    destruct (Horigin e) as (here & files & f & fc & Hv & Hf & Hfc & Hin).
    { apply in_or_app. right. left. reflexivity. }
    destruct (file_calls_cases _ _ _ _ Hfc e Hin) as [[Hp _] | [Ht | Ht]];
      try contradiction.
    exists (here ++ [node_name f]), f. split; [|exact Hp].
    eapply os_walk_walked; eassumption.
Qed.

(** C8, counterexample: the manifest names [dist/bundle.js] as its [main]
    file; [dist] is a skipped directory, and the file is returned as an
    entry point. *)
Lemma manifest_target_under_skipped_directory :
  _should_skip (node_name Sample.dist) Sample.dist = true
  /\ lookup Sample.with_dist [py "dist"; py "bundle.js"] = Some Sample.bundle
  /\ find_entry_points Sample.lib Sample.with_dist
     = Ret [{| ep_path := py "dist/bundle.js";
               ep_type := py "node-main";
               ep_reason := py "referenced as `main` in package.json" |}].
Proof. repeat split. Qed.

Lemma skipped_directories_excluded_witness :
  In (py "utils.py", {| local := [py "helpers"]; external := [py "os"] |})
    (build_dep_graph Sample.lib Sample.scenario)
  /\ exists p f, walked Sample.scenario p f /\ py "utils.py" = path_str p.
Proof.
  assert (In (py "utils.py",
              {| local := [py "helpers"]; external := [py "os"] |})
            (build_dep_graph Sample.lib Sample.scenario))
    as H by (left; reflexivity).
  split; [exact H|].
  exact (proj1 (proj2 (proj2 (skipped_directories_excluded Sample.lib
                                (py "project") true Sample.scenario_files)))
           _ _ H).
Defined.

(* ------------------------------------------------------------------ *)
(** ** The round-trip scenario *)

Lemma Permutation_three {A : Type} (a b c : A) (l : list A) :
  Permutation [a; b; c] l ->
  l = [a; b; c] \/ l = [a; c; b] \/ l = [b; a; c]
  \/ l = [b; c; a] \/ l = [c; a; b] \/ l = [c; b; a].
Proof.
  intros H. pose proof (Permutation_length H) as Hlen.
  destruct l as [|x [|y [|z [|w l]]]]; try discriminate. clear Hlen.
  assert (In a [x; y; z]) as Ha
      by (apply (Permutation_in _ H); left; reflexivity).
  destruct Ha as [-> | [-> | [-> | []]]].
  - apply Permutation_cons_inv, Permutation_length_2_inv in H.
    destruct H as [H | H]; inversion H; subst; tauto.
  - assert (Permutation [a; b; c] [a; x; z]) as H'
        by (rewrite H; apply perm_swap).
    apply Permutation_cons_inv, Permutation_length_2_inv in H'.
    destruct H' as [H' | H']; inversion H'; subst; tauto.
  - assert (Permutation [a; b; c] [a; x; y]) as H'.
    { rewrite H. symmetry. apply (Permutation_cons_append [x; y] a). }
    apply Permutation_cons_inv, Permutation_length_2_inv in H'.
    destruct H' as [H' | H']; inversion H'; subst; tauto.
Qed.

Ltac scenario_compute Hm Hu Hh Hl1 Hl2 :=
  vm_compute; rewrite ?Hl1, ?Hl2; vm_compute;
  rewrite ?Hm, ?Hu, ?Hh; vm_compute;
  rewrite ?Hl1, ?Hl2; vm_compute; rewrite ?Hm, ?Hu, ?Hh; vm_compute.

(** C1, as the code has it. For the directory that holds exactly the three
    files of the scenario, in whatever order the system lists them:
    [build_dep_graph] has the one entry [utils.py] with local [helpers] and
    external [os] (so [main.py] is omitted); the main guard of [main.py] is
    detected, but the call to [add] for it comes second, after the call for
    the canonical name; [find_entry_points] returns [main.py] once, with
    the category and the reason of the canonical name. *)
Theorem round_trip_scenario :
  forall (L : library) (name : str) (files : list node),
    scenario_facts L ->
    Permutation Sample.scenario_files files ->
    build_dep_graph L (Dir name true files)
    = [(py "utils.py", {| local := [py "helpers"]; external := [py "os"] |})]
    /\ add_calls L (Dir name true files)
       = Ret [{| ep_path := py "main.py";
                 ep_type := py "python-main";
                 ep_reason := py "canonical entry-point filename `main.py`" |};
              {| ep_path := py "main.py";
                 ep_type := py "python-script";
                 ep_reason := py "contains `if __name__ == '__main__'`" |}]
    /\ find_entry_points L (Dir name true files)
       = Ret [{| ep_path := py "main.py";
                 ep_type := py "python-main";
                 ep_reason := py "canonical entry-point filename `main.py`" |}].
Proof.
  intros L name files (Hm & Hu & Hh & Hl1 & Hl2) Hperm.
  vm_compute in Hm, Hu, Hh, Hl1, Hl2.
  apply Permutation_three in Hperm.
  destruct Hperm as [-> | [-> | [-> | [-> | [-> | ->]]]]];
    (split; [|split]); scenario_compute Hm Hu Hh Hl1 Hl2; reflexivity.
Qed.

Lemma round_trip_scenario_witness :
  scenario_facts Sample.lib
  /\ Permutation Sample.scenario_files Sample.scenario_files
  /\ build_dep_graph Sample.lib Sample.scenario
     = [(py "utils.py", {| local := [py "helpers"]; external := [py "os"] |})].
Proof.
  assert (scenario_facts Sample.lib) as Hf by (repeat split).
  split; [exact Hf|]. split; [apply Permutation_refl|].
  exact (proj1 (@round_trip_scenario Sample.lib (py "project")
                  Sample.scenario_files Hf (Permutation_refl _))).
Defined.

(** C1, counterexample: the reason recorded for [main.py] is that of the
    canonical name, not the detection of the main guard. *)
Lemma scenario_reason_is_not_the_guard :
  exists e,
    find_entry_points Sample.lib Sample.scenario = Ret [e]
    /\ ep_path e = py "main.py"
    /\ ep_reason e <> py "contains `if __name__ == '__main__'`".
Proof.
  eexists. split; [reflexivity|]. split; [reflexivity|].
  cbn [ep_reason]. vm_compute. discriminate.
Qed.

(* ------------------------------------------------------------------ *)
(** ** One-line descriptions, the manifest apart *)

Lemma drop_while_In (f : PyStr.char -> bool) (s : str) (c : PyStr.char) :
  In c (PyStr.drop_while f s) -> In c s.
Proof.
  induction s as [|x s IH]; simpl; [auto|].
  destruct (f x); simpl; auto.
Qed.

Lemma drop_while_idem (f : PyStr.char -> bool) (s : str) :
  PyStr.drop_while f (PyStr.drop_while f s) = PyStr.drop_while f s.
Proof.
  induction s as [|x s IH]; simpl; [reflexivity|].
  destruct (f x) eqn:E; [exact IH|]. simpl. rewrite E. reflexivity.
Qed.

Lemma drop_while_snoc (f : PyStr.char -> bool) (s : str) (c : PyStr.char) :
  f c = false ->
  PyStr.drop_while f (s ++ [c]) = PyStr.drop_while f s ++ [c].
Proof.
  intros Hc. induction s as [|x s IH]; simpl.
  - rewrite Hc. reflexivity.
  - destruct (f x); [exact IH | reflexivity].
Qed.

Lemma strip_In (s : str) (c : PyStr.char) : In c (PyStr.strip s) -> In c s.
Proof.
  unfold PyStr.strip, PyStr.rstrip, PyStr.lstrip. intros H.
  apply in_rev, drop_while_In, in_rev, drop_while_In in H. exact H.
Qed.

Lemma strip_trimmed (s : str) : trimmed (PyStr.strip s).
Proof.
  unfold trimmed, PyStr.strip, PyStr.lstrip.
  set (t := PyStr.drop_while PyStr.is_space s).
  assert (PyStr.drop_while PyStr.is_space t = t) as Ht
      by apply drop_while_idem.
  assert (PyStr.drop_while PyStr.is_space (PyStr.rstrip t) = PyStr.rstrip t)
    as Hl.
  { clearbody t. destruct t as [|c t']; [reflexivity|].
    simpl in Ht. destruct (PyStr.is_space c) eqn:Ec.
    - exfalso. apply (f_equal (@List.length _)) in Ht.
      assert (List.length (PyStr.drop_while PyStr.is_space t')
              <= List.length t') as Hlen.
      { clear. induction t' as [|x t' IH]; simpl; [lia|].
        destruct (PyStr.is_space x); simpl; lia. }
      simpl in Ht. lia.
    - unfold PyStr.rstrip. cbn [rev].
      rewrite drop_while_snoc by exact Ec.
      rewrite rev_app_distr. simpl. rewrite Ec. reflexivity. }
  rewrite Hl. unfold PyStr.rstrip. rewrite rev_involutive, drop_while_idem.
  reflexivity.
Qed.

Lemma no_linebreak_iff (s : str) :
  contains_linebreak s = false
  <-> forall c, In c s -> PyStr.is_linebreak c = false.
Proof.
  unfold contains_linebreak. induction s as [|x s IH]; simpl.
  - split; [intros _ c [] | reflexivity].
  - rewrite orb_false_iff, IH. split.
    + intros [Hx Hs] c [<- | Hc]; auto.
    + intros H. split; [apply H; left; reflexivity|].
      intros c Hc. apply H. right; exact Hc.
Qed.

Lemma strip_one_line (s : str) :
  contains_linebreak s = false -> contains_linebreak (PyStr.strip s) = false.
Proof.
  rewrite !no_linebreak_iff. intros H c Hc. apply H, strip_In, Hc.
Qed.

Lemma splitlines_from_one_line (n : nat) :
  forall s cur,
    List.length s <= n ->
    (forall c, In c cur -> PyStr.is_linebreak c = false) ->
    forall line, In line (PyStr.splitlines_from cur s) ->
                 contains_linebreak line = false.
Proof.
  induction n as [|n IH]; intros s cur Hlen Hcur line.
  - destruct s; [|simpl in Hlen; lia]. simpl.
    destruct cur; [intros []|]. intros [<- | []].
    apply no_linebreak_iff. intros x Hx. apply Hcur, in_rev, Hx.
  - destruct s as [|c s]; simpl.
    + destruct cur; [intros []|]. intros [<- | []].
      apply no_linebreak_iff. intros x Hx. apply Hcur, in_rev, Hx.
    + assert (contains_linebreak (rev cur) = false) as Hrev.
      { apply no_linebreak_iff. intros x Hx. apply Hcur, in_rev, Hx. }
      simpl in Hlen.
      destruct (PyStr.is_linebreak c) eqn:Ec.
      * destruct s as [|d s'].
        -- intros [<- | []]. exact Hrev.
        -- destruct ((c =? 13)%N && (d =? 10)%N).
           ++ intros [<- | H]; [exact Hrev|].
              apply (IH s' []) in H; auto; [simpl in Hlen; lia | intros ? []].
           ++ intros [<- | H]; [exact Hrev|].
              apply (IH (d :: s') []) in H; auto; [lia | intros ? []].
      * apply IH; [lia|]. intros x [<- | Hx]; auto.
Qed.

Lemma splitlines_one_line (s line : str) :
  In line (PyStr.splitlines s) -> contains_linebreak line = false.
Proof.
  apply (splitlines_from_one_line (n := List.length s));
    [apply le_n | intros c []].
Qed.

Lemma first_comment_one_line (lines : list str) (cc d : str) :
  (forall line, In line lines -> contains_linebreak line = false) ->
  first_comment_in lines cc = Some d ->
  contains_linebreak d = false /\ trimmed d.
Proof.
  induction lines as [|line lines IH]; intros Hlines; cbn [first_comment_in];
    [discriminate|].
  assert (forall l, In l lines -> contains_linebreak l = false) as Hrest
      by (intros l Hl; apply Hlines; right; exact Hl).
  destruct (PyStr.startswith (PyStr.strip line) cc); [|apply IH; exact Hrest].
  destruct (truthy _ && negb _); [|apply IH; exact Hrest].
  intros H. inversion H; subst. split; [|apply strip_trimmed].
  apply strip_one_line. apply no_linebreak_iff. intros c Hc.
  apply drop_while_In, strip_In in Hc.
  assert (contains_linebreak line = false) as Hl
      by (apply Hlines; left; reflexivity).
  rewrite no_linebreak_iff in Hl. apply Hl, Hc.
Qed.

(** X17. For a file that is not named [package.json], a description that
    [describe_file] returns has no line break and is trimmed (the part of
    C5 that the code keeps). *)
Theorem describe_file_one_line :
  forall (L : library) (path : node) (d : str),
    node_name path <> py "package.json" ->
    describe_file L path = Ret (Some d) ->
    contains_linebreak d = false /\ trimmed d.
Proof.
  intros L path d Hname. unfold describe_file.
  assert (forall suffix source,
             describe_comment L suffix (node_name path) source = Ret (Some d) ->
             contains_linebreak d = false /\ trimmed d) as Hcomment.
  { intros suffix source.
    assert (describe_manifest L (node_name path) source = Ret (Some d) ->
            contains_linebreak d = false /\ trimmed d) as Hmanifest.
    { unfold describe_manifest.
      destruct (PyStr.mem (node_name path) _); [|discriminate].
      destruct (PyStr.eqb (node_name path) (py "package.json")) eqn:E;
        [|discriminate].
      apply str_eqb_eq in E. contradiction. }
    unfold describe_comment.
    generalize (dict_get LANG_COMMENT suffix) as o. intros [cc|];
      [|exact Hmanifest].
    destruct (truthy (Some cc)); [|exact Hmanifest].
    destruct (truthy (extract_first_comment source cc)); [|exact Hmanifest].
    intros H. injection H as Hc. unfold extract_first_comment in Hc.
    eapply first_comment_one_line; [|exact Hc].
    intros line. apply splitlines_one_line. }
  destruct (_read_safe path max_bytes_default) as [source|].
  - destruct (PyStr.eqb _ (py ".py")); [|apply Hcomment].
    intros H. apply bind_Ret in H. destruct H as (doc & _ & H).
    destruct (truthy doc); [|revert H; apply Hcomment].
    destruct (PyStr.splitlines _) as [|first rest] eqn:Es; [discriminate|].
    inversion H; subst. split; [|apply strip_trimmed].
    apply strip_one_line.
    apply (@splitlines_one_line
             (match doc with Some d0 => d0 | None => [] end) first).
    rewrite Es. left; reflexivity.
  - intros H. inversion H; subst.
    split; [reflexivity | vm_compute; reflexivity].
Qed.

(* ------------------------------------------------------------------ *)
(** ** The loop of the regex fallback *)

Lemma drop_while_length (f : PyStr.char -> bool) (s : str) :
  List.length (PyStr.drop_while f s) <= List.length s.
Proof.
  induction s as [|x s IH]; simpl; [lia|].
  destruct (f x); simpl; lia.
Qed.

(** The fuel that [extract_python_docstring] gives to the loop is enough:
    with any fuel that is at least the length of the string the loop does
    the same, so that it is only reported as endless when a comment line
    without line feed is reached. *)
Lemma skip_hash_lines_fuel (n : nat) :
  forall m s,
    List.length s <= n -> List.length s <= m ->
    skip_hash_lines n s = skip_hash_lines m s.
Proof.
  induction n as [|n IH]; intros m s Hn Hm.
  - destruct s; [|simpl in Hn; lia]. destruct m; reflexivity.
  - destruct m as [|m].
    + destruct s; [|simpl in Hm; lia]. reflexivity.
    + cbn [skip_hash_lines].
      destruct (PyStr.startswith s (py "#")) eqn:Es; [|reflexivity].
      destruct (PyStr.find s [10%N]) as [k|]; [|reflexivity].
      assert (List.length (PyStr.lstrip (skipn (k + 1) s)) < List.length s)
        as Hlen.
      { unfold PyStr.lstrip.
        pose proof (drop_while_length PyStr.is_space (skipn (k + 1) s)) as H.
        rewrite length_skipn in H.
        destruct s; [discriminate Es | cbn [List.length] in *; lia]. }
      apply IH; lia.
Qed.

Lemma skip_hash_lines_endless (s : str) :
  skip_hash_lines (List.length s) s = Diverges ->
  exists t,
    PyStr.startswith t (py "#") = true /\ PyStr.find t [10%N] = None.
Proof.
  remember (List.length s) as n eqn:Hn.
  assert (List.length s <= n) as Hle by lia. clear Hn.
  revert s Hle. induction n as [|n IH]; intros s Hle.
  - destruct s; [|simpl in Hle; lia]. discriminate.
  - cbn [skip_hash_lines].
    destruct (PyStr.startswith s (py "#")) eqn:Es; [|discriminate].
    destruct (PyStr.find s [10%N]) as [k|] eqn:Ef.
    + apply IH. unfold PyStr.lstrip.
      pose proof (drop_while_length PyStr.is_space (skipn (k + 1) s)) as H.
      rewrite length_skipn in H.
      destruct s; [discriminate Es | cbn [List.length] in *; lia].
    + intros _. exists s. split; assumption.
Qed.

(* ================================================================== *)
(** * Further properties *)

(** ** The file tree: depth, budget, order *)

Lemma ext_length (b : bool) :
  List.length (if b then ext_last else ext_mid) = 4.
Proof. destruct b; reflexivity. Qed.

Lemma depth_ok_deeper (p e : str) (levels : nat) (l : line) :
  List.length e = 4 -> depth_ok (p ++ e) levels l -> depth_ok p (S levels) l.
Proof.
  intros He. unfold depth_ok. rewrite length_app, He.
  destruct l; try (intros (d & Hd & Hl); exists (S d); split; lia).
  lia.
Qed.

Section TreeDepth.
Variable L : library.
Variable max_files : Z.

Lemma tree_loop_depth (rec : bool -> list node -> str -> Z -> list line * Z)
    (levels : nat) (prefix : str) (total : nat) (rest : list node) :
  (forall r cs p c l, In l (fst (rec r cs p c)) -> depth_ok p levels l) ->
  forall i c l,
    In l (fst (tree_loop rec prefix max_files total rest i c)) ->
    depth_ok prefix (S levels) l.
Proof.
  intros Hrec. induction rest as [|e rest IH]; intros i c l;
    cbn [tree_loop]; [intros []|].
  assert (forall l0, line_prefix l0 = prefix ->
                     (forall q, l0 <> MaxDepth q) ->
                     depth_ok prefix (S levels) l0) as Hown.
  { intros l0 Hp Hq. destruct l0; try (exists 0; simpl in *; subst; lia).
    exfalso. eapply Hq. reflexivity. }
  assert (forall conn name0,
             depth_ok prefix (S levels) (EntryLine prefix conn name0)) as Hzero
      by (intros; apply Hown; [reflexivity | discriminate]).
  destruct (c >=? max_files)%Z.
  { intros [<- | []]. apply Hown; [reflexivity | discriminate]. }
  destruct e as [name data | name r cs | name].
  - specialize (IH (S i) (c + 1)%Z l).
    destruct (tree_loop rec prefix max_files total rest (S i) (c + 1)).
    cbn [fst app]. intros [<- | H]; [apply Hzero | auto].
  - pose proof (Hrec r cs (prefix ++ (if Nat.eqb i (total - 1)
                                      then ext_last else ext_mid))
                  (c + 1)%Z l) as Hsub.
    destruct (rec r cs _ (c + 1)%Z) as [ls c2].
    specialize (IH (S i) c2 l).
    destruct (tree_loop rec prefix max_files total rest (S i) c2).
    cbn [fst] in *. intros [<- | H]; [apply Hzero|].
    apply in_app_or in H. destruct H as [H | H]; [|auto].
    eapply depth_ok_deeper; [apply ext_length | apply Hsub, H].
  - specialize (IH (S i) (c + 1)%Z l).
    destruct (tree_loop rec prefix max_files total rest (S i) (c + 1)).
    cbn [fst app]. intros [<- | H]; [apply Hzero | auto].
Qed.

Lemma build_file_tree_from_depth (levels : nat) :
  forall readable children prefix c l,
    In l (fst (build_file_tree_from L levels readable children prefix
                 max_files c)) ->
    depth_ok prefix levels l.
Proof.
  induction levels as [|levels IH]; intros readable children prefix c l;
    cbn [build_file_tree_from].
  - intros [<- | []]. simpl. lia.
  - destruct readable; cbn [negb].
    + apply tree_loop_depth. intros r cs p c0 l0. apply IH.
    + intros [<- | []]. exists 0. simpl. lia.
Qed.
End TreeDepth.

(** X1. No line of the tree lies deeper than the depth limit allows: the
    prefix of every line other than the sentinel of the depth limit has
    [4 * d] characters for a depth [d] that is at most [max_depth], and the
    sentinel sits exactly one level below the limit. *)
Theorem build_file_tree_depth_limit :
  forall (L : library) (readable : bool) (children : list node)
         (max_depth max_files : Z) (l : line),
    In l (build_file_tree_lines L readable children max_depth max_files) ->
    match l with
    | MaxDepth prefix =>
        List.length prefix = 4 * Z.to_nat (max_depth + 1)
    | _ =>
        exists d,
          (Z.of_nat d <= max_depth)%Z
          /\ List.length (line_prefix l) = 4 * d
    end.
Proof.
  intros L readable children max_depth max_files l H.
  apply build_file_tree_from_depth in H. unfold depth_ok in H.
  cbn [List.length Nat.add] in H.
  destruct l; try (destruct H as (d & Hd & Hl); exists d; split; [lia | exact Hl]).
  exact H.
Qed.

Lemma build_file_tree_depth_limit_witness :
  In (MaxDepth ext_mid)
    (build_file_tree_lines Sample.lib true Sample.small_tree 0 300)
  /\ List.length ext_mid = 4 * Z.to_nat (0 + 1).
Proof.
  assert (In (MaxDepth ext_mid)
            (build_file_tree_lines Sample.lib true Sample.small_tree 0 300))
    as H by (right; left; reflexivity).
  split; [exact H|].
  exact (@build_file_tree_depth_limit Sample.lib true Sample.small_tree
           0%Z 300%Z _ H).
Defined.

(** X2. When the budget is at least the number of entries that the depth
    limit lets the walk list, every one of them is listed and there is no
    truncation sentinel. *)
Theorem build_file_tree_within_budget :
  forall (L : library) (readable : bool) (children : list node)
         (max_depth max_files : Z),
    (Z.of_nat (listable L (Z.to_nat (max_depth + 1)) readable children)
     <= max_files)%Z ->
    count_entries
      (build_file_tree_lines L readable children max_depth max_files)
    = listable L (Z.to_nat (max_depth + 1)) readable children
    /\ has_truncation
         (build_file_tree_lines L readable children max_depth max_files)
       = false.
Proof.
  intros L readable children max_depth max_files H.
  pose proof (build_file_tree_from_ok L max_files (Z.to_nat (max_depth + 1))
                readable children [] 0%Z) as Hok.
  unfold call_ok in Hok. unfold build_file_tree_lines.
  destruct Hok as (H1 & H2 & H3 & H4 & H5).
  destruct H4 as [E1 E2]; [lia|]. split; [lia | exact E2].
Qed.

Lemma build_file_tree_within_budget_witness :
  (Z.of_nat (listable Sample.lib (Z.to_nat (6 + 1)) true Sample.small_tree)
   <= 300)%Z
  /\ count_entries
       (build_file_tree_lines Sample.lib true Sample.small_tree 6 300)
     = 6.
Proof.
  assert (Z.of_nat (listable Sample.lib (Z.to_nat (6 + 1)) true
                      Sample.small_tree) <= 300)%Z as H
      by (vm_compute; discriminate).
  split; [exact H|].
  exact (proj1 (@build_file_tree_within_budget Sample.lib true
                  Sample.small_tree 6%Z 300%Z H)).
Defined.

Lemma tree_key_lt_asym (L : library) (a b : node) :
  tree_key_lt L a b = true -> tree_key_lt L b a = false.
Proof.
  unfold tree_key_lt. destruct (is_file a), (is_file b); try congruence;
    apply str_ltb_asym.
Qed.

Lemma tree_key_le_trans (L : library) (a b c : node) :
  tree_key_lt L b a = false -> tree_key_lt L c b = false ->
  tree_key_lt L c a = false.
Proof.
  unfold tree_key_lt.
  destruct (is_file a), (is_file b), (is_file c); try congruence;
    apply str_le_trans.
Qed.

Lemma StronglySorted_filter {A : Type} (R : A -> A -> Prop) (f : A -> bool)
    (l : list A) :
  StronglySorted R l -> StronglySorted R (filter f l).
Proof.
  induction 1 as [|x l Hl IH Hx]; simpl; [constructor|].
  destruct (f x); [|exact IH]. constructor; [exact IH|].
  rewrite Forall_forall in *. intros y Hy. apply Hx.
  apply filter_In in Hy. tauto.
Qed.

Lemma Permutation_filter {A : Type} (f : A -> bool) (l l' : list A) :
  Permutation l l' -> Permutation (filter f l) (filter f l').
Proof.
  induction 1 as [|x l l' H IH|x y l|l l' l'' H1 IH1 H2 IH2]; simpl.
  - constructor.
  - destruct (f x); [constructor|]; exact IH.
  - destruct (f x), (f y); try reflexivity. apply perm_swap.
  - eapply Permutation_trans; eassumption.
Qed.

Lemma filter_dirs_files (l : list node) :
  Permutation (filter is_dir l ++ filter is_file l)
    (filter (fun e => is_dir e || is_file e) l).
Proof.
  induction l as [|e l IH]; simpl; [constructor|].
  destruct e as [name data | name r cs | name]; simpl.
  - rewrite <- Permutation_middle. constructor. exact IH.
  - constructor. exact IH.
  - exact IH.
Qed.

Lemma filter_filter {A : Type} (f g : A -> bool) (l : list A) :
  filter f (filter g l) = filter (fun x => g x && f x) l.
Proof.
  induction l as [|x l IH]; simpl; [reflexivity|].
  destruct (g x); simpl; [destruct (f x)|]; rewrite IH; reflexivity.
Qed.

(** X3. The siblings that [build_file_tree] lists for a directory are its
    directories followed by its regular files, each group in ascending
    order of the names in lower case; they are the entries of the listing
    that are not skipped and are directories or regular files, each one
    once. *)
Theorem all_entries_order :
  forall (L : library) (children : list node),
    exists dirs files,
      all_entries L children = dirs ++ files
      /\ Forall (fun e => is_dir e = true) dirs
      /\ Forall (fun e => is_file e = true) files
      /\ StronglySorted (name_le L) dirs
      /\ StronglySorted (name_le L) files
      /\ Permutation (dirs ++ files)
           (filter (fun e => negb (_should_skip (node_name e) e)
                             && (is_dir e || is_file e)) children).
Proof.
  intros L children. unfold all_entries.
  set (entries := filter (fun e => negb (_should_skip (node_name e) e))
                    (sorted (tree_key_lt L) children)).
  assert (StronglySorted (tree_key_le L) entries) as Hsorted.
  { apply StronglySorted_filter.
    apply (sorted_ok (tree_key_lt L) (tree_key_lt_asym L)).
    intros a b c. apply tree_key_le_trans. }
  exists (filter is_dir entries), (filter is_file entries).
  split; [reflexivity|].
  split; [apply Forall_forall; intros e He; apply filter_In in He; tauto|].
  split; [apply Forall_forall; intros e He; apply filter_In in He; tauto|].
  assert (forall (kind : node -> bool),
             (forall a b, kind a = true -> kind b = true ->
                          is_file a = is_file b) ->
             StronglySorted (name_le L) (filter kind entries)) as Hgroup.
  { intros kind Hkind. induction Hsorted as [|x l Hl IH Hx]; simpl;
      [constructor|].
    destruct (kind x) eqn:Ex; [|exact IH]. constructor; [exact IH|].
    rewrite Forall_forall in *. intros y Hy. apply filter_In in Hy.
    destruct Hy as [Hy Ey]. specialize (Hx y Hy).
    unfold tree_key_le, tree_key_lt in Hx. unfold name_le.
    rewrite (Hkind x y Ex Ey) in Hx.
    destruct (is_file y); exact Hx. }
  split; [apply Hgroup; intros [] [] ; simpl; congruence|].
  split; [apply Hgroup; intros [] [] ; simpl; congruence|].
  rewrite filter_dirs_files. subst entries. rewrite filter_filter.
  apply Permutation_filter. symmetry. apply sorted_perm.
Qed.

(* ------------------------------------------------------------------ *)
(** ** The skip predicate on hidden entries *)

Lemma startswith_app (s p : str) :
  PyStr.startswith s p = true -> exists rest, s = p ++ rest.
Proof.
  revert s; induction p as [|y p IH]; intros s; simpl.
  - intros _. exists s. reflexivity.
  - destruct s as [|x s]; simpl; [discriminate|].
    rewrite andb_true_iff, N.eqb_eq. intros [-> H].
    destruct (IH s H) as [rest ->]. exists rest. reflexivity.
Qed.

Lemma endswith_app (s p : str) :
  PyStr.endswith s p = true -> exists pre, s = pre ++ p.
Proof.
  unfold PyStr.endswith. intros H. apply startswith_app in H.
  destruct H as [rest H]. exists (rev rest).
  rewrite <- (rev_involutive s), H, rev_app_distr, rev_involutive.
  reflexivity.
Qed.

Lemma rfind_char_app (a b : str) (c : PyStr.char) :
  PyStr.rfind_char (a ++ b) c
  = match PyStr.rfind_char b c with
    | Some i => Some (List.length a + i)
    | None => PyStr.rfind_char a c
    end.
Proof.
  induction a as [|x a IH]; simpl.
  - destruct (PyStr.rfind_char b c); reflexivity.
  - rewrite IH. destruct (PyStr.rfind_char b c); reflexivity.
Qed.

(** X4. Among the entries whose name starts with a dot: a directory is
    skipped unless it is [.github]; a regular file whose only dot is the
    first character ([.gitignore], [.env], [.DS_Store]) is never skipped,
    although [.env] and [.DS_Store] are names of the skip list. *)
Theorem should_skip_hidden :
  (forall name readable children,
      PyStr.startswith name (py ".") = true ->
      (_should_skip name (Dir name readable children) = true
       <-> name <> py ".github"))
  /\ (forall name data,
         PyStr.rfind_char name 46%N = Some 0 ->
         _should_skip name (File name data) = false).
Proof.
  split.
  - intros name readable children Hdot. unfold _should_skip.
    cbn [is_dir is_file andb]. rewrite Hdot, !andb_true_r. cbn [andb].
    destruct (PyStr.mem name SKIP_DIRS) eqn:Eskip.
    + split; [|reflexivity]. intros _ ->. vm_compute in Eskip. discriminate.
    + cbn [PyStr.mem existsb]. rewrite orb_false_r.
      destruct (PyStr.eqb name (py ".github")) eqn:E; cbn [negb].
      * apply str_eqb_eq in E. split; [discriminate | contradiction].
      * apply str_eqb_neq in E. split; [intros _; exact E | reflexivity].
  - intros name data Hdot. unfold _should_skip.
    cbn [is_dir is_file andb node_name]. rewrite !andb_false_r. cbn [andb].
    unfold path_suffix. rewrite Hdot. cbn [Nat.ltb Nat.leb andb].
    change (PyStr.mem [] SKIP_EXTENSIONS) with false. cbn iota.
    assert (forall p i, PyStr.rfind_char p 46%N = Some (S i) ->
                        PyStr.endswith name p = false) as Hends.
    { intros p i Hp. destruct (PyStr.endswith name p) eqn:E; [|reflexivity].
      apply endswith_app in E. destruct E as [pre ->].
      rewrite rfind_char_app, Hp in Hdot. inversion Hdot. lia. }
    rewrite (Hends (py ".min.js") 3), (Hends (py ".min.css") 3);
      reflexivity.
Qed.

Lemma should_skip_hidden_witness :
  PyStr.startswith (py ".cache") (py ".") = true
  /\ _should_skip (py ".cache") (Dir (py ".cache") true []) = true
  /\ PyStr.rfind_char (py ".DS_Store") 46%N = Some 0
  /\ _should_skip (py ".DS_Store") (File (py ".DS_Store") (Text [])) = false.
Proof.
  split; [reflexivity|]. split.
  - apply (proj1 should_skip_hidden (py ".cache") true []); [reflexivity|].
    discriminate.
  - split; [reflexivity|].
    apply (proj2 should_skip_hidden (py ".DS_Store") (Text [])). reflexivity.
Defined.

(* ------------------------------------------------------------------ *)
(** ** Comments, docstrings and descriptions *)

Lemma first_comment_in_accepts (lines : list str) (cc d : str) :
  first_comment_in lines cc = Some d ->
  d <> [] /\ PyStr.startswith d (py "!") = false.
Proof.
  induction lines as [|line lines IH]; cbn [first_comment_in]; [discriminate|].
  destruct (PyStr.startswith (PyStr.strip line) cc); [|exact IH].
  destruct (truthy _ && negb _) eqn:E; [|exact IH].
  intros H. inversion H; subst. apply andb_true_iff in E.
  destruct E as [E1 E2]. apply negb_true_iff in E2. split; [|exact E2].
  intros Hd. rewrite Hd in E1. discriminate.
Qed.

(** X5. The comment that [extract_first_comment] returns is not empty, is
    no interpreter directive (it does not start with an exclamation mark),
    has no line break and is trimmed. *)
Theorem extract_first_comment_text :
  forall (source comment_char d : str),
    extract_first_comment source comment_char = Some d ->
    d <> [] /\ PyStr.startswith d (py "!") = false
    /\ contains_linebreak d = false /\ trimmed d.
Proof.
  intros source cc d H. unfold extract_first_comment in H.
  destruct (first_comment_in_accepts _ _ H) as [H1 H2].
  split; [exact H1|]. split; [exact H2|].
  eapply first_comment_one_line; [|exact H].
  intros line. apply splitlines_one_line.
Qed.

Lemma extract_first_comment_text_witness :
  extract_first_comment
    (py "#!/usr/bin/env python" ++ [10%N] ++ py "# Utility functions" ++ [10%N])
    (py "#")
  = Some (py "Utility functions")
  /\ py "Utility functions" <> [].
Proof.
  assert (extract_first_comment
            (py "#!/usr/bin/env python" ++ [10%N] ++ py "# Utility functions"
             ++ [10%N]) (py "#")
          = Some (py "Utility functions")) as H by reflexivity.
  split; [exact H|].
  exact (proj1 (@extract_first_comment_text _ _ _ H)).
Defined.

Lemma drop_while_suffix (f : PyStr.char -> bool) (s : str) :
  exists pre, s = pre ++ PyStr.drop_while f s.
Proof.
  induction s as [|x s IH]; simpl; [exists []; reflexivity|].
  destruct (f x); [|exists []; reflexivity].
  destruct IH as [pre IH]. exists (x :: pre). simpl. f_equal. exact IH.
Qed.

Lemma suffix_ends_with (pre t t0 : str) (c : PyStr.char) :
  pre ++ t = t0 ++ [c] -> t = [] \/ exists t1, t = t1 ++ [c].
Proof.
  intros H. destruct (list_eq_dec N.eq_dec t []) as [-> | Hne]; [auto|].
  destruct (exists_last Hne) as (t1 & x & ->).
  right. exists t1. rewrite app_assoc in H.
  apply app_inj_tail in H. destruct H as [_ ->]. reflexivity.
Qed.

Lemma startswith_nil (s : str) : PyStr.startswith s [] = true.
Proof. destruct s; reflexivity. Qed.

Lemma find_single_None (s : str) (c : PyStr.char) :
  PyStr.find s [c] = None -> ~ In c s.
Proof.
  induction s as [|x s IH]; cbn [PyStr.find PyStr.startswith]; [auto|].
  rewrite startswith_nil, andb_true_r.
  destruct (N.eqb x c) eqn:E; [discriminate|].
  apply N.eqb_neq in E. destruct (PyStr.find s [c]); [discriminate|].
  intros _ [H | H]; [congruence | apply IH; auto].
Qed.

Lemma skip_hash_lines_returns (s0 : str) (fuel : nat) :
  forall t,
    List.length t <= fuel ->
    (exists pre, s0 ++ [10%N] = pre ++ t) ->
    exists r, skip_hash_lines fuel t = Ret r.
Proof.
  induction fuel as [|fuel IH]; intros t Hlen [pre Hpre].
  - destruct t; [|simpl in Hlen; lia]. exists []. reflexivity.
  - cbn [skip_hash_lines].
    destruct (PyStr.startswith t (py "#")) eqn:Es; [|exists t; reflexivity].
    destruct (PyStr.find t [10%N]) as [k|] eqn:Ef.
    + apply IH.
      * unfold PyStr.lstrip.
        pose proof (drop_while_length PyStr.is_space (skipn (k + 1) t)) as H.
        rewrite length_skipn in H.
        destruct t; [discriminate Es | cbn [List.length] in *; lia].
      * destruct (drop_while_suffix PyStr.is_space (skipn (k + 1) t))
          as [pre' Hpre'].
        exists (pre ++ firstn (k + 1) t ++ pre'). unfold PyStr.lstrip.
        rewrite Hpre, <- !app_assoc. f_equal.
        rewrite <- Hpre'. symmetry. apply firstn_skipn.
    + exfalso. apply find_single_None in Ef.
      symmetry in Hpre. apply suffix_ends_with in Hpre.
      destruct Hpre as [-> | [t1 ->]]; [discriminate Es|].
      apply Ef. apply in_or_app. right. left. reflexivity.
Qed.

Lemma docstring_returns (L : library) (source : str) :
  ast_parse L source <> None \/ PyStr.endswith source [10%N] = true ->
  exists r, extract_python_docstring L source = Ret r.
Proof.
  intros H. unfold extract_python_docstring.
  destruct (ast_parse L source) as [tree|]; [eexists; reflexivity|].
  destruct H as [H|H]; [congruence|].
  apply endswith_app in H. destruct H as [s0 ->].
  destruct (@skip_hash_lines_returns s0
              (List.length (PyStr.lstrip (s0 ++ [10%N])))
              (PyStr.lstrip (s0 ++ [10%N])) (le_n _)) as [r ->].
  { unfold PyStr.lstrip.
    destruct (drop_while_suffix PyStr.is_space (s0 ++ [10%N])) as [pre H].
    exists pre. exact H. }
  cbn [bind].
  destruct (match re_match L triple_dq_pattern r with
            | Some g => Some g
            | None => re_match L triple_sq_pattern r
            end); eexists; reflexivity.
Qed.


(** X6. On a source that [ast.parse] rejects with [SyntaxError] and that
    ends with a line feed, [extract_python_docstring] returns: the loop
    that skips the leading comment lines of the regex fallback ends. *)
Theorem extract_python_docstring_returns :
  forall (L : library) (source : str),
    ast_parse L source = None ->
    PyStr.endswith source [10%N] = true ->
    exists r, extract_python_docstring L source = Ret r.
Proof.
  intros L source _ H. apply docstring_returns. right. exact H.
Qed.

Lemma extract_python_docstring_returns_witness :
  ast_parse Sample.lib (py "# note" ++ [10%N] ++ py "def (" ++ [10%N]) = None
  /\ PyStr.endswith (py "# note" ++ [10%N] ++ py "def (" ++ [10%N]) [10%N]
     = true
  /\ extract_python_docstring Sample.lib
       (py "# note" ++ [10%N] ++ py "def (" ++ [10%N])
     = Ret None.
Proof.
  split; [reflexivity|]. split; [reflexivity|].
  destruct (@extract_python_docstring_returns Sample.lib
              (py "# note" ++ [10%N] ++ py "def (" ++ [10%N])
              eq_refl eq_refl) as [r H].
  rewrite H. f_equal.
  assert (extract_python_docstring Sample.lib
            (py "# note" ++ [10%N] ++ py "def (" ++ [10%N]) = Ret None)
    as H' by reflexivity.
  rewrite H' in H. apply Ret_inj in H. symmetry. exact H.
Defined.

(** X7. When the source has a syntax error and the text that follows the
    leading white space starts with a comment sign and holds no line feed,
    [extract_python_docstring] never returns; neither does [describe_file]
    on a Python file with this text. *)
Theorem extract_python_docstring_endless :
  forall (L : library) (source : str),
    ast_parse L source = None ->
    PyStr.startswith (PyStr.lstrip source) (py "#") = true ->
    PyStr.find (PyStr.lstrip source) [10%N] = None ->
    extract_python_docstring L source = Diverges
    /\ (forall name,
           str_lower L (path_suffix name) = py ".py" ->
           firstn max_bytes_default source = source ->
           describe_file L (File name (Text source)) = Diverges).
Proof.
  intros L source Hparse Hs Hf.
  assert (extract_python_docstring L source = Diverges) as H.
  { unfold extract_python_docstring. rewrite Hparse.
    destruct (PyStr.lstrip source) as [|c t] eqn:E; [discriminate Hs|].
    cbn [List.length skip_hash_lines]. rewrite Hs, Hf. reflexivity. }
  split; [exact H|].
  intros name Hlower Hshort. unfold describe_file, _read_safe, open_read.
  cbn [node_name]. rewrite Hshort, Hlower, str_eqb_refl, H. reflexivity.
Qed.

Lemma extract_python_docstring_endless_witness :
  ast_parse Sample.lib ([160%N] ++ py "# note") = None
  /\ describe_file Sample.lib
       (File (py "notes.py") (Text ([160%N] ++ py "# note")))
     = Diverges.
Proof.
  split; [reflexivity|].
  apply (proj2 (@extract_python_docstring_endless Sample.lib
                  ([160%N] ++ py "# note") eq_refl eq_refl eq_refl)
           (py "notes.py"));
    reflexivity.
Defined.

Lemma splitlines_from_nonempty (s cur : str) :
  cur <> [] \/ s <> [] -> PyStr.splitlines_from cur s <> [].
Proof.
  revert cur. induction s as [|c s IH]; intros cur H; simpl.
  - destruct cur; [destruct H; congruence | discriminate].
  - destruct (PyStr.is_linebreak c).
    + destruct s as [|d s']; [discriminate|].
      destruct ((c =? 13)%N && (d =? 10)%N); discriminate.
    + apply IH. left. discriminate.
Qed.

Lemma describe_file_one_line_witness :
  describe_file Sample.lib
    (File (py "util.py")
       (Text (py "# Utility functions" ++ [10%N] ++ py "import re" ++ [10%N])))
  = Ret (Some (py "Utility functions"))
  /\ contains_linebreak (py "Utility functions") = false
  /\ trimmed (py "Utility functions").
Proof.
  assert (describe_file Sample.lib
            (File (py "util.py")
               (Text (py "# Utility functions" ++ [10%N] ++ py "import re"
                      ++ [10%N])))
          = Ret (Some (py "Utility functions"))) as H by reflexivity.
  split; [exact H|].
  refine (@describe_file_one_line Sample.lib _ _ _ H). discriminate.
Defined.

Lemma describe_file_package_json_eq (L : library) (source : str) :
  str_lower L (py ".json") = py ".json" ->
  describe_file L (File (py "package.json") (Text source))
  = describe_package_json L (firstn max_bytes_default source).
Proof.
  intros Hlower. unfold describe_file, _read_safe, open_read.
  cbn [node_name].
  change (path_suffix (py "package.json")) with (py ".json").
  rewrite Hlower. reflexivity.
Qed.

(** X9. For a [package.json] whose text [json.loads] turns into a dict with
    a string under [name] and a string under [description],
    [describe_file] returns the name, the separator and the description, in
    this order; when [json.loads] rejects the text, it returns no
    description and raises nothing. *)
Theorem describe_file_package_json :
  forall (L : library) (source : str),
    str_lower L (py ".json") = py ".json" ->
    (forall items name description,
        json_loads L (firstn max_bytes_default source) = Some (VDict items) ->
        dict_get items (py "name") = Some (VStr name) ->
        dict_get items (py "description") = Some (VStr description) ->
        describe_file L (File (py "package.json") (Text source))
        = Ret (Some (name ++ py " - " ++ description)))
    /\ (json_loads L (firstn max_bytes_default source) = None ->
        describe_file L (File (py "package.json") (Text source)) = Ret None).
Proof.
  intros L source Hlower.
  rewrite (@describe_file_package_json_eq L source Hlower).
  unfold describe_package_json. split.
  - intros items name description -> Hn Hd. cbn [py_lookup bind].
    rewrite Hn, Hd. reflexivity.
  - intros ->. reflexivity.
Qed.

Lemma describe_file_package_json_witness :
  str_lower Sample.lib (py ".json") = py ".json"
  /\ describe_file Sample.lib Sample.manifest_two_lines
     = Ret (Some (py "pkg" ++ py " - "
                  ++ (py "first" ++ Sample.nl ++ py "second"))).
Proof.
  split; [reflexivity|].
  apply (proj1 (@describe_file_package_json Sample.lib Sample.json_two_lines
                  eq_refl)
           [(py "name", VStr (py "pkg"));
            (py "description", VStr (py "first" ++ Sample.nl ++ py "second"))]);
    reflexivity.
Defined.

(** X10. When the text of a [package.json] is valid JSON but its value is
    a number, a boolean or null, [describe_file] raises [TypeError], and so
    does [collect_module_descriptions] when this manifest is the first file
    that it describes. *)
Theorem describe_file_scalar_manifest :
  forall (L : library) (source : str) (v : pyval),
    str_lower L (py ".json") = py ".json" ->
    json_loads L (firstn max_bytes_default source) = Some v ->
    is_scalar v = true ->
    describe_file L (File (py "package.json") (Text source)) = Raise TypeError
    /\ (forall name max_files,
           (0 < max_files)%Z ->
           collect_module_descriptions L
             (Dir name true [File (py "package.json") (Text source)]) max_files
           = Raise TypeError).
Proof.
  intros L source v Hlower Hloads Hv.
  assert (describe_file L (File (py "package.json") (Text source))
          = Raise TypeError) as H.
  { rewrite (@describe_file_package_json_eq L source Hlower).
    unfold describe_package_json. rewrite Hloads.
    destruct v; try discriminate Hv; reflexivity. }
  split; [exact H|].
  intros name max_files Hpos. unfold collect_module_descriptions.
  cbn [os_walk filter is_dir negb flat_map andb app describe_dirs sorted
       fold_right insert_sorted describe_files].
  change (_should_skip (node_name (File (py "package.json") (Text source)))
            (File (py "package.json") (Text source))) with false.
  cbn iota. destruct (0 >=? max_files)%Z eqn:E; [lia|].
  rewrite H. reflexivity.
Qed.

Lemma describe_file_scalar_manifest_witness :
  json_loads Sample2.lib (firstn max_bytes_default (py "42")) = Some (VInt 42)
  /\ describe_file Sample2.lib (File (py "package.json") (Text (py "42")))
     = Raise TypeError.
Proof.
  split; [reflexivity|].
  apply (@describe_file_scalar_manifest Sample2.lib (py "42") (VInt 42));
    reflexivity.
Defined.

(** ** The mapping of module descriptions *)

Lemma add_key_NoDup (ks : list str) (k : str) :
  NoDup ks -> NoDup (add_key ks k).
Proof.
  intros H. unfold add_key. destruct (PyStr.mem k ks) eqn:E; [exact H|].
  apply NoDup_app; [exact H | repeat constructor; intros [] |].
  intros x Hx [<-|[]]. apply str_mem_In in Hx. congruence.
Qed.

Lemma dict_set_length {V : Type} (d : list (str * V)) (k : str) (v : V) :
  List.length (dict_set d k v) <= S (List.length d).
Proof.
  induction d as [|[k0 v0] d IH]; cbn [dict_set List.length]; [lia|].
  destruct (PyStr.eqb k k0); cbn [List.length]; lia.
Qed.

Section DescriptionInvariant.
Variable L : library.
Variable max_files : Z.

Lemma describe_files_ok (here : list str) (files : list node) :
  forall st st',
    descriptions_ok max_files st ->
    describe_files L here max_files files st = Ret st' ->
    descriptions_ok max_files st'.
Proof.
  induction files as [|f files IH]; intros st st' Hst;
    cbn [describe_files].
  - intros H. inversion H; subst. exact Hst.
  - destruct (_should_skip (node_name f) f); [apply IH; exact Hst|].
    destruct st as [descriptions count].
    destruct (count >=? max_files)%Z eqn:Ec.
    + intros H. inversion H; subst. exact Hst.
    + intros H. apply bind_Ret in H. destruct H as (desc & _ & H).
      apply IH in H; [exact H|]. clear H IH.
      destruct Hst as (Hnd & Hval & Hlen & Hcount). cbn [fst snd] in *.
      unfold descriptions_ok. cbn [fst snd].
      destruct desc as [[|c d]|]; cbn [truthy];
        try (repeat split; [exact Hnd | exact Hval | lia | lia]).
      repeat split.
      * rewrite dict_set_fst. apply add_key_NoDup. exact Hnd.
      * intros k v Hin. apply dict_set_In in Hin.
        destruct Hin as [Hin|Hin]; [|eapply Hval; exact Hin].
        inversion Hin; subst. discriminate.
      * pose proof (dict_set_length descriptions
                      (path_str (here ++ [node_name f])) (c :: d)). lia.
      * lia.
Qed.

Lemma describe_dirs_ok (visits : list (list str * list node)) :
  forall st st',
    descriptions_ok max_files st ->
    describe_dirs L max_files visits st = Ret st' ->
    descriptions_ok max_files st'.
Proof.
  induction visits as [|[here files] visits IH]; intros st st' Hst;
    cbn [describe_dirs].
  - intros H. inversion H; subst. exact Hst.
  - intros H. apply bind_Ret in H. destruct H as (st1 & H1 & H).
    eapply IH; [|exact H]. eapply describe_files_ok; [exact Hst | exact H1].
Qed.
End DescriptionInvariant.

(** X11. The mapping that [collect_module_descriptions] returns has
    distinct keys and no empty description, and it holds at most
    [max_files] descriptions (none for a budget that is not positive). *)
Theorem collect_module_descriptions_bounded :
  forall (L : library) (root : node) (max_files : Z)
         (descriptions : list (str * str)),
    collect_module_descriptions L root max_files = Ret descriptions ->
    NoDup (List.map fst descriptions)
    /\ (forall rel desc, In (rel, desc) descriptions -> desc <> [])
    /\ (Z.of_nat (List.length descriptions) <= Z.max 0 max_files)%Z.
Proof.
  intros L root max_files descriptions H.
  unfold collect_module_descriptions in H. apply bind_Ret in H.
  destruct H as (st & Hst & H). inversion H; subst. clear H.
  apply describe_dirs_ok in Hst.
  - destruct Hst as (Hnd & Hval & Hlen & Hcount). repeat split; auto. lia.
  - unfold descriptions_ok. cbn [fst snd List.map List.length].
    repeat split; [constructor | intros k v [] | lia | lia].
Qed.

Lemma collect_module_descriptions_bounded_witness :
  collect_module_descriptions Sample2.lib Sample2.two_scripts 1
  = Ret [(py "a.js", py "first")]
  /\ (Z.of_nat (List.length [(py "a.js", py "first")]) <= Z.max 0 1)%Z.
Proof.
  assert (collect_module_descriptions Sample2.lib Sample2.two_scripts 1
          = Ret [(py "a.js", py "first")]) as H by reflexivity.
  split; [exact H|].
  exact (proj2 (proj2 (@collect_module_descriptions_bounded
                         Sample2.lib Sample2.two_scripts 1 _ H))).
Defined.

(** ** Entry points: the categories that occur, and a manifest that is no
    mapping *)

Section CallsTypes.
Variable L : library.
Variable root : node.

(** The calls for one file, by the rule that makes them. *)
Lemma file_calls_types (here : list str) (f : node) (fc : list entry_point) :
  file_calls L root here f = Ret fc ->
  forall c, In c fc ->
    (PyStr.mem (node_name f) ENTRY_POINT_NAMES = true
     /\ ep_type c = _classify_entry L (node_name f))
    \/ In (ep_type c)
         [py "python-script"; py "node-main"; py "node-config";
          py "cli-binary"].
Proof.
  unfold file_calls. intros H. apply bind_Ret in H.
  destruct H as (manifest & Hm & H). inversion H; subst. clear H.
  intros c Hc. apply in_app_or in Hc. destruct Hc as [Hc|Hc].
  { unfold canonical_calls in Hc.
    destruct (PyStr.mem (node_name f) ENTRY_POINT_NAMES); [|destruct Hc].
    destruct Hc as [<- | []]. left. split; reflexivity. }
  right. apply in_app_or in Hc. destruct Hc as [Hc|Hc].
  { unfold guard_calls in Hc.
    destruct (PyStr.endswith (node_name f) (py ".py")); [|destruct Hc].
    destruct (_read_safe f max_bytes_default) as [[|ch source]|];
      try destruct Hc.
    destruct (_has_python_main_guard L (ch :: source)); [|destruct Hc].
    destruct Hc as [<- | []]. left. reflexivity. }
  unfold manifest_calls in Hm.
  destruct (PyStr.eqb (node_name f) (py "package.json"));
    [|inversion Hm; subst; destruct Hc].
  destruct (_read_safe f max_bytes_default) as [[|ch source]|];
    try (inversion Hm; subst; destruct Hc).
  destruct (json_loads L (ch :: source)) as [data|];
    [|inversion Hm; subst; destruct Hc].
  apply bind_Ret in Hm. destruct Hm as (mainc & Hmain & Hm).
  apply bind_Ret in Hm. destruct Hm as (binc & Hbin & Hm).
  inversion Hm; subst. clear Hm.
  apply in_app_or in Hc. destruct Hc as [Hc|Hc].
  - unfold main_calls in Hmain. apply bind_Ret in Hmain.
    destruct Hmain as (mainv & _ & Hmain).
    destruct mainv as [[| | | |target| |]|]; try discriminate;
      [|inversion Hmain; subst; destruct Hc].
    destruct (target_exists L root here target).
    + apply bind_Ret in Hmain. destruct Hmain as (main_rel & _ & Hmain).
      inversion Hmain; subst. destruct Hc as [<- | []].
      right; left; reflexivity.
    + inversion Hmain; subst. destruct Hc as [<- | []].
      right; right; left; reflexivity.
  - unfold bin_calls in Hbin. apply bind_Ret in Hbin.
    destruct Hbin as (binv & _ & Hbin).
    destruct binv as [[| | | | | |items]|];
      try (inversion Hbin; subst; destruct Hc).
    right; right; right; left. symmetry.
    eapply bin_items_calls_type; eassumption.
Qed.
End CallsTypes.

(** The category of each canonical name, when [str.lower] is what it is on
    ASCII text. *)
Lemma classify_entry_canonical (L : library) (fname : str) :
  (forall n, In n ENTRY_POINT_NAMES ->
             str_lower L n = Sample.lower_ascii n) ->
  PyStr.mem fname ENTRY_POINT_NAMES = true ->
  In (_classify_entry L fname)
    [py "docker"; py "build"; py "web-server"; py "django"; py "python-main"]
  /\ (_classify_entry L fname = py "python-main" <->
      ~ In fname [py "Dockerfile"; py "Makefile"; py "wsgi.py"; py "asgi.py";
                  py "manage.py"]).
Proof.
  intros Hlower Hmem. apply str_mem_In in Hmem.
  pose proof (Hlower fname Hmem) as Hl. unfold _classify_entry. rewrite Hl.
  clear Hl Hlower. unfold ENTRY_POINT_NAMES in Hmem.
  repeat (destruct Hmem as [<- | Hmem];
          [vm_compute; split;
           [tauto
           |split; [intros H;
                    first [discriminate H
                          | intros Hin;
                            repeat (destruct Hin as [Hin|Hin];
                                    [discriminate Hin|]); exact Hin]
                   |intros H; first [reflexivity | exfalso; apply H; tauto]]]
          |]).
  destruct Hmem.
Qed.

(** X12. When [str.lower] acts on the canonical names as it does on ASCII
    text, [find_entry_points] returns records of nine categories only: the
    category package of [_classify_entry] never occurs. *)
Theorem find_entry_points_nine_categories :
  forall (L : library) (root : node) (es : list entry_point),
    (forall n, In n ENTRY_POINT_NAMES ->
               str_lower L n = Sample.lower_ascii n) ->
    find_entry_points L root = Ret es ->
    forall e, In e es ->
      In (ep_type e)
        [py "docker"; py "build"; py "web-server"; py "django";
         py "python-main"; py "python-script"; py "node-main";
         py "node-config"; py "cli-binary"]
      /\ ep_type e <> py "package".
Proof.
  intros L root es Hlower H e He.
  assert (In (ep_type e)
            [py "docker"; py "build"; py "web-server"; py "django";
             py "python-main"; py "python-script"; py "node-main";
             py "node-config"; py "cli-binary"]) as Hin.
  { apply find_entry_points_Ret in H. destruct H as (calls & Hcalls & ->).
    apply sorted_In in He. apply keep_first_sound in He.
    destruct He as (_ & pre & post & -> & _).
    destruct (dirs_calls_origin _ _ _ Hcalls) as [Horigin _].
    destruct (Horigin e) as (here & files & f & fc & _ & _ & Hfc & Hin).
    { apply in_or_app. right. left. reflexivity. }
    destruct (file_calls_types _ _ _ _ Hfc e Hin) as [[Hmem Ht] | Ht].
    - rewrite Ht.
      destruct (classify_entry_canonical L (node_name f) Hlower Hmem)
        as [Hk _].
      simpl in Hk. simpl. tauto.
    - simpl in Ht. simpl. tauto. }
  split; [exact Hin|]. intros Heq. rewrite Heq in Hin.
  repeat (destruct Hin as [Hin|Hin]; [discriminate Hin|]). exact Hin.
Qed.

Lemma find_entry_points_nine_categories_witness :
  find_entry_points Sample.lib Sample.scenario
  = Ret [{| ep_path := py "main.py";
            ep_type := py "python-main";
            ep_reason := py "canonical entry-point filename `main.py`" |}]
  /\ py "python-main" <> py "package".
Proof.
  assert (find_entry_points Sample.lib Sample.scenario
          = Ret [{| ep_path := py "main.py";
                    ep_type := py "python-main";
                    ep_reason :=
                      py "canonical entry-point filename `main.py`" |}])
    as H by reflexivity.
  split; [exact H|].
  refine (proj2 (@find_entry_points_nine_categories Sample.lib Sample.scenario
                   _ (fun n _ => eq_refl) H _ (or_introl eq_refl))).
Defined.

Lemma scalar_manifest_file_calls (L : library) (root : node)
    (here : list str) (source : str) (v : pyval) :
  firstn max_bytes_default source <> [] ->
  json_loads L (firstn max_bytes_default source) = Some v ->
  is_scalar v = true ->
  file_calls L root here (File (py "package.json") (Text source))
  = Raise TypeError.
Proof.
  intros Hne Hloads Hv.
  unfold file_calls, manifest_calls, _read_safe, open_read.
  cbn [node_name]. rewrite str_eqb_refl.
  destruct (firstn max_bytes_default source) as [|c s] eqn:E;
    [congruence|].
  rewrite Hloads. unfold main_calls.
  destruct v; try discriminate Hv; reflexivity.
Qed.

Lemma find_entry_points_stops (L : library) (root : node)
    (here : list str) (files : list node) (f : node) :
  In (here, files) (os_walk [] root) ->
  In f files ->
  (forall fc, file_calls L root here f <> Ret fc) ->
  forall es, find_entry_points L root <> Ret es.
Proof.
  intros Hvisit Hf Hstop es H. apply find_entry_points_Ret in H.
  destruct H as (calls & Hcalls & _).
  destruct (dirs_calls_origin _ _ _ Hcalls) as [_ Hall].
  destruct (Hall here files _ Hvisit Hf) as (fc & Hfc & _).
  exact (Hstop fc Hfc).
Qed.

(** X13. A [package.json] that the walk visits and whose text is valid JSON
    for a number, a boolean or null stops [find_entry_points]: the test
    ["main" in data] raises [TypeError], which no handler of the function
    catches, so no list of entry points is returned. *)
Theorem find_entry_points_scalar_manifest :
  forall (L : library) (root : node) (here : list str) (files : list node)
         (source : str) (v : pyval),
    In (here, files) (os_walk [] root) ->
    In (File (py "package.json") (Text source)) files ->
    firstn max_bytes_default source <> [] ->
    json_loads L (firstn max_bytes_default source) = Some v ->
    is_scalar v = true ->
    file_calls L root here (File (py "package.json") (Text source))
    = Raise TypeError
    /\ forall es, find_entry_points L root <> Ret es.
Proof.
  intros L root here files source v Hvisit Hf Hne Hloads Hv.
  pose proof (@scalar_manifest_file_calls L root here source v Hne Hloads Hv)
    as Hraise.
  split; [exact Hraise|].
  apply (@find_entry_points_stops L root here files _ Hvisit Hf).
  intros fc Hfc. rewrite Hraise in Hfc. discriminate Hfc.
Qed.

Lemma find_entry_points_scalar_manifest_witness :
  find_entry_points Sample2.lib Sample2.scalar_manifest = Raise TypeError
  /\ forall es, find_entry_points Sample2.lib Sample2.scalar_manifest <> Ret es.
Proof.
  split; [reflexivity|].
  refine (proj2 (@find_entry_points_scalar_manifest Sample2.lib
                   Sample2.scalar_manifest []
                   [File (py "package.json") (Text (py "42"))]
                   (py "42") (VInt 42) _ _ _ _ _)).
  - left. reflexivity.
  - left. reflexivity.
  - discriminate.
  - reflexivity.
  - reflexivity.
Defined.

(** ** The dependency graph: keys, and the two classes of references *)

Lemma sorted_nil_inv {A : Type} (lt : A -> A -> bool) (l : list A) :
  sorted lt l = [] -> l = [].
Proof.
  intros H. apply Permutation_nil. rewrite <- H. apply Permutation_sym.
  apply sorted_perm.
Qed.

Lemma graph_file_keys (L : library) (mods here : list str) (f : node)
    (g : list (str * deps)) :
  NoDup (List.map fst g) ->
  NoDup (List.map fst (graph_file L mods here f g)).
Proof.
  intros H. unfold graph_file.
  destruct (_read_safe f max_bytes_default) as [source|]; [|exact H].
  destruct (PyStr.eqb _ (py ".py")).
  - match goal with |- context [match ?l with [] => _ | _ => _ end] =>
      destruct l end; [exact H|].
    rewrite dict_set_fst. apply add_key_NoDup. exact H.
  - destruct (PyStr.mem _ js_suffixes); [|exact H].
    match goal with |- context [match ?l with [] => _ | _ => _ end] =>
      destruct l end; [exact H|].
    rewrite dict_set_fst. apply add_key_NoDup. exact H.
Qed.

Lemma build_dep_graph_keys (L : library) (root : node) :
  NoDup (List.map fst (build_dep_graph L root)).
Proof.
  unfold build_dep_graph.
  assert (forall visits g,
             NoDup (List.map fst g) ->
             NoDup (List.map fst
               (fold_left
                  (fun graph visit =>
                     fold_left
                       (fun graph f =>
                          graph_file L (local_py_modules root) (fst visit) f
                            graph)
                       (snd visit) graph)
                  visits g))) as H.
  { induction visits as [|[here files] visits IH]; intros g Hg; simpl;
      [exact Hg|].
    apply IH. clear IH. revert g Hg.
    induction files as [|f files IHf]; intros g Hg; simpl; [exact Hg|].
    apply IHf. apply graph_file_keys. exact Hg. }
  apply H. constructor.
Qed.

(** X14. The graph of [build_dep_graph] has one entry per file, and no
    entry is empty. In every entry, a local reference starts with a dot or
    names a local Python module, an external reference never starts with a
    dot, and no reference is in both lists. *)
Theorem build_dep_graph_classification :
  forall (L : library) (root : node),
    NoDup (List.map fst (build_dep_graph L root))
    /\ forall rel d,
         In (rel, d) (build_dep_graph L root) ->
         local d ++ external d <> []
         /\ (forall i, In i (local d) ->
                       PyStr.startswith i (py ".") = true
                       \/ In i (local_py_modules root))
         /\ (forall i, In i (external d) ->
                       PyStr.startswith i (py ".") = false)
         /\ (forall i, In i (local d) -> ~ In i (external d)).
Proof.
  intros L root. split; [apply build_dep_graph_keys|].
  apply build_dep_graph_ind.
  intros here files f rel d _ _ g. unfold graph_file.
  destruct (_read_safe f max_bytes_default) as [source|]; [|auto].
  destruct (PyStr.eqb _ (py ".py")).
  - match goal with |- In _ (match ?l with [] => _ | _ => _ end) -> _ =>
      destruct l eqn:E end; [auto|].
    intros H. apply dict_set_In in H. destruct H as [H|H]; [|auto].
    right. inversion H; subst; cbn [local external]. clear H.
    repeat split.
    + intros Hnil. apply app_eq_nil in Hnil. destruct Hnil as [H1 H2].
      apply sorted_nil_inv in H1. apply sorted_nil_inv in H2.
      rewrite H1, H2 in E. discriminate E.
    + intros i Hi. apply sorted_In in Hi. apply filter_In in Hi.
      destruct Hi as [_ Hi]. apply orb_true_iff in Hi.
      destruct Hi as [Hi|Hi]; [left; exact Hi|].
      right. apply str_mem_In. exact Hi.
    + intros i Hi. apply sorted_In in Hi. apply filter_In in Hi.
      destruct Hi as [_ Hi]. apply negb_true_iff, orb_false_iff in Hi.
      apply Hi.
    + intros i Hi He. apply sorted_In in Hi. apply sorted_In in He.
      apply filter_In in Hi. apply filter_In in He.
      destruct Hi as [_ Hi]. destruct He as [_ He].
      rewrite Hi in He. discriminate He.
  - destruct (PyStr.mem _ js_suffixes); [|auto].
    match goal with |- In _ (match ?l with [] => _ | _ => _ end) -> _ =>
      destruct l eqn:E end; [auto|].
    intros H. apply dict_set_In in H. destruct H as [H|H]; [|auto].
    right. inversion H; subst; cbn [local external]. clear H.
    repeat split.
    + rewrite E. discriminate.
    + intros i Hi. rewrite sorted_In, dedup_In, filter_In in Hi.
      left. apply Hi.
    + intros i Hi. rewrite sorted_In, dedup_In, filter_In in Hi.
      apply negb_true_iff. apply Hi.
    + intros i Hi He. rewrite sorted_In, dedup_In, filter_In in Hi, He.
      destruct Hi as [_ Hi]. destruct He as [_ He].
      rewrite Hi in He. discriminate He.
Qed.

Lemma build_dep_graph_classification_witness :
  In (py "utils.py", {| local := [py "helpers"]; external := [py "os"] |})
    (build_dep_graph Sample.lib Sample.scenario)
  /\ [py "helpers"] ++ [py "os"] <> []
  /\ (forall i, In i [py "helpers"] ->
                PyStr.startswith i (py ".") = true
                \/ In i (local_py_modules Sample.scenario))
  /\ (forall i, In i [py "os"] -> PyStr.startswith i (py ".") = false)
  /\ (forall i, In i [py "helpers"] -> ~ In i [py "os"]).
Proof.
  assert (In (py "utils.py",
              {| local := [py "helpers"]; external := [py "os"] |})
            (build_dep_graph Sample.lib Sample.scenario))
    as H by (left; reflexivity).
  split; [exact H|].
  exact (proj2 (@build_dep_graph_classification Sample.lib Sample.scenario)
           _ _ H).
Defined.

(** ** The names of the local Python modules *)

Lemma descendants_shift (n : node) :
  forall pre,
    descendants pre n
    = List.map (fun pn : list str * node => (pre ++ fst pn, snd pn))
        (descendants [] n).
Proof.
  pattern n; apply node_nested_ind; clear n;
    [intros name data | intros name readable children IH | intros name];
    intros pre; cbn [descendants]; try reflexivity.
  destruct readable; [|reflexivity].
  induction IH as [|c cs Hc _ IHcs]; [reflexivity|].
  cbn [flat_map List.map app fst snd] in IHcs |- *.
  rewrite map_app, <- IHcs. f_equal. f_equal.
  rewrite (Hc (pre ++ [node_name c])), (Hc [node_name c]), map_map.
  apply map_ext. intros [p x]. cbn [fst snd]. rewrite app_assoc. reflexivity.
Qed.

Lemma descendants_below (c : node) (parts : list str) (n : node) :
  In (parts, n) (descendants [node_name c] c) <->
  exists p x rest, parts = node_name c :: x :: rest
                   /\ In (p, n) (descendants [] c)
                   /\ p = x :: rest.
Proof.
  rewrite descendants_shift, in_map_iff. split.
  - intros ([p x] & E & Hin). cbn [fst snd] in E. inversion E; subst.
    destruct p as [|y rest].
    + exfalso. destruct c as [? ?|? [|] cs|?]; cbn [descendants] in Hin;
        try destruct Hin.
      apply in_flat_map in Hin. destruct Hin as (c' & _ & [H|H]).
      * inversion H.
      * rewrite descendants_shift in H. apply in_map_iff in H.
        destruct H as ([p' x'] & E' & _). cbn [fst snd] in E'.
        inversion E'.
    + exists (y :: rest), y, rest. repeat split. exact Hin.
  - intros (p & x & rest & -> & Hin & ->).
    exists (x :: rest, n). split; [reflexivity | exact Hin].
Qed.

(** X15. The local Python modules of [build_dep_graph] are top-level names
    only: the stem of an entry of the root whose name ends in [.py], or the
    name of an entry of the root below which some path ends in [.py],
    however deep and whether or not a directory on the way is skipped. *)
Theorem local_py_modules_top_level :
  forall (name : str) (children : list node) (m : str),
    In m (local_py_modules (Dir name true children)) <->
    exists c, In c children
      /\ ((PyStr.endswith (node_name c) (py ".py") = true
           /\ m = path_stem (node_name c))
          \/ (m = node_name c
              /\ exists parts n,
                   In (parts, n) (descendants [] c)
                   /\ PyStr.endswith (node_name n) (py ".py") = true)).
Proof.
  intros name children m. unfold local_py_modules. rewrite in_flat_map.
  cbn [descendants app]. split.
  - intros ([parts n] & Hin & Hm). apply in_flat_map in Hin.
    destruct Hin as (c & Hc & Hin). exists c. split; [exact Hc|].
    destruct (PyStr.endswith (node_name n) (py ".py")) eqn:E; [|destruct Hm].
    destruct Hin as [Hin|Hin].
    + inversion Hin; subst. destruct Hm as [<- | []]. left. auto.
    + apply descendants_below in Hin.
      destruct Hin as (p & x & rest & -> & Hin & ->).
      destruct Hm as [<- | []]. right. split; [reflexivity|].
      exists (x :: rest), n. auto.
  - intros (c & Hc & [[E ->] | [-> (parts & n & Hin & E)]]).
    + exists ([node_name c], c). split.
      * apply in_flat_map. exists c. split; [exact Hc | left; reflexivity].
      * rewrite E. left. reflexivity.
    + destruct parts as [|x rest].
      { exfalso.
        assert (In ([node_name c], n) (descendants [node_name c] c)) as H.
        { rewrite descendants_shift. apply in_map_iff.
          exists ([], n). split; [reflexivity | exact Hin]. }
        apply descendants_below in H.
        destruct H as (p & x & rest & Hp & _). inversion Hp. }
      exists (node_name c :: x :: rest, n). split.
      * apply in_flat_map. exists c. split; [exact Hc|]. right.
        apply descendants_below. exists (x :: rest), x, rest. auto.
      * rewrite E. left. reflexivity.
Qed.

Lemma local_py_modules_top_level_witness :
  _should_skip (py "node_modules") Sample2.vendored = true
  /\ In (py "node_modules")
       (local_py_modules (Dir (py "project") true [Sample2.vendored])).
Proof.
  split; [reflexivity|].
  apply (proj2 (@local_py_modules_top_level (py "project")
                  [Sample2.vendored] (py "node_modules"))).
  exists Sample2.vendored. split; [left; reflexivity|]. right.
  split; [reflexivity|].
  exists [py "lib"; py "six.py"], Sample2.six.
  split; [right; left; reflexivity | reflexivity].
Defined.

(** ** The references collected from a Python source *)

Lemma split_from_first (sep : PyStr.char) (s : str) :
  forall cur first rest,
    PyStr.split_from sep cur s = first :: rest ->
    exists pre, first = rev cur ++ pre /\ ~ In sep pre
                /\ exists suf, s = pre ++ suf.
Proof.
  induction s as [|c s IH]; intros cur first rest; cbn [PyStr.split_from].
  - intros H. inversion H; subst. exists []. rewrite app_nil_r.
    repeat split; [intros [] | exists []; reflexivity].
  - destruct (N.eqb c sep) eqn:E.
    + intros H. inversion H; subst. exists []. rewrite app_nil_r.
      repeat split; [intros [] | exists (c :: s); reflexivity].
    + intros H. apply IH in H. destruct H as (pre & -> & Hpre & suf & ->).
      exists (c :: pre). cbn [rev]. rewrite <- app_assoc. cbn [app].
      repeat split.
      * intros [H|H]; [|auto]. subst. rewrite N.eqb_refl in E. discriminate.
      * exists suf. reflexivity.
Qed.

Lemma first_component_plain (dotted : str) :
  ~ In 46%N (first_component dotted)
  /\ exists suf, dotted = first_component dotted ++ suf.
Proof.
  unfold first_component, PyStr.split.
  destruct (PyStr.split_from 46%N [] dotted) as [|first rest] eqn:E.
  - split; [intros [] | exists dotted; reflexivity].
  - apply split_from_first in E. destruct E as (pre & -> & Hpre & Hsuf).
    cbn [rev app]. split; assumption.
Qed.

(** X16. Every reference that [_collect_python_imports] collects is either
    a relative reference, which starts with a dot, or the first component
    of a module name, in which no dot occurs. *)
Theorem collect_python_imports_shape :
  forall (L : library) (source i : str),
    In i (_collect_python_imports L source) ->
    PyStr.startswith i (py ".") = true \/ ~ In 46%N i.
Proof.
  intros L source i. unfold _collect_python_imports.
  destruct (ast_parse L source) as [tree|]; [|intros []].
  rewrite in_flat_map. intros (node & _ & Hi).
  destruct node; cbn [imports_of_node] in Hi; try destruct Hi.
  - apply in_map_iff in Hi. destruct Hi as (dotted & <- & _).
    right. apply first_component_plain.
  - destruct (truthy module && Nat.eqb level 0).
    + destruct Hi as [<- | []]. right. apply first_component_plain.
    + destruct (Nat.ltb 0 level) eqn:E; [|destruct Hi].
      destruct Hi as [<- | []]. left.
      apply Nat.ltb_lt in E. destruct level as [|level]; [lia|].
      change (py ".") with [46%N]. unfold PyStr.repeat_char.
      cbn [List.repeat app PyStr.startswith]. rewrite startswith_nil.
      reflexivity.
Qed.

Lemma collect_python_imports_shape_witness :
  _collect_python_imports Sample.lib Sample.src_utils
  = [py "os"; py "helpers"]
  /\ ~ In 46%N (py "os").
Proof.
  split; [reflexivity|].
  destruct (@collect_python_imports_shape Sample.lib Sample.src_utils
              (py "os") (or_introl eq_refl)) as [H|H];
    [discriminate H | exact H].
Defined.

(** ** The statistics of the overview *)

Lemma os_walk_dirs_walk (n : node) :
  forall here,
    List.map (fun v : list str * list node * list node =>
                (fst (fst v), snd v)) (os_walk_dirs here n)
    = os_walk here n.
Proof.
  pattern n; apply node_nested_ind; clear n;
    [intros name data | intros name readable children IH | intros name];
    intros here; cbn [os_walk_dirs os_walk]; try reflexivity.
  destruct readable; [|reflexivity].
  cbn [List.map fst snd]. f_equal.
  induction IH as [|c cs Hc _ IHcs]; [reflexivity|].
  cbn [flat_map]. rewrite map_app, IHcs. f_equal.
  destruct (is_dir c && negb (_should_skip (node_name c) c));
    [apply Hc | reflexivity].
Qed.

Section StatsFacts.
Variable L : library.

Lemma fold_count_file (files : list node) :
  forall st,
    fold_left (count_file L) files st
    = (fold_left dict_incr
         (List.map (ext_key L)
            (filter (fun f => negb (_should_skip (node_name f) f)) files))
         (fst st),
       (snd st
        + Z.of_nat
            (List.length
               (filter (fun f => negb (_should_skip (node_name f) f))
                  files)))%Z).
Proof.
  induction files as [|f files IH]; intros [counts total];
    cbn [fold_left filter List.map List.length fst snd].
  - f_equal. lia.
  - rewrite IH. unfold count_file.
    destruct (negb (_should_skip (node_name f) f));
      cbn [fst snd List.map fold_left List.length]; f_equal; lia.
Qed.

Lemma fold_count_visit (visits : list (list str * list node * list node)) :
  forall counts files dirs,
    fold_left (count_visit L) visits (counts, files, dirs)
    = (fold_left dict_incr
         (List.map (ext_key L)
            (flat_map
               (fun v : list str * list node * list node =>
                  filter (fun f => negb (_should_skip (node_name f) f))
                    (snd v))
               visits))
         counts,
       (files
        + Z.of_nat
            (List.length
               (flat_map
                  (fun v : list str * list node * list node =>
                     filter (fun f => negb (_should_skip (node_name f) f))
                       (snd v))
                  visits)))%Z,
       (dirs
        + Z.of_nat
            (list_sum
               (List.map
                  (fun v : list str * list node * list node =>
                     List.length (snd (fst v)))
                  visits)))%Z).
Proof.
  induction visits as [|[[here dirnames] filenames] visits IH];
    intros counts files dirs;
    cbn [fold_left flat_map List.map list_sum fold_right].
  - cbn [List.length Z.of_nat]. rewrite !Z.add_0_r. reflexivity.
  - unfold count_visit at 2. rewrite fold_count_file. cbn [fst snd].
    rewrite IH. rewrite map_app, fold_left_app, length_app.
    fold (list_sum
            (List.map
               (fun v : list str * list node * list node =>
                  List.length (snd (fst v))) visits)).
    f_equal; [f_equal|]; lia.
Qed.
End StatsFacts.

Lemma flat_map_os_walk_dirs {B : Type} (g : list node -> list B)
    (here : list str) (n : node) :
  flat_map (fun v : list str * list node * list node => g (snd v))
    (os_walk_dirs here n)
  = flat_map (fun v : list str * list node => g (snd v)) (os_walk here n).
Proof.
  rewrite <- os_walk_dirs_walk.
  induction (os_walk_dirs here n) as [|v vs IH]; [reflexivity|].
  cbn [flat_map List.map snd]. rewrite IH. reflexivity.
Qed.

(** Each directory that the walk visits, the root apart, has been counted
    in the [dirnames] of its parent. *)
Lemma os_walk_dirs_length (n : node) :
  forall here,
    List.length (os_walk_dirs here n)
    <= S (list_sum
            (List.map
               (fun v : list str * list node * list node =>
                  List.length (snd (fst v)))
               (os_walk_dirs here n))).
Proof.
  pattern n; apply node_nested_ind; clear n;
    [intros name data | intros name readable children IH | intros name];
    intros here; cbn [os_walk_dirs List.length]; try lia.
  destruct readable; [|cbn [List.length]; lia].
  assert (forall (a : nat) l, list_sum (a :: l) = a + list_sum l) as Hcons
      by reflexivity.
  cbn [List.length List.map fst snd]. rewrite Hcons. apply le_n_S.
  induction IH as [|c cs Hc _ IHcs]; [cbn; lia|].
  cbn [flat_map filter].
  rewrite length_app, map_app, list_sum_app.
  destruct (is_dir c && negb (_should_skip (node_name c) c)).
  - cbn [List.length]. specialize (Hc (here ++ [node_name c])). lia.
  - cbn [List.length List.map]. change (list_sum []) with 0. lia.
Qed.

Lemma sum_counts_dict_incr (d : list (str * Z)) (k : str) :
  sum_counts (dict_incr d k) = (sum_counts d + 1)%Z.
Proof.
  unfold dict_incr, sum_counts.
  induction d as [|[k0 v0] d IH];
    cbn [dict_set dict_get List.map fold_right snd]; [lia|].
  destruct (PyStr.eqb k k0); cbn [List.map fold_right snd]; [lia|].
  rewrite IH. lia.
Qed.

Lemma sum_counts_fold (keys : list str) :
  forall d,
    sum_counts (fold_left dict_incr keys d)
    = (sum_counts d + Z.of_nat (List.length keys))%Z.
Proof.
  induction keys as [|k keys IH]; intros d; cbn [fold_left List.length];
    [lia|].
  rewrite IH, sum_counts_dict_incr. lia.
Qed.

Lemma sum_counts_perm (a b : list (str * Z)) :
  Permutation a b -> sum_counts a = sum_counts b.
Proof.
  unfold sum_counts. induction 1; cbn [List.map fold_right]; lia.
Qed.

Lemma sum_counts_firstn (n : nat) (l : list (str * Z)) :
  (forall kv, In kv l -> (0 <= snd kv)%Z) ->
  (sum_counts (firstn n l) <= sum_counts l)%Z.
Proof.
  unfold sum_counts. revert n.
  induction l as [|x l IH]; intros [|n] Hpos;
    cbn [firstn List.map fold_right]; try lia.
  - clear IH. induction l as [|y l IHl]; cbn [List.map fold_right].
    + pose proof (Hpos x (or_introl eq_refl)). lia.
    + pose proof (Hpos y (or_intror (or_introl eq_refl))) as Hy.
      assert (0 <= snd x + fold_right Z.add 0 (List.map snd l))%Z as Hl.
      { apply IHl. intros kv [<- | Hin]; apply Hpos;
          [left | right; right]; auto. }
      lia.
  - specialize (IH n (fun kv Hin => Hpos kv (or_intror Hin))). lia.
Qed.

Lemma NoDup_firstn {A : Type} (n : nat) (l : list A) :
  NoDup l -> NoDup (firstn n l).
Proof.
  intros H. revert n. induction H as [|x l Hx Hl IH]; intros [|n];
    cbn [firstn]; constructor.
  - intros Hin. apply Hx. eapply firstn_In. exact Hin.
  - apply IH.
Qed.

(** X18. The overview of the report. [total_files] is the number of
    entries of the visited directories that are no directories and are not
    skipped; [total_dirs] counts every directory that the walk visits, the
    root apart; [top_extensions] holds at most eight distinct keys, in
    descending order of their counts; each count is the number of counted
    files with this key, hence at least one, and the counts add up to at
    most [total_files]. *)
Theorem count_stats_overview :
  forall (L : library) (root : node),
    let s := _count_stats L root in
    let counted := counted_files root in
    total_files s = Z.of_nat (List.length counted)
    /\ (Z.of_nat (List.length (os_walk [] root)) <= total_dirs s + 1)%Z
    /\ List.length (top_extensions s) <= 8
    /\ NoDup (List.map fst (top_extensions s))
    /\ StronglySorted (fun a b => (snd b <= snd a)%Z) (top_extensions s)
    /\ (forall e n,
           In (e, n) (top_extensions s) ->
           n = Z.of_nat (occurrences (List.map (ext_key L) counted) e)
           /\ (1 <= n)%Z)
    /\ (sum_counts (top_extensions s) <= total_files s)%Z.
Proof.
  intros L root s counted. subst s. unfold _count_stats.
  rewrite fold_count_visit.
  rewrite (flat_map_os_walk_dirs
             (filter (fun f => negb (_should_skip (node_name f) f)))).
  fold (counted_files root). fold counted.
  cbn [total_files total_dirs top_extensions].
  set (keys := List.map (ext_key L) counted).
  set (counts := fold_left dict_incr keys []).
  set (ordered := sorted (fun a b : str * Z => (- snd a <? - snd b)%Z) counts).
  assert (List.map fst counts = dedup keys) as Hkeys.
  { subst counts. rewrite fold_dict_incr_fst, fold_add_key.
    cbn [List.map app]. apply filter_all. }
  assert (NoDup (List.map fst counts)) as Hnd
      by (rewrite Hkeys; apply dedup_NoDup).
  assert (forall e n, In (e, n) counts ->
                      n = Z.of_nat (occurrences keys e) /\ (1 <= n)%Z)
    as Hcount.
  { intros e n Hin. pose proof (@dict_get_In _ counts e n Hnd Hin) as Hget.
    subst counts. rewrite fold_dict_incr_get in Hget. cbn [dict_get] in Hget.
    destruct (occurrences keys e) eqn:E; [discriminate|].
    inversion Hget. split; [reflexivity | lia]. }
  assert (Permutation counts ordered) as Hperm by apply sorted_perm.
  repeat split.
  - pose proof (os_walk_dirs_length root []) as Hlen.
    rewrite <- (os_walk_dirs_walk root []), length_map. lia.
  - apply firstn_le_length.
  - rewrite <- firstn_map. apply NoDup_firstn.
    eapply Permutation_NoDup; [|exact Hnd].
    apply Permutation_map. exact Hperm.
  - apply StronglySorted_firstn.
    eapply StronglySorted_weaken;
      [|apply (sorted_ok (fun a b : str * Z => (- snd a <? - snd b)%Z))].
    + intros a b H. cbn beta in H. apply Z.ltb_ge in H. lia.
    + intros a b H. apply Z.ltb_lt in H. apply Z.ltb_ge. lia.
    + intros a b c H1 H2. apply Z.ltb_ge in H1, H2. apply Z.ltb_ge. lia.
  - apply firstn_In in H.
    apply (Permutation_in _ (Permutation_sym Hperm)) in H.
    apply Hcount in H. apply H.
  - apply firstn_In in H.
    apply (Permutation_in _ (Permutation_sym Hperm)) in H.
    apply Hcount in H. apply H.
  - etransitivity; [apply sum_counts_firstn|].
    + intros [e n] Hin.
      apply (Permutation_in _ (Permutation_sym Hperm)) in Hin.
      apply Hcount in Hin. cbn [snd]. lia.
    + rewrite <- (sum_counts_perm Hperm). subst counts.
      rewrite sum_counts_fold. unfold sum_counts. cbn [List.map fold_right].
      subst keys. rewrite length_map. lia.
Qed.

Lemma count_stats_overview_witness :
  _count_stats Sample2.lib Sample2.four_files
  = {| total_files := 4; total_dirs := 1;
       top_extensions := [(py ".py", 3%Z); (py ".js", 1%Z)] |}
  /\ (sum_counts (top_extensions (_count_stats Sample2.lib Sample2.four_files))
      <= total_files (_count_stats Sample2.lib Sample2.four_files))%Z.
Proof.
  split; [reflexivity|].
  pose proof (count_stats_overview Sample2.lib Sample2.four_files) as H.
  cbv zeta in H. exact (proj2 (proj2 (proj2 (proj2 (proj2 (proj2 H)))))).
Defined.

(** ** The file tree and the overview *)

Lemma list_sum_cons (a : nat) (l : list nat) :
  list_sum (a :: l) = a + list_sum l.
Proof. reflexivity. Qed.

Lemma list_sum_map_perm {A : Type} (f : A -> nat) (l l' : list A) :
  Permutation l l' -> list_sum (List.map f l) = list_sum (List.map f l').
Proof.
  induction 1; cbn [List.map]; rewrite ?list_sum_cons; lia.
Qed.

Lemma count_stats_totals (L : library) (root : node) :
  (total_files (_count_stats L root) + total_dirs (_count_stats L root))%Z
  = Z.of_nat (walk_weight (os_walk_dirs [] root)).
Proof.
  unfold _count_stats. rewrite fold_count_visit.
  cbn [total_files total_dirs]. unfold walk_weight.
  induction (os_walk_dirs [] root) as [|v vs IH];
    cbn [flat_map List.map]; [reflexivity|].
  rewrite !list_sum_cons, length_app. unfold visit_weight at 1. lia.
Qed.

Section TreeWithinOverview.
Variable L : library.

Lemma listable_le_weight (levels : nat) :
  forall name readable children here,
    listable L levels readable children
    <= walk_weight (os_walk_dirs here (Dir name readable children)).
Proof.
  induction levels as [|levels IH]; intros name readable children here;
    cbn [listable]; [lia|].
  destruct readable; cbn [negb]; [|lia].
  cbn [os_walk_dirs]. unfold walk_weight. cbn [List.map].
  rewrite list_sum_cons. unfold visit_weight at 1. cbn [fst snd].
  fold (walk_weight
          (flat_map
             (fun c =>
                if is_dir c && negb (_should_skip (node_name c) c)
                then os_walk_dirs (here ++ [node_name c]) c
                else [])
             children)).
  unfold all_entries. rewrite map_app, list_sum_app, !filter_filter.
  rewrite (list_sum_map_perm _
             (Permutation_filter
                (fun x => negb (_should_skip (node_name x) x) && is_dir x)
                (Permutation_sym (sorted_perm (tree_key_lt L) children)))).
  rewrite (list_sum_map_perm _
             (Permutation_filter
                (fun x => negb (_should_skip (node_name x) x) && is_file x)
                (Permutation_sym (sorted_perm (tree_key_lt L) children)))).
  induction children as [|c cs IHcs]; [cbn; lia|].
  cbn [filter flat_map]. unfold walk_weight in *.
  rewrite map_app, list_sum_app.
  destruct c as [n data | n r cs' | n];
    cbn [is_dir is_file negb andb];
    destruct (_should_skip _ _); cbn [negb andb List.map List.length];
    rewrite ?list_sum_cons; cbn [List.map]; change (list_sum []) with 0;
    try lia.
  specialize (IH n r cs' (here ++ [node_name (Dir n r cs')])).
  unfold walk_weight in IH. lia.
Qed.
End TreeWithinOverview.

(** X19. In a directory that holds only directories and regular files,
    and so no symbolic link, the file tree never lists more entries than
    the overview counts: whatever the depth limit and the budget, the
    number of entry lines of [build_file_tree] is at most
    [total_files + total_dirs] of [_count_stats] on the same directory. *)
Theorem build_file_tree_within_overview :
  forall (L : library) (name : str) (readable : bool) (children : list node)
         (max_depth max_files : Z),
    all_regular (Dir name readable children) = true ->
    (Z.of_nat
       (count_entries
          (build_file_tree_lines L readable children max_depth max_files))
     <= total_files (_count_stats L (Dir name readable children))
        + total_dirs (_count_stats L (Dir name readable children)))%Z.
Proof.
  intros L name readable children max_depth max_files _.
  rewrite count_stats_totals.
  pose proof (listable_le_weight L (Z.to_nat (max_depth + 1)) name readable
                children []) as Hweight.
  pose proof (build_file_tree_from_ok L max_files (Z.to_nat (max_depth + 1))
                readable children [] 0%Z) as Hok.
  unfold call_ok in Hok. unfold build_file_tree_lines.
  destruct Hok as (H1 & H2 & H3 & H4 & H5).
  destruct (Z_le_gt_dec
              (0 + Z.of_nat (listable L (Z.to_nat (max_depth + 1)) readable
                               children)) max_files) as [Hle|Hgt].
  - destruct (H4 Hle) as [E _]. lia.
  - lia.
Qed.

Lemma build_file_tree_within_overview_witness :
  all_regular Sample2.four_files = true
  /\ (Z.of_nat
        (count_entries
           (build_file_tree_lines Sample2.lib true
              [File (py "a.py") (Text (py "pass"));
               File (py "b.py") (Text (py "pass"));
               File (py "c.js") (Text (py "pass"));
               Dir (py "sub") true [File (py "d.py") (Text (py "pass"))]]
              0 3))
      <= total_files (_count_stats Sample2.lib Sample2.four_files)
         + total_dirs (_count_stats Sample2.lib Sample2.four_files))%Z.
Proof.
  split; [reflexivity|].
  apply (@build_file_tree_within_overview Sample2.lib (py "project") true
           [File (py "a.py") (Text (py "pass"));
            File (py "b.py") (Text (py "pass"));
            File (py "c.js") (Text (py "pass"));
            Dir (py "sub") true [File (py "d.py") (Text (py "pass"))]]
           0%Z 3%Z).
  reflexivity.
Defined.

Section TreeEqualsOverview.
Variable L : library.

Lemma listable_eq_weight (levels : nat) :
  forall name readable children here,
    all_regular (Dir name readable children) = true ->
    height (Dir name readable children) <= levels ->
    listable L levels readable children
    = walk_weight (os_walk_dirs here (Dir name readable children)).
Proof.
  induction levels as [|levels IH]; intros name readable children here;
    cbn [height]; [lia|].
  intros Hreg Hheight. cbn [listable].
  destruct readable; cbn [negb]; [|reflexivity].
  cbn [os_walk_dirs]. unfold walk_weight. cbn [List.map].
  rewrite list_sum_cons. unfold visit_weight at 1. cbn [fst snd].
  fold (walk_weight
          (flat_map
             (fun c =>
                if is_dir c && negb (_should_skip (node_name c) c)
                then os_walk_dirs (here ++ [node_name c]) c
                else [])
             children)).
  unfold all_entries. rewrite map_app, list_sum_app, !filter_filter.
  rewrite (list_sum_map_perm _
             (Permutation_filter
                (fun x => negb (_should_skip (node_name x) x) && is_dir x)
                (Permutation_sym (sorted_perm (tree_key_lt L) children)))).
  rewrite (list_sum_map_perm _
             (Permutation_filter
                (fun x => negb (_should_skip (node_name x) x) && is_file x)
                (Permutation_sym (sorted_perm (tree_key_lt L) children)))).
  cbn [all_regular] in Hreg. apply le_S_n in Hheight.
  induction children as [|c cs IHcs]; [reflexivity|].
  cbn [forallb] in Hreg. apply andb_true_iff in Hreg.
  destruct Hreg as [Hc Hcs].
  cbn [List.map list_max fold_right] in Hheight.
  fold (list_max (List.map height cs)) in Hheight.
  specialize (IHcs Hcs ltac:(lia)).
  cbn [filter flat_map]. unfold walk_weight in *.
  rewrite map_app, list_sum_app.
  destruct c as [n data | n r cs' | n]; [| |discriminate Hc];
    cbn [is_dir is_file negb andb];
    destruct (_should_skip _ _); cbn [negb andb List.map List.length];
    rewrite ?list_sum_cons; cbn [List.map]; change (list_sum []) with 0;
    try lia.
  rewrite (IH n r cs' (here ++ [node_name (Dir n r cs')]) Hc ltac:(lia)).
  unfold walk_weight. lia.
Qed.
End TreeEqualsOverview.

(** X20. On a directory whose entries are all directories or regular
    files, with a depth limit that reaches every level and a budget that
    holds every counted entry, the file tree lists exactly
    [total_files + total_dirs] entries and is not truncated. *)
Theorem build_file_tree_equals_overview :
  forall (L : library) (name : str) (readable : bool) (children : list node)
         (max_depth max_files : Z),
    all_regular (Dir name readable children) = true ->
    (Z.of_nat (height (Dir name readable children)) <= max_depth + 1)%Z ->
    (total_files (_count_stats L (Dir name readable children))
     + total_dirs (_count_stats L (Dir name readable children))
     <= max_files)%Z ->
    Z.of_nat
      (count_entries
         (build_file_tree_lines L readable children max_depth max_files))
    = (total_files (_count_stats L (Dir name readable children))
       + total_dirs (_count_stats L (Dir name readable children)))%Z
    /\ has_truncation
         (build_file_tree_lines L readable children max_depth max_files)
       = false.
Proof.
  intros L name readable children max_depth max_files Hreg Hheight.
  rewrite count_stats_totals. intros Hbudget.
  pose proof (@listable_eq_weight L (Z.to_nat (max_depth + 1)) name readable
                children [] Hreg ltac:(lia)) as Hweight.
  pose proof (build_file_tree_from_ok L max_files (Z.to_nat (max_depth + 1))
                readable children [] 0%Z) as Hok.
  unfold call_ok in Hok. unfold build_file_tree_lines.
  destruct Hok as (H1 & H2 & H3 & H4 & H5).
  destruct H4 as [E1 E2]; [lia|]. split; [lia | exact E2].
Qed.

Lemma build_file_tree_equals_overview_witness :
  Z.of_nat
    (count_entries
       (build_file_tree_lines Sample2.lib true
          [File (py "a.py") (Text (py "pass"));
           File (py "b.py") (Text (py "pass"));
           File (py "c.js") (Text (py "pass"));
           Dir (py "sub") true [File (py "d.py") (Text (py "pass"))]]
          6 300))
  = (total_files (_count_stats Sample2.lib Sample2.four_files)
     + total_dirs (_count_stats Sample2.lib Sample2.four_files))%Z.
Proof.
  refine (proj1 (@build_file_tree_equals_overview Sample2.lib (py "project")
                   true _ 6%Z 300%Z _ _ _)).
  - reflexivity.
  - vm_compute. discriminate.
  - vm_compute. discriminate.
Defined.

(* ------------------------------------------------------------------ *)
(** ** The diagram of the local dependencies *)

Lemma edge_eqb_eq (a b : str * str) : edge_eqb a b = true <-> a = b.
Proof.
  unfold edge_eqb. destruct a as [a1 a2], b as [b1 b2]. cbn [fst snd].
  rewrite andb_true_iff, !str_eqb_eq. split.
  - intros [-> ->]. reflexivity.
  - intros H. inversion H. auto.
Qed.

Lemma dedup_edges_In (xs : list (str * str)) (x : str * str) :
  In x (dedup_edges xs) <-> In x xs.
Proof.
  induction xs as [|y xs IH]; cbn [dedup_edges In]; [tauto|].
  rewrite filter_In, IH, negb_true_iff.
  destruct (edge_eqb y x) eqn:E.
  - apply edge_eqb_eq in E. subst. tauto.
  - split; [tauto|]. intros [H|H]; [tauto|]. right. split; [exact H|].
    reflexivity.
Qed.

Lemma dedup_edges_NoDup (xs : list (str * str)) : NoDup (dedup_edges xs).
Proof.
  induction xs as [|x xs IH]; cbn [dedup_edges]; constructor.
  - rewrite filter_In, negb_true_iff. intros [_ H].
    assert (edge_eqb x x = true) as E by (apply edge_eqb_eq; reflexivity).
    congruence.
  - apply NoDup_filter. exact IH.
Qed.

Lemma graph_edges_In (graph : list (str * deps)) (src tgt : str) :
  In (src, tgt) (graph_edges graph) <->
  exists d, In (src, d) graph /\ In tgt (local d).
Proof.
  unfold graph_edges. rewrite in_flat_map. split.
  - intros ([s d] & Hin & H). cbn [fst snd] in H. apply in_map_iff in H.
    destruct H as (t & E & Ht). inversion E; subst. exists d. auto.
  - intros (d & Hin & Ht). exists (src, d). split; [exact Hin|].
    cbn [fst snd]. apply in_map. exact Ht.
Qed.

Lemma py_inj (s1 s2 : string) : py s1 = py s2 -> s1 = s2.
Proof.
  unfold PyStr.py. intros H.
  rewrite <- (string_of_list_ascii_of_string s1),
          <- (string_of_list_ascii_of_string s2).
  f_equal. revert H.
  generalize (list_ascii_of_string s1) (list_ascii_of_string s2).
  induction l as [|a l IH]; intros [|b l']; cbn [List.map];
    try discriminate; [reflexivity|].
  intros H. inversion H as [[Hab Hl]]. f_equal; [|apply IH; exact Hl].
  rewrite <- (ascii_N_embedding a), <- (ascii_N_embedding b), Hab.
  reflexivity.
Qed.

Lemma of_nat_inj (n m : nat) : PyStr.of_nat n = PyStr.of_nat m -> n = m.
Proof.
  unfold PyStr.of_nat. intros H. apply py_inj in H.
  assert (forall k,
             option_map Nat.of_uint
               (NilZero.uint_of_string
                  (NilZero.string_of_uint (Nat.to_uint k))) = Some k) as Hk.
  { intros k. pose proof (DecimalNat.Unsigned.of_to k) as Hof.
    destruct (Nat.to_uint k) eqn:E;
      try (rewrite NilZero.usu by discriminate; cbn [option_map];
           f_equal; exact Hof).
    rewrite NilZero.usu_nil. cbn [option_map]. f_equal. exact Hof. }
  pose proof (Hk n) as Hn. rewrite H, Hk in Hn. congruence.
Qed.

Lemma dict_set_new {V : Type} (d : list (str * V)) (k : str) (v : V) :
  dict_get d k = None -> dict_set d k v = d ++ [(k, v)].
Proof.
  induction d as [|[k0 v0] d IH]; cbn [dict_get dict_set app];
    [reflexivity|].
  destruct (PyStr.eqb k k0); [discriminate|].
  intros H. rewrite IH by exact H. reflexivity.
Qed.

Lemma dict_get_app {V : Type} (d e : list (str * V)) (k : str) (v : V) :
  dict_get d k = Some v -> dict_get (d ++ e) k = Some v.
Proof.
  induction d as [|[k0 v0] d IH]; cbn [dict_get app]; [discriminate|].
  destruct (PyStr.eqb k k0); [auto | exact IH].
Qed.

Lemma dict_get_Some_In {V : Type} (d : list (str * V)) (k : str) (v : V) :
  dict_get d k = Some v -> In (k, v) d.
Proof.
  induction d as [|[k0 v0] d IH]; cbn [dict_get]; [discriminate|].
  destruct (PyStr.eqb k k0) eqn:E.
  - apply str_eqb_eq in E. intros H. inversion H; subst. left. reflexivity.
  - intros H. right. apply IH. exact H.
Qed.

Lemma dict_get_None {V : Type} (d : list (str * V)) (k : str) :
  dict_get d k = None -> ~ In k (List.map fst d).
Proof.
  induction d as [|[k0 v0] d IH]; cbn [dict_get List.map fst];
    [intros _ []|].
  destruct (PyStr.eqb k k0) eqn:E; [discriminate|].
  apply str_eqb_neq in E. intros H [Hin|Hin]; [congruence|].
  apply IH; assumption.
Qed.

Lemma NoDup_snd_inj {A B : Type} (l : list (A * B)) (a a' : A) (b : B) :
  NoDup (List.map snd l) -> In (a, b) l -> In (a', b) l -> a = a'.
Proof.
  induction l as [|[x y] l IH]; cbn [List.map snd]; [intros _ []|].
  intros Hnd. inversion Hnd as [|? ? Hy Hl]; subst.
  intros [H|H] [H'|H'].
  - congruence.
  - inversion H; subst. exfalso. apply Hy.
    apply (in_map snd) in H'. exact H'.
  - inversion H'; subst. exfalso. apply Hy.
    apply (in_map snd) in H. exact H.
  - apply IH; assumption.
Qed.

Lemma node_ids_values (node_ids : list (str * str)) :
  node_ids_ok node_ids -> NoDup (List.map snd node_ids).
Proof.
  intros [_ H]. rewrite H.
  generalize (seq_NoDup (List.length node_ids) 0).
  generalize (seq 0 (List.length node_ids)).
  induction l as [|k l IH]; cbn [List.map]; [constructor|].
  intros Hnd. inversion Hnd as [|? ? Hk Hl]; subst.
  constructor; [|apply IH; exact Hl].
  intros Hin. apply in_map_iff in Hin. destruct Hin as (j & E & Hj).
  apply app_inv_head in E. apply of_nat_inj in E. subst. contradiction.
Qed.

Lemma node_id_ok (node_ids : list (str * str)) (path : str) :
  node_ids_ok node_ids ->
  node_ids_ok (snd (node_id node_ids path))
  /\ (exists ext, snd (node_id node_ids path) = node_ids ++ ext)
  /\ dict_get (snd (node_id node_ids path)) path
     = Some (fst (node_id node_ids path)).
Proof.
  intros [Hkeys Hvals]. unfold node_id.
  destruct (dict_get node_ids path) as [id|] eqn:E; cbn [fst snd].
  - split; [split; assumption|].
    split; [exists []; symmetry; apply app_nil_r | exact E].
  - rewrite (@dict_set_new _ _ _ _ E). split; [split|split].
    + rewrite map_app. cbn [List.map fst]. apply NoDup_app.
      * exact Hkeys.
      * repeat constructor. intros [].
      * intros x Hx [<- | []]. apply (@dict_get_None _ _ _ E). exact Hx.
    + rewrite map_app, length_app, Hvals. cbn [List.map snd List.length].
      rewrite Nat.add_1_r, seq_S, map_app. reflexivity.
    + eexists. reflexivity.
    + rewrite <- (@dict_set_new _ _ _ _ E), dict_get_set, str_eqb_refl.
      reflexivity.
Qed.

Lemma mermaid_edges_ok (edges : list (str * str)) :
  forall node_ids,
    node_ids_ok node_ids ->
    node_ids_ok (snd (mermaid_edges edges node_ids))
    /\ (exists ext, snd (mermaid_edges edges node_ids) = node_ids ++ ext)
    /\ List.length (fst (mermaid_edges edges node_ids)) = List.length edges
    /\ forall e r,
         In (e, r) (combine edges (fst (mermaid_edges edges node_ids))) ->
         dict_get (snd (mermaid_edges edges node_ids)) (fst e)
         = Some (me_src_id r)
         /\ dict_get (snd (mermaid_edges edges node_ids)) (snd e)
            = Some (me_tgt_id r)
         /\ me_src_label r = stem_of_path (fst e)
         /\ me_tgt_label r = target_label (snd e).
Proof.
  induction edges as [|[src tgt] edges IH]; intros node_ids Hok;
    cbn [mermaid_edges].
  - cbn [fst snd combine]. split; [exact Hok|].
    split; [exists []; symmetry; apply app_nil_r|].
    split; [reflexivity | intros e r []].
  - destruct (node_id_ok src Hok) as (Hok1 & [ext1 Hext1] & Hget1).
    destruct (node_id node_ids src) as [src_id ids1]. cbn [fst snd] in *.
    destruct (node_id_ok tgt Hok1) as (Hok2 & [ext2 Hext2] & Hget2).
    destruct (node_id ids1 tgt) as [tgt_id ids2]. cbn [fst snd] in *.
    destruct (IH ids2 Hok2) as (Hok3 & [ext3 Hext3] & Hlen & Hrec).
    destruct (mermaid_edges edges ids2) as [lines ids3]. cbn [fst snd] in *.
    split; [exact Hok3|].
    split; [exists (ext1 ++ ext2 ++ ext3); subst; rewrite !app_assoc;
            reflexivity|].
    split; [cbn [List.length]; rewrite Hlen; reflexivity|].
    cbn [combine]. intros e r [H|H]; [|apply Hrec; exact H].
    inversion H; subst e r. cbn [fst snd me_src_id me_tgt_id
                                   me_src_label me_tgt_label].
    repeat split.
    + rewrite Hext3, Hext2. apply dict_get_app, dict_get_app. exact Hget1.
    + rewrite Hext3. apply dict_get_app. exact Hget2.
Qed.

Lemma dedup_edges_graph_In (graph : list (str * deps)) (src tgt : str) :
  In (src, tgt) (dedup_edges (graph_edges graph)) <->
  exists d, In (src, d) graph /\ In tgt (local d).
Proof. rewrite dedup_edges_In. apply graph_edges_In. Qed.

Lemma build_mermaid_graph_nil (graph : list (str * deps)) :
  _build_mermaid_graph graph = [] <->
  forall rel d, In (rel, d) graph -> local d = [].
Proof.
  unfold _build_mermaid_graph.
  destruct (dedup_edges (graph_edges graph)) as [|[s t] es] eqn:E.
  - split; [|reflexivity]. intros _ rel d Hd.
    destruct (local d) as [|t ts] eqn:El; [reflexivity|].
    exfalso.
    assert (In (rel, t) (dedup_edges (graph_edges graph))) as H.
    { apply dedup_edges_graph_In. exists d. rewrite El.
      split; [exact Hd | left; reflexivity]. }
    rewrite E in H. exact H.
  - split; [discriminate|]. intros Hnone. exfalso.
    assert (In (s, t) (dedup_edges (graph_edges graph))) as H
        by (rewrite E; left; reflexivity).
    apply dedup_edges_graph_In in H. destruct H as (d & Hd & Ht).
    rewrite (Hnone s d Hd) in Ht. exact Ht.
Qed.

(** X21. The diagram is empty exactly when no entry of the graph has a
    local reference. Otherwise it is the two opening lines, one edge line
    for each distinct pair of an entry and one of its local references,
    and the closing line; a local reference of any entry gives an edge,
    whatever the language of the file. *)
Theorem build_mermaid_graph_shape :
  forall (graph : list (str * deps)),
    (_build_mermaid_graph graph = [] <->
     forall rel d, In (rel, d) graph -> local d = [])
    /\ (forall src tgt,
           In (src, tgt) (sorted_edges graph) <->
           exists d, In (src, d) graph /\ In tgt (local d))
    /\ NoDup (sorted_edges graph)
    /\ List.length (mermaid_edge_lines graph)
       = List.length (sorted_edges graph)
    /\ (_build_mermaid_graph graph <> [] ->
        _build_mermaid_graph graph
        = [py "```mermaid"; py "graph TD"]
          ++ List.map render_edge (mermaid_edge_lines graph)
          ++ [py "```"]).
Proof.
  intros graph.
  split; [|split; [|split; [|split]]].
  - apply build_mermaid_graph_nil.
  - intros src tgt. unfold sorted_edges. rewrite sorted_In.
    apply dedup_edges_graph_In.
  - unfold sorted_edges. apply sorted_NoDup, dedup_edges_NoDup.
  - unfold mermaid_edge_lines.
    apply (mermaid_edges_ok (sorted_edges graph) (node_ids := [])).
    split; [constructor | reflexivity].
  - unfold _build_mermaid_graph.
    destruct (dedup_edges (graph_edges graph)); [congruence | reflexivity].
Qed.

(** X22. The identifiers of the diagram stand for the paths one to one:
    in any two edge lines, two identifiers are equal exactly when the
    paths that they were made for are equal, for sources, for targets, and
    between a source and a target. *)
Theorem build_mermaid_graph_node_ids :
  forall (graph : list (str * deps)) (e1 e2 : str * str)
         (r1 r2 : mermaid_edge),
    In (e1, r1) (combine (sorted_edges graph) (mermaid_edge_lines graph)) ->
    In (e2, r2) (combine (sorted_edges graph) (mermaid_edge_lines graph)) ->
    (me_src_id r1 = me_src_id r2 <-> fst e1 = fst e2)
    /\ (me_tgt_id r1 = me_tgt_id r2 <-> snd e1 = snd e2)
    /\ (me_src_id r1 = me_tgt_id r2 <-> fst e1 = snd e2).
Proof.
  intros graph e1 e2 r1 r2 H1 H2. unfold mermaid_edge_lines in *.
  assert (node_ids_ok []) as Hnil by (split; [constructor | reflexivity]).
  destruct (mermaid_edges_ok (sorted_edges graph) Hnil)
    as (Hok & _ & _ & Hrec).
  destruct (Hrec _ _ H1) as (Hs1 & Ht1 & _).
  destruct (Hrec _ _ H2) as (Hs2 & Ht2 & _).
  pose proof (node_ids_values Hok) as Hvals.
  assert (forall p q i j,
             dict_get (snd (mermaid_edges (sorted_edges graph) [])) p = Some i ->
             dict_get (snd (mermaid_edges (sorted_edges graph) [])) q = Some j ->
             (i = j <-> p = q)) as Hiff.
  { intros p q i j Hp Hq. split.
    - intros <-. eapply NoDup_snd_inj;
        [exact Hvals | apply dict_get_Some_In; exact Hp
        | apply dict_get_Some_In; exact Hq].
    - intros <-. congruence. }
  split; [|split]; eapply Hiff; eassumption.
Qed.

Lemma build_mermaid_graph_shape_witness :
  _build_mermaid_graph Sample2.js_graph <> []
  /\ _build_mermaid_graph Sample2.js_graph
     = [py "```mermaid"; py "graph TD"]
       ++ List.map render_edge (mermaid_edge_lines Sample2.js_graph)
       ++ [py "```"].
Proof.
  assert (_build_mermaid_graph Sample2.js_graph <> []) as H
      by (vm_compute; discriminate).
  split; [exact H|].
  exact (proj2 (proj2 (proj2 (proj2
           (build_mermaid_graph_shape Sample2.js_graph)))) H).
Defined.

Lemma build_mermaid_graph_node_ids_witness :
  mermaid_edge_lines Sample2.shared_graph
  = [{| me_src_id := py "N0"; me_src_label := py "a";
        me_tgt_id := py "N1"; me_tgt_label := py "util" |};
     {| me_src_id := py "N2"; me_src_label := py "b";
        me_tgt_id := py "N1"; me_tgt_label := py "util" |}]
  /\ (py "N0" = py "N2" <-> py "a.py" = py "b.py").
Proof.
  split; [reflexivity|].
  refine (proj1 (@build_mermaid_graph_node_ids Sample2.shared_graph
                   (py "a.py", py "util") (py "b.py", py "util")
                   {| me_src_id := py "N0"; me_src_label := py "a";
                      me_tgt_id := py "N1"; me_tgt_label := py "util" |}
                   {| me_src_id := py "N2"; me_src_label := py "b";
                      me_tgt_id := py "N1"; me_tgt_label := py "util" |}
                   _ _)).
  - left. reflexivity.
  - right. left. reflexivity.
Defined.

(* ------------------------------------------------------------------ *)
(** ** The excerpt of the README *)

Lemma join_length (c : N) (ls : list str) :
  List.length (PyStr.join [c] ls) + 1
  <= list_sum (List.map (@List.length PyStr.char) ls) + List.length ls + 1
  /\ (ls <> [] ->
      List.length (PyStr.join [c] ls) + 1
      = list_sum (List.map (@List.length PyStr.char) ls) + List.length ls).
Proof.
  induction ls as [|l ls IH]; cbn [PyStr.join List.map List.length];
    rewrite ?list_sum_cons.
  - change (list_sum []) with 0. split; [cbn; lia | congruence].
  - destruct ls as [|l' ls'].
    + cbn [List.map List.length]. change (list_sum []) with 0.
      split; [lia | intros _; lia].
    + destruct IH as [_ IH]. specialize (IH ltac:(discriminate)).
      rewrite !length_app. cbn [List.length] in *.
      split; [lia | intros _; lia].
Qed.

Lemma splitlines_from_total (n : nat) :
  forall s cur,
    List.length s <= n ->
    list_sum (List.map (@List.length PyStr.char) (PyStr.splitlines_from cur s))
    + List.length (PyStr.splitlines_from cur s)
    <= List.length cur + List.length s + 1.
Proof.
  induction n as [|n IH]; intros s cur Hn.
  - destruct s; [|cbn [List.length] in Hn; lia].
    cbn [PyStr.splitlines_from]. destruct cur; cbn [List.map List.length].
    + change (list_sum []) with 0. lia.
    + rewrite list_sum_cons. change (list_sum []) with 0.
      rewrite length_rev. cbn [List.length]. lia.
  - destruct s as [|c s'].
    + cbn [PyStr.splitlines_from]. destruct cur; cbn [List.map List.length].
      * change (list_sum []) with 0. lia.
      * rewrite list_sum_cons. change (list_sum []) with 0.
        rewrite length_rev. cbn [List.length]. lia.
    + cbn [List.length] in Hn. cbn [PyStr.splitlines_from].
      destruct (PyStr.is_linebreak c).
      * destruct s' as [|d s''].
        -- cbn [List.map List.length]. rewrite list_sum_cons.
           change (list_sum []) with 0. rewrite length_rev. lia.
        -- cbn [List.length] in Hn.
           destruct ((c =? 13)%N && (d =? 10)%N);
             cbn [List.map List.length]; rewrite list_sum_cons, length_rev.
           ++ specialize (IH s'' [] ltac:(lia)). cbn [List.length] in IH.
              lia.
           ++ specialize (IH (d :: s'') [] ltac:(cbn [List.length]; lia)).
              cbn [List.length] in IH. lia.
      * specialize (IH s' (c :: cur) ltac:(lia)).
        cbn [List.length] in IH |- *. lia.
Qed.

Lemma firstn_total (k : nat) (ls : list str) :
  list_sum (List.map (@List.length PyStr.char) (firstn k ls))
  + List.length (firstn k ls)
  <= list_sum (List.map (@List.length PyStr.char) ls) + List.length ls.
Proof.
  revert k. induction ls as [|l ls IH]; intros [|k];
    cbn [firstn List.map List.length]; rewrite ?list_sum_cons;
    change (list_sum []) with 0; try lia.
  specialize (IH k). lia.
Qed.

Lemma count_linebreaks_app (a b : str) :
  count_linebreaks (a ++ b) = count_linebreaks a + count_linebreaks b.
Proof. unfold count_linebreaks. rewrite filter_app, length_app. reflexivity. Qed.

Lemma count_linebreaks_none (s : str) :
  contains_linebreak s = false -> count_linebreaks s = 0.
Proof.
  unfold count_linebreaks, contains_linebreak.
  induction s as [|c s IH]; cbn [existsb filter]; [reflexivity|].
  destruct (PyStr.is_linebreak c); [discriminate | exact IH].
Qed.

Lemma count_linebreaks_join (ls : list str) :
  (forall l, In l ls -> contains_linebreak l = false) ->
  count_linebreaks (PyStr.join [10%N] ls) = List.length ls - 1.
Proof.
  induction ls as [|l ls IH]; intros Hls; cbn [PyStr.join];
    [reflexivity|].
  destruct ls as [|l' ls'].
  - apply count_linebreaks_none, Hls. left. reflexivity.
  - rewrite !count_linebreaks_app, IH
      by (intros x Hx; apply Hls; right; exact Hx).
    rewrite (count_linebreaks_none l) by (apply Hls; left; reflexivity).
    change (count_linebreaks [10%N]) with 1. cbn [List.length]. lia.
Qed.

Lemma count_linebreaks_drop_while (f : PyStr.char -> bool) (s : str) :
  count_linebreaks (PyStr.drop_while f s) <= count_linebreaks s.
Proof.
  unfold count_linebreaks.
  induction s as [|c s IH]; cbn [PyStr.drop_while filter]; [lia|].
  destruct (f c); [|cbn [filter]; lia].
  destruct (PyStr.is_linebreak c); cbn [List.length]; lia.
Qed.

Lemma count_linebreaks_rev (s : str) :
  count_linebreaks (rev s) = count_linebreaks s.
Proof.
  unfold count_linebreaks. rewrite filter_rev, length_rev. reflexivity.
Qed.

Lemma count_linebreaks_strip (s : str) :
  count_linebreaks (PyStr.strip s) <= count_linebreaks s.
Proof.
  unfold PyStr.strip, PyStr.rstrip, PyStr.lstrip.
  rewrite count_linebreaks_rev.
  etransitivity; [apply count_linebreaks_drop_while|].
  rewrite count_linebreaks_rev. apply count_linebreaks_drop_while.
Qed.

Lemma strip_length (s : str) : List.length (PyStr.strip s) <= List.length s.
Proof.
  unfold PyStr.strip, PyStr.rstrip, PyStr.lstrip. rewrite length_rev.
  etransitivity; [apply drop_while_length|]. rewrite length_rev.
  apply drop_while_length.
Qed.

Lemma readme_excerpt_bounded (content : str) :
  List.length (readme_excerpt content) <= List.length content
  /\ count_linebreaks (readme_excerpt content) <= 19
  /\ trimmed (readme_excerpt content).
Proof.
  unfold readme_excerpt. split; [|split; [|apply strip_trimmed]].
  - etransitivity; [apply strip_length|].
    pose proof (firstn_total 20 (PyStr.splitlines content)) as Hf.
    pose proof (@splitlines_from_total (List.length content) content []
                  (le_n _)) as Hs.
    fold (PyStr.splitlines content) in Hs. cbn [List.length] in Hs.
    destruct (firstn 20 (PyStr.splitlines content)) as [|l ls] eqn:E.
    + cbn [PyStr.join List.length]. apply Nat.le_0_l.
    + pose proof (join_length 10%N (l :: ls)) as [_ Hj'].
      specialize (Hj' ltac:(discriminate)). lia.
  - etransitivity; [apply count_linebreaks_strip|].
    rewrite count_linebreaks_join.
    + pose proof (firstn_le_length 20 (PyStr.splitlines content)). lia.
    + intros l Hl. apply firstn_In in Hl.
      apply (splitlines_one_line _ _ Hl).
Qed.

Lemma first_existing_None (root : node) (names : list str) :
  first_existing root names = None <->
  forall name, In name names -> lookup root [name] = None.
Proof.
  induction names as [|name names IH]; cbn [first_existing].
  - split; [intros _ name [] | reflexivity].
  - destruct (lookup root [name]) eqn:E.
    + split; [discriminate|]. intros H.
      rewrite (H name (or_introl eq_refl)) in E. discriminate.
    + rewrite IH. split.
      * intros H x [<- | Hx]; [exact E | apply H; exact Hx].
      * intros H x Hx. apply H. right. exact Hx.
Qed.

(** X23. When every entry of the root that has one of the names
    [README.md], [README.rst], [README.txt] and [README] is a directory or
    a regular file, the section of the README is absent exactly when the
    root has no entry of these names. Otherwise it is the heading, the
    fences and one excerpt, which is trimmed, has at most 1200 characters
    and at most 19 line boundaries, that is, at most twenty lines. *)
Theorem readme_lines_bounded :
  forall (root : node),
    (forall name candidate,
        In name README_NAMES ->
        lookup root [name] = Some candidate ->
        is_dir candidate || is_file candidate = true) ->
    (readme_lines root = [] <->
     forall name, In name README_NAMES -> lookup root [name] = None)
    /\ (readme_lines root <> [] ->
        exists excerpt,
          readme_lines root
          = [py "### README Excerpt"; []; py "```"; excerpt; py "```"; []]
          /\ List.length excerpt <= 1200
          /\ count_linebreaks excerpt <= 19
          /\ trimmed excerpt).
Proof.
  intros root _. unfold readme_lines. split.
  - rewrite <- first_existing_None.
    destruct (first_existing root README_NAMES); split; congruence.
  - destruct (first_existing root README_NAMES) as [readme|]; [|congruence].
    intros _. eexists. split; [reflexivity|].
    set (content := match _read_safe readme 1200 with
                    | Some text => text
                    | None => []
                    end).
    destruct (readme_excerpt_bounded content) as (Hlen & Hbreaks & Htrim).
    split; [|split; assumption].
    etransitivity; [exact Hlen|]. subst content.
    unfold _read_safe, open_read.
    destruct readme as [name [text|e] | name r cs | name];
      try (cbn [List.length]; lia).
    + apply firstn_le_length.
    + destruct e; cbn [List.length]; lia.
Qed.

Lemma readme_lines_bounded_witness :
  readme_lines Sample2.with_readme <> []
  /\ exists excerpt,
       readme_lines Sample2.with_readme
       = [py "### README Excerpt"; []; py "```"; excerpt; py "```"; []]
       /\ List.length excerpt <= 1200
       /\ count_linebreaks excerpt <= 19
       /\ trimmed excerpt.
Proof.
  assert (readme_lines Sample2.with_readme <> []) as H
      by (vm_compute; discriminate).
  split; [exact H|].
  refine (proj2 (@readme_lines_bounded Sample2.with_readme _) H).
  intros name candidate Hname Hc.
  repeat (destruct Hname as [<- | Hname];
          [vm_compute in Hc; try discriminate Hc;
           injection Hc as <-; reflexivity|]).
  destruct Hname.
Defined.

(* ------------------------------------------------------------------ *)
(** ** The section of the module descriptions *)

Lemma fold_group_step_fst (items : list (str * str)) :
  forall by_dir,
    List.map fst (fold_left group_step items by_dir)
    = fold_left add_key (List.map (fun it => parent_of (fst it)) items)
        (List.map fst by_dir).
Proof.
  induction items as [|it items IH]; intros by_dir;
    cbn [fold_left List.map]; [reflexivity|].
  rewrite IH. unfold group_step, dict_append. rewrite dict_set_fst.
  reflexivity.
Qed.

Lemma fold_group_step_get (items : list (str * str)) (k : str) :
  forall by_dir,
    dict_get (fold_left group_step items by_dir) k
    = match filter (fun it => PyStr.eqb (parent_of (fst it)) k) items,
            dict_get by_dir k with
      | [], v => v
      | l, Some l0 => Some (l0 ++ l)
      | l, None => Some l
      end.
Proof.
  induction items as [|it items IH]; intros by_dir;
    cbn [fold_left filter].
  - destruct (dict_get by_dir k); reflexivity.
  - rewrite IH. unfold group_step, dict_append. rewrite dict_get_set.
    rewrite (str_eqb_sym k (parent_of (fst it))).
    destruct (PyStr.eqb (parent_of (fst it)) k) eqn:E.
    + apply str_eqb_eq in E. subst k.
      destruct (filter _ items), (dict_get by_dir (parent_of (fst it)));
        cbn [app]; rewrite <- ?app_assoc; reflexivity.
    + destruct (filter _ items), (dict_get by_dir k); reflexivity.
Qed.

Lemma filter_cons_eq {A : Type} (f : A -> bool) (x : A) (l : list A) :
  filter f (x :: l) = if f x then x :: filter f l else filter f l.
Proof. reflexivity. Qed.

Lemma flat_map_filter_skip {A : Type} (key : A -> str) (x : A)
    (items : list A) (l : list str) :
  ~ In (key x) l ->
  flat_map (fun k => filter (fun it => PyStr.eqb (key it) k) (x :: items)) l
  = flat_map (fun k => filter (fun it => PyStr.eqb (key it) k) items) l.
Proof.
  induction l as [|k l IHl]; intros Hl; [reflexivity|].
  cbn [flat_map]. rewrite filter_cons_eq.
  destruct (PyStr.eqb (key x) k) eqn:E.
  - apply str_eqb_eq in E. exfalso. apply Hl. left. auto.
  - rewrite IHl; [reflexivity|]. intros H. apply Hl. right. exact H.
Qed.

(** Distinct keys that cover the items split them. *)
Lemma partition_perm {A : Type} (key : A -> str) (ks : list str) :
  NoDup ks ->
  forall items,
    (forall it, In it items -> In (key it) ks) ->
    Permutation
      (flat_map (fun k => filter (fun it => PyStr.eqb (key it) k) items) ks)
      items.
Proof.
  intros Hnd items. induction items as [|x items IH]; intros Hcover.
  - clear Hcover Hnd. induction ks as [|k ks IHk]; [constructor | exact IHk].
  - specialize (IH (fun it Hit => Hcover it (or_intror Hit))).
    pose proof (Hcover x (or_introl eq_refl)) as Hx.
    eapply Permutation_trans; [|apply perm_skip; exact IH].
    clear IH Hcover. revert Hx.
    induction Hnd as [|k ks Hk Hks IHk]; [intros []|].
    intros Hx. cbn [flat_map]. rewrite filter_cons_eq.
    destruct (PyStr.eqb (key x) k) eqn:E.
    + apply str_eqb_eq in E. cbn [app]. apply perm_skip.
      apply Permutation_app_head.
      rewrite flat_map_filter_skip; [reflexivity|]. rewrite E. exact Hk.
    + destruct Hx as [Hx|Hx];
        [apply str_eqb_neq in E; congruence|].
      eapply Permutation_trans;
        [apply Permutation_app_head; apply IHk; exact Hx|].
      apply Permutation_sym, Permutation_middle.
Qed.

Lemma edge_lt_asym (a b : str * str) :
  edge_lt a b = true -> edge_lt b a = false.
Proof.
  unfold edge_lt. rewrite (str_compare_antisym (fst a) (fst b)).
  destruct (PyStr.compare (fst a) (fst b)); simpl; try congruence.
  apply str_ltb_asym.
Qed.

Lemma edge_le_trans (a b c : str * str) :
  edge_lt b a = false -> edge_lt c b = false -> edge_lt c a = false.
Proof.
  unfold edge_lt. intros H1 H2.
  destruct (PyStr.compare (fst b) (fst a)) eqn:Eba; try discriminate;
    destruct (PyStr.compare (fst c) (fst b)) eqn:Ecb; try discriminate.
  - apply str_compare_eq in Eba, Ecb. rewrite Ecb, Eba, str_compare_refl.
    eapply str_le_trans; eassumption.
  - apply str_compare_eq in Eba. rewrite <- Eba, Ecb. reflexivity.
  - apply str_compare_eq in Ecb. rewrite Ecb, Eba. reflexivity.
  - assert (PyStr.compare (fst c) (fst a) = Gt) as ->; [|reflexivity].
    rewrite (str_compare_antisym (fst a) (fst b)) in Eba.
    rewrite (str_compare_antisym (fst b) (fst c)) in Ecb.
    rewrite (str_compare_antisym (fst a) (fst c)).
    assert (PyStr.compare (fst a) (fst c) = Lt) as ->; [|reflexivity].
    apply str_compare_lt_trans with (b := fst b).
    + destruct (PyStr.compare (fst a) (fst b)); simpl in Eba; congruence.
    + destruct (PyStr.compare (fst b) (fst c)); simpl in Ecb; congruence.
Qed.

Lemma description_groups_eq (descriptions : list (str * str)) :
  description_groups descriptions
  = List.map
      (fun parent =>
         (parent,
          filter (fun it => PyStr.eqb (parent_of (fst it)) parent)
            (sorted edge_lt descriptions)))
      (sorted PyStr.ltb
         (dedup (List.map (fun it => parent_of (fst it))
                   (sorted edge_lt descriptions)))).
Proof.
  unfold description_groups, group_by_dir.
  rewrite fold_group_step_fst, fold_add_key. cbn [List.map app].
  rewrite filter_all. apply map_ext. intros parent.
  rewrite fold_group_step_get. cbn [dict_get].
  destruct (filter _ (sorted edge_lt descriptions)); reflexivity.
Qed.

(** X24. The groups of the section of the module descriptions: the parent
    directories are distinct and in ascending order; every group is
    non-empty, holds only descriptions of files whose parent is the
    directory of the group, in ascending order of their paths; and the
    groups together hold every description exactly once. *)
Theorem description_groups_partition :
  forall (descriptions : list (str * str)),
    let groups := description_groups descriptions in
    NoDup (List.map fst groups)
    /\ StronglySorted str_le (List.map fst groups)
    /\ (forall parent items,
           In (parent, items) groups ->
           items <> []
           /\ (forall it, In it items -> parent_of (fst it) = parent)
           /\ StronglySorted edge_le items)
    /\ Permutation (concat (List.map snd groups)) descriptions.
Proof.
  intros descriptions groups. subst groups.
  rewrite description_groups_eq.
  set (items := sorted edge_lt descriptions).
  set (keys := sorted PyStr.ltb
                 (dedup (List.map (fun it => parent_of (fst it)) items))).
  assert (NoDup keys) as Hnd by (apply sorted_NoDup, dedup_NoDup).
  assert (forall k, In k keys <->
                    exists it, In it items /\ parent_of (fst it) = k)
    as Hkeys.
  { intros k. subst keys. rewrite sorted_In, dedup_In, in_map_iff.
    split; intros (it & H1 & H2); exists it; auto. }
  rewrite map_map. cbn [fst]. rewrite map_id.
  split; [exact Hnd|]. split; [apply sorted_str_ok|]. split.
  - intros parent its Hin. apply in_map_iff in Hin.
    destruct Hin as (k & E & Hk). inversion E; subst k its. clear E.
    split; [|split].
    + apply Hkeys in Hk. destruct Hk as (it & Hit & Hp).
      intros Hnil.
      assert (In it (filter (fun it0 => PyStr.eqb (parent_of (fst it0)) parent)
                       items)) as H.
      { apply filter_In. split; [exact Hit|]. apply str_eqb_eq. exact Hp. }
      rewrite Hnil in H. exact H.
    + intros it Hit. apply filter_In in Hit. apply str_eqb_eq. apply Hit.
    + apply StronglySorted_filter.
      apply (sorted_ok edge_lt edge_lt_asym).
      intros a b c. apply edge_le_trans.
  - rewrite map_map. cbn [snd]. rewrite <- flat_map_concat_map.
    eapply Permutation_trans;
      [|apply Permutation_sym, (sorted_perm edge_lt descriptions)].
    apply (partition_perm (fun it : str * str => parent_of (fst it)) Hnd).
    intros it Hit. apply Hkeys. exists it. auto.
Qed.

Lemma description_groups_partition_witness :
  description_groups Sample2.three_descriptions
  = [(py ".", [(py "main.py", py "entry")]);
     (py "src", [(py "src/a.py", py "first"); (py "src/b.py", py "second")])]
  /\ Permutation
       (concat
          (List.map snd (description_groups Sample2.three_descriptions)))
       Sample2.three_descriptions.
Proof.
  split; [reflexivity|].
  exact (proj2 (proj2 (proj2
           (description_groups_partition Sample2.three_descriptions)))).
Defined.

(* ------------------------------------------------------------------ *)
(** ** The local dependencies and the diagram *)

Lemma local_rows_flag (graph : list (str * deps)) (rels : list str) :
  forall has_local,
    snd (local_rows graph rels has_local)
    = has_local
      || existsb
           (fun rel =>
              match dict_get graph rel with
              | Some entry =>
                  match local entry with [] => false | _ => true end
              | None => false
              end)
           rels.
Proof.
  induction rels as [|rel rels IH]; intros has_local;
    cbn [local_rows existsb snd].
  - symmetry. apply orb_false_r.
  - destruct (dict_get graph rel) as [entry|].
    + destruct (local entry) as [|d ds].
      * cbn [orb]. apply IH.
      * specialize (IH true). destruct (local_rows graph rels true).
        cbn [snd] in *. rewrite IH. cbn [orb]. symmetry. apply orb_true_r.
    + cbn [orb]. apply IH.
Qed.

Lemma local_rows_shape (graph : list (str * deps)) (rels : list str) :
  forall has_local row,
    In row (fst (local_rows graph rels has_local)) ->
    exists rest, row = py "- **`" ++ rest.
Proof.
  induction rels as [|rel rels IH]; intros has_local row;
    cbn [local_rows fst]; [intros []|].
  destruct (match dict_get graph rel with
            | Some entry => local entry
            | None => []
            end) as [|d ds]; [apply IH|].
  specialize (IH true row). destruct (local_rows graph rels true).
  cbn [fst] in *. intros [<- | H]; [|apply IH; exact H].
  eexists. reflexivity.
Qed.

(** X25. In the section of the local dependencies, for a graph with
    distinct keys: the marker [_No local dependencies detected._] is
    printed exactly when no entry of the graph has a local reference, which
    is exactly when the diagram is left out. *)
Theorem local_dependencies_marker :
  forall (graph : list (str * deps)),
    NoDup (List.map fst graph) ->
    (In (py "_No local dependencies detected._")
       (local_dependencies_lines graph) <->
     forall rel d, In (rel, d) graph -> local d = [])
    /\ (In (py "_No local dependencies detected._")
          (local_dependencies_lines graph) <->
        diagram_lines graph = []).
Proof.
  intros graph Hnd.
  assert (In (py "_No local dependencies detected._")
            (local_dependencies_lines graph) <->
          forall rel d, In (rel, d) graph -> local d = []) as Hmarker.
  { unfold local_dependencies_lines.
    pose proof (local_rows_flag graph
                  (sorted PyStr.ltb (List.map fst graph)) false) as Hflag.
    pose proof (local_rows_shape graph
                  (sorted PyStr.ltb (List.map fst graph)) false) as Hshape.
    destruct (local_rows graph (sorted PyStr.ltb (List.map fst graph)) false)
      as [rows has_local].
    cbn [fst snd orb] in *. split.
    - intros Hin rel d Hd.
      assert (has_local = false) as Hfalse.
      { destruct has_local; [|reflexivity]. exfalso. cbn [negb app] in Hin.
        destruct Hin as [H|[H|Hin]]; try discriminate H.
        apply in_app_or in Hin. destruct Hin as [Hin|[H|[]]];
          [|discriminate H].
        destruct (Hshape _ Hin) as [rest H]. discriminate H. }
      rewrite Hfalse in Hflag. symmetry in Hflag.
      apply not_true_iff_false in Hflag. rewrite existsb_exists in Hflag.
      destruct (local d) as [|t ts] eqn:El; [reflexivity|]. exfalso.
      apply Hflag. exists rel. split.
      + apply sorted_In. apply in_map_iff. exists (rel, d). auto.
      + rewrite (@dict_get_In _ graph rel d Hnd Hd), El. reflexivity.
    - intros Hnone.
      assert (has_local = false) as ->.
      { rewrite Hflag. apply not_true_iff_false. rewrite existsb_exists.
        intros (rel & _ & H).
        destruct (dict_get graph rel) as [entry|] eqn:E; [|discriminate].
        apply dict_get_Some_In in E. rewrite (Hnone _ _ E) in H.
        discriminate. }
      cbn [negb]. right. right. apply in_or_app. right.
      apply in_or_app. right. left. reflexivity. }
  split; [exact Hmarker|].
  rewrite Hmarker, <- build_mermaid_graph_nil. unfold diagram_lines.
  destruct (_build_mermaid_graph graph); split; intros H;
    try reflexivity; discriminate H.
Qed.

Lemma local_dependencies_marker_witness :
  NoDup (List.map fst Sample2.js_graph)
  /\ ~ In (py "_No local dependencies detected._")
         (local_dependencies_lines Sample2.js_graph).
Proof.
  assert (NoDup (List.map fst Sample2.js_graph)) as H
      by (repeat constructor; intros []).
  split; [exact H|].
  intros Hin.
  pose proof (proj1 (proj1 (@local_dependencies_marker Sample2.js_graph H))
                Hin
                (py "app.js") _ (or_introl eq_refl)) as Hnil.
  discriminate Hnil.
Defined.

(* ------------------------------------------------------------------ *)
(** ** The run as a whole *)

(** X26. A [package.json] that the walk visits and whose text is valid JSON
    for a number, a boolean or null leaves the run without a report: the
    detection of the entry points does not return, so [generate_map]
    returns no report, and [main] does not end with the exit status 0. *)
Theorem generate_map_scalar_manifest :
  forall (L : library) (directory root_path : str) (output : option str)
         (root : node) (here : list str) (files : list node)
         (source : str) (v : pyval) (max_depth max_files : Z)
         (mermaid no_deps : bool),
    In (here, files) (os_walk [] root) ->
    In (File (py "package.json") (Text source)) files ->
    firstn max_bytes_default source <> [] ->
    json_loads L (firstn max_bytes_default source) = Some v ->
    is_scalar v = true ->
    (forall es, find_entry_points L root <> Ret es)
    /\ (forall report,
           generate_map L directory root_path (Some root) max_depth
             max_files mermaid no_deps <> Ret report)
    /\ (forall stderr,
           main directory output (Some root)
             (fun r =>
                lines <- generate_map_lines L root_path r max_depth
                           max_files mermaid no_deps ;;
                Ret (PyStr.join [10%N] lines))
           <> Exit stderr 0).
Proof.
  intros L directory root_path output root here files source v max_depth
    max_files mermaid no_deps Hvisit Hf Hne Hloads Hv.
  assert (forall es, find_entry_points L root <> Ret es) as Hstop.
  { apply (@find_entry_points_stops L root here files _ Hvisit Hf).
    intros fc Hfc.
    rewrite (@scalar_manifest_file_calls L root here source v Hne Hloads Hv)
      in Hfc.
    discriminate Hfc. }
  split; [exact Hstop|].
  destruct root as [name data | name readable children | name];
    try (destruct Hvisit; fail).
  unfold main, generate_map. cbn [generate_map_root bind].
  unfold generate_map_lines.
  destruct (find_entry_points L (Dir name readable children))
    as [es | e |].
  - exfalso. apply (Hstop es). reflexivity.
  - cbn [bind main_handler]. split; [discriminate|].
    intros stderr. destruct e; discriminate.
  - cbn [bind main_handler]. split; discriminate.
Qed.

Lemma generate_map_scalar_manifest_witness :
  is_scalar (VInt 42) = true
  /\ ~ (exists report,
           generate_map Sample2.lib (py ".") (py "/project")
             (Some Sample2.scalar_manifest) 6 300 false false
           = Ret report)
  /\ ~ (exists stderr,
           main (py ".") None (Some Sample2.scalar_manifest)
             (fun r =>
                lines <- generate_map_lines Sample2.lib (py "/project") r
                           6 300 false false ;;
                Ret (PyStr.join [10%N] lines))
           = Exit stderr 0).
Proof.
  split; [reflexivity|].
  destruct (@generate_map_scalar_manifest Sample2.lib (py ".")
              (py "/project") None Sample2.scalar_manifest []
              [File (py "package.json") (Text (py "42"))]
              (py "42") (VInt 42) 6%Z 300%Z false false
              (or_introl eq_refl) (or_introl eq_refl)
              ltac:(discriminate) eq_refl eq_refl)
    as (_ & Hreport & Hmain).
  split.
  - intros [report H]. exact (Hreport report H).
  - intros [stderr H]. exact (Hmain stderr H).
Defined.

(** ** The heading of the dependency graph *)

Lemma starts_differ (p rest s : str) :
  PyStr.startswith s p = false -> p ++ rest <> s.
Proof.
  intros H E. subst s. revert H. induction p as [|c p IH]; cbn [app].
  - rewrite startswith_nil. discriminate.
  - cbn [PyStr.startswith]. rewrite N.eqb_refl. exact IH.
Qed.

Lemma ends_differ (pre p s : str) :
  PyStr.endswith s p = false -> pre ++ p <> s.
Proof.
  unfold PyStr.endswith. intros H E. subst s.
  rewrite rev_app_distr in H. revert H.
  apply (fun H => @starts_differ (rev p) (rev pre) _ H eq_refl).
Qed.

Lemma no_heading_differ (s : str) :
  no_heading s -> s <> py "## Dependency Graph".
Proof.
  intros H E. subst s. apply H. reflexivity.
Qed.

Ltac differs :=
  first [ apply starts_differ; reflexivity
        | apply str_eqb_neq; reflexivity ].

Section TreeHeads.
Variable L : library.
Variable max_files : Z.

Lemma no_heading_app (p e : str) :
  no_heading p -> no_heading e -> no_heading (p ++ e).
Proof. destruct p; cbn [app no_heading]; auto. Qed.

Lemma tree_loop_heads
    (rec : bool -> list node -> str -> Z -> list line * Z)
    (prefix : str) (total : nat) (rest : list node) :
  (forall r cs p c l,
      no_heading p -> In l (fst (rec r cs p c)) ->
      no_heading (render_line l)) ->
  no_heading prefix ->
  forall i c l,
    In l (fst (tree_loop rec prefix max_files total rest i c)) ->
    no_heading (render_line l).
Proof.
  intros Hrec Hp. induction rest as [|e rest IH]; intros i c l;
    cbn [tree_loop]; [intros []|].
  destruct (c >=? max_files)%Z.
  - intros [<- | []]. cbn [render_line]. apply no_heading_app; [exact Hp|].
    cbn. discriminate.
  - assert (forall b : bool,
               no_heading (if b then ext_last else ext_mid)) as Hext
        by (intros []; cbn; discriminate).
    assert (forall b : bool, forall name0,
               no_heading (render_line
                             (EntryLine prefix
                                (if b then conn_last else conn_mid) name0)))
      as Hline.
    { intros b name0. cbn [render_line]. apply no_heading_app; [exact Hp|].
      destruct b; cbn; discriminate. }
    destruct e as [name data | name r cs | name].
    + specialize (IH (S i) (c + 1)%Z l).
      destruct (tree_loop rec prefix max_files total rest (S i) (c + 1)).
      cbn [fst app]. intros [<- | H]; [apply Hline | auto].
    + pose proof (Hrec r cs
                    (prefix ++ (if Nat.eqb i (total - 1)
                                then ext_last else ext_mid))
                    (c + 1)%Z l
                    (no_heading_app _ _ Hp (Hext _))) as Hsub.
      destruct (rec r cs _ (c + 1)%Z) as [sub c1].
      specialize (IH (S i) c1 l).
      destruct (tree_loop rec prefix max_files total rest (S i) c1).
      cbn [fst] in *. intros [<- | H]; [apply Hline|].
      apply in_app_or in H. destruct H; auto.
    + specialize (IH (S i) (c + 1)%Z l).
      destruct (tree_loop rec prefix max_files total rest (S i) (c + 1)).
      cbn [fst app]. intros [<- | H]; [apply Hline | auto].
Qed.

Lemma build_file_tree_from_heads (levels : nat) :
  forall readable children prefix c l,
    no_heading prefix ->
    In l (fst (build_file_tree_from L levels readable children prefix
                 max_files c)) ->
    no_heading (render_line l).
Proof.
  induction levels as [|levels IH]; intros readable children prefix c l Hp;
    cbn [build_file_tree_from].
  - intros [<- | []]. cbn [render_line]. apply no_heading_app; [exact Hp|].
    cbn. discriminate.
  - destruct readable; cbn [negb].
    + apply tree_loop_heads; [|exact Hp].
      intros r cs p c0 l0 Hp0. apply IH. exact Hp0.
    + intros [<- | []]. cbn [render_line].
      apply no_heading_app; [exact Hp|]. cbn. discriminate.
Qed.
End TreeHeads.

Lemma group_lines_no_heading (project_name : str)
    (group : str * list (str * str)) (s : str) :
  In s (group_lines project_name group) -> s <> py "## Dependency Graph".
Proof.
  unfold group_lines. cbn [app]. intros [<- | [<- | H]]; try differs.
  apply in_app_or in H. destruct H as [H | [<- | []]]; [|differs].
  apply in_map_iff in H. destruct H as (item & <- & _). differs.
Qed.

Lemma generate_map_lines_Ret (L : library) (root_path : str) (root : node)
    (max_depth max_files : Z) (mermaid no_deps : bool) (lines : list str) :
  generate_map_lines L root_path root max_depth max_files mermaid no_deps
  = Ret lines ->
  exists entry_points descriptions tree_lines,
    lines
    = (header_lines (node_name root) root_path
       ++ overview_lines (_count_stats L root)
       ++ readme_lines root
       ++ file_tree_lines (node_name root) tree_lines)
      ++ entry_point_lines entry_points
      ++ module_description_lines (node_name root) descriptions
      ++ (if no_deps then []
          else dependency_lines mermaid (build_dep_graph L root))
    /\ forall s, In s tree_lines -> no_heading s.
Proof.
  unfold generate_map_lines. intros H.
  apply bind_Ret in H. destruct H as (entry_points & _ & H).
  apply bind_Ret in H. destruct H as (descriptions & _ & H).
  apply Ret_inj in H. subst lines.
  exists entry_points, descriptions. eexists. split.
  - destruct no_deps; reflexivity.
  - intros s Hs.
    destruct root as [name data | name readable children | name];
      try destruct Hs.
    unfold build_file_tree, build_file_tree_lines in Hs.
    apply in_map_iff in Hs. destruct Hs as (l & <- & Hl).
    apply (@build_file_tree_from_heads L max_files
             (Z.to_nat (max_depth + 1)) readable children [] 0%Z l I Hl).
Qed.

(** X27. With [no_deps], no line of the report is the heading of the
    dependency graph, unless the excerpt of the README is this very text;
    without [no_deps], the heading is one of the lines. *)
Theorem generate_map_no_deps :
  forall (L : library) (root_path : str) (root : node)
         (max_depth max_files : Z) (mermaid no_deps : bool)
         (lines : list str),
    generate_map_lines L root_path root max_depth max_files mermaid no_deps
    = Ret lines ->
    (no_deps = false -> In (py "## Dependency Graph") lines)
    /\ (no_deps = true ->
        ~ In (py "## Dependency Graph") (readme_lines root) ->
        ~ In (py "## Dependency Graph") lines).
Proof.
  intros L root_path root max_depth max_files mermaid no_deps lines H.
  apply generate_map_lines_Ret in H.
  destruct H as (entry_points & descriptions & tree_lines & -> & Htree).
  split.
  - intros ->. do 3 (apply in_or_app; right).
    unfold dependency_lines. left. reflexivity.
  - intros -> Hreadme Hin. rewrite app_nil_r in Hin.
    apply in_app_or in Hin. destruct Hin as [Hin|Hin].
    { apply in_app_or in Hin. destruct Hin as [Hin|Hin].
      { unfold header_lines in Hin.
        repeat (destruct Hin as [Hin|Hin]; [revert Hin; differs|]).
        exact Hin. }
      apply in_app_or in Hin. destruct Hin as [Hin|Hin].
      { unfold overview_lines in Hin. apply in_app_or in Hin.
        destruct Hin as [Hin|Hin].
        - repeat (destruct Hin as [Hin|Hin]; [revert Hin; differs|]).
          exact Hin.
        - apply in_app_or in Hin. destruct Hin as [Hin|[Hin|[]]].
          + destruct (top_extensions (_count_stats L root)); [exact Hin|].
            destruct Hin as [Hin|[]]. revert Hin. differs.
          + revert Hin. differs. }
      apply in_app_or in Hin. destruct Hin as [Hin|Hin];
        [exact (Hreadme Hin)|].
      unfold file_tree_lines in Hin. apply in_app_or in Hin.
      destruct Hin as [Hin|Hin].
      - repeat (destruct Hin as [Hin|Hin];
                [revert Hin;
                 first [differs | apply ends_differ; reflexivity]|]).
        exact Hin.
      - apply in_app_or in Hin. destruct Hin as [Hin|Hin].
        + exact (no_heading_differ (Htree _ Hin) eq_refl).
        + repeat (destruct Hin as [Hin|Hin]; [revert Hin; differs|]).
          exact Hin. }
    apply in_app_or in Hin. destruct Hin as [Hin|Hin].
    { unfold entry_point_lines in Hin. apply in_app_or in Hin.
      destruct Hin as [Hin|Hin].
      - repeat (destruct Hin as [Hin|Hin]; [revert Hin; differs|]).
        exact Hin.
      - apply in_app_or in Hin. destruct Hin as [Hin|[Hin|[]]];
          [|revert Hin; differs].
        destruct entry_points as [|ep eps].
        + destruct Hin as [Hin|[]]. revert Hin. differs.
        + apply in_map_iff in Hin. destruct Hin as (e & Hin & _).
          revert Hin. differs. }
    unfold module_description_lines, description_lines in Hin.
    apply in_app_or in Hin. destruct Hin as [Hin|Hin].
    + repeat (destruct Hin as [Hin|Hin]; [revert Hin; differs|]).
      exact Hin.
    + destruct descriptions as [|d ds].
      * repeat (destruct Hin as [Hin|Hin]; [revert Hin; differs|]).
        exact Hin.
      * apply in_flat_map in Hin. destruct Hin as (g & _ & Hin).
        exact (@group_lines_no_heading _ _ _ Hin eq_refl).
Qed.

Lemma generate_map_no_deps_witness :
  exists lines,
    generate_map_lines Sample.lib (py "/project") Sample.scenario 6 300
      false true = Ret lines
    /\ ~ In (py "## Dependency Graph") lines.
Proof.
  eexists. split; [reflexivity|].
  apply (proj2 (@generate_map_no_deps Sample.lib (py "/project")
                  Sample.scenario 6%Z 300%Z false true _ eq_refl) eq_refl).
  intros H. exact H.
Defined.

(* ------------------------------------------------------------------ *)
(** ** Where the entries of the dependency graph come from *)

Lemma filter_partition_perm {A : Type} (f : A -> bool) (l : list A) :
  Permutation (filter f l ++ filter (fun x => negb (f x)) l) l.
Proof.
  induction l as [|x l IH]; cbn [filter app]; [constructor|].
  destruct (f x); cbn [negb app].
  - constructor. exact IH.
  - apply Permutation_sym, Permutation_cons_app, Permutation_sym. exact IH.
Qed.

Lemma filter_implied {A : Type} (f g : A -> bool) (l : list A) :
  (forall x, f x = true -> g x = true) ->
  filter f (filter g l) = filter f l.
Proof.
  intros H. induction l as [|x l IH]; cbn [filter]; [reflexivity|].
  destruct (g x) eqn:Eg; cbn [filter]; rewrite IH; [reflexivity|].
  destruct (f x) eqn:Ef; [|reflexivity].
  rewrite (H x Ef) in Eg. discriminate.
Qed.

Lemma filter_comm {A : Type} (f g : A -> bool) (l : list A) :
  filter f (filter g l) = filter g (filter f l).
Proof.
  induction l as [|x l IH]; cbn [filter]; [reflexivity|].
  destruct (g x) eqn:Eg, (f x) eqn:Ef; cbn [filter];
    rewrite ?Eg, ?Ef, IH; reflexivity.
Qed.

Lemma dedup_filter (f : str -> bool) (l : list str) :
  dedup (filter f l) = filter f (dedup l).
Proof.
  induction l as [|x l IH]; cbn [filter dedup]; [reflexivity|].
  destruct (f x) eqn:E; cbn [dedup filter]; rewrite ?E, IH.
  - f_equal. apply filter_comm.
  - symmetry. apply filter_implied. intros y Hy.
    apply negb_true_iff, str_eqb_neq. intros <-. congruence.
Qed.

(** X28. Every entry of the graph of [build_dep_graph] comes from a file
    that the walk visits and that can be read, its key being the path of
    the file; the suffix of the file in lower case is [.py] or one of the
    six suffixes of JavaScript and TypeScript; and the two lists of the
    entry together hold each reference collected from the first 8192
    characters of the file exactly once. *)
Theorem build_dep_graph_sources :
  forall (L : library) (root : node) (rel : str) (d : deps),
    In (rel, d) (build_dep_graph L root) ->
    exists here files f source,
      In (here, files) (os_walk [] root)
      /\ In f files
      /\ rel = path_str (here ++ [node_name f])
      /\ _read_safe f max_bytes_default = Some source
      /\ ((str_lower L (path_suffix (node_name f)) = py ".py"
           /\ Permutation (local d ++ external d)
                (dedup (_collect_python_imports L source)))
          \/ (PyStr.mem (str_lower L (path_suffix (node_name f)))
                js_suffixes = true
              /\ Permutation (local d ++ external d)
                   (dedup (_collect_js_imports L source)))).
Proof.
  intros L root. apply build_dep_graph_ind.
  intros here files f rel d Hvisit Hf g. unfold graph_file.
  destruct (_read_safe f max_bytes_default) as [source|] eqn:Er; [|auto].
  destruct (PyStr.eqb _ (py ".py")) eqn:Epy.
  - match goal with |- In _ (match ?l with [] => _ | _ => _ end) -> _ =>
      destruct l end; [auto|].
    intros H. apply dict_set_In in H. destruct H as [H|H]; [|auto].
    right. inversion H; subst; cbn [local external]. clear H.
    exists here, files, f, source. repeat split; auto.
    left. split; [apply str_eqb_eq; exact Epy|].
    eapply Permutation_trans;
      [apply Permutation_app; apply Permutation_sym, sorted_perm|].
    apply filter_partition_perm.
  - destruct (PyStr.mem _ js_suffixes) eqn:Ejs; [|auto].
    match goal with |- In _ (match ?l with [] => _ | _ => _ end) -> _ =>
      destruct l end; [auto|].
    intros H. apply dict_set_In in H. destruct H as [H|H]; [|auto].
    right. inversion H; subst; cbn [local external]. clear H.
    exists here, files, f, source. repeat split; auto.
    right. split; [exact Ejs|].
    eapply Permutation_trans;
      [apply Permutation_app; apply Permutation_sym, sorted_perm|].
    rewrite !dedup_filter. apply filter_partition_perm.
Qed.

Lemma build_dep_graph_sources_witness :
  In (py "utils.py", {| local := [py "helpers"]; external := [py "os"] |})
    (build_dep_graph Sample.lib Sample.scenario)
  /\ exists here files f source,
       In (here, files) (os_walk [] Sample.scenario)
       /\ In f files
       /\ py "utils.py" = path_str (here ++ [node_name f])
       /\ _read_safe f max_bytes_default = Some source
       /\ ((str_lower Sample.lib (path_suffix (node_name f)) = py ".py"
            /\ Permutation ([py "helpers"] ++ [py "os"])
                 (dedup (_collect_python_imports Sample.lib source)))
           \/ (PyStr.mem (str_lower Sample.lib (path_suffix (node_name f)))
                 js_suffixes = true
               /\ Permutation ([py "helpers"] ++ [py "os"])
                    (dedup (_collect_js_imports Sample.lib source)))).
Proof.
  assert (In (py "utils.py",
              {| local := [py "helpers"]; external := [py "os"] |})
            (build_dep_graph Sample.lib Sample.scenario))
    as H by (left; reflexivity).
  split; [exact H|].
  exact (@build_dep_graph_sources Sample.lib Sample.scenario _ _ H).
Defined.

(* ------------------------------------------------------------------ *)
(** ** The records of the main guard *)

Section GuardCalls.
Variable L : library.
Variable root : node.

(** In the calls for one file, a call of the category of the main guard is
    the call of the guard rule, and the call of the rule of the canonical
    names, if any, stands before it. *)
Lemma file_calls_guard (here : list str) (f : node)
    (s1 s2 : list entry_point) (e : entry_point) :
  file_calls L root here f = Ret (s1 ++ e :: s2) ->
  ep_type e = py "python-script" ->
  ep_path e = path_str (here ++ [node_name f])
  /\ PyStr.endswith (node_name f) (py ".py") = true
  /\ (exists c source,
         _read_safe f max_bytes_default = Some (c :: source)
         /\ _has_python_main_guard L (c :: source) = true)
  /\ (PyStr.mem (node_name f) ENTRY_POINT_NAMES = true ->
      exists canonical, In canonical s1
                        /\ ep_path canonical = ep_path e).
Proof.
  unfold file_calls. intros H Ht. apply bind_Ret in H.
  destruct H as (manifest & Hm & H). apply Ret_inj in H.
  assert (forall c, In c manifest -> ep_type c <> py "python-script")
    as Hmanifest.
  { intros c Hc.
    assert (file_calls L root here f
            = Ret (canonical_calls L (path_str (here ++ [node_name f]))
                     (node_name f)
                   ++ guard_calls L (path_str (here ++ [node_name f])) f
                   ++ manifest)) as Hfc
        by (unfold file_calls; rewrite Hm; reflexivity).
    assert (In c (canonical_calls L (path_str (here ++ [node_name f]))
                    (node_name f)
                  ++ guard_calls L (path_str (here ++ [node_name f])) f
                  ++ manifest)) as Hin
        by (apply in_or_app; right; apply in_or_app; right; exact Hc).
    unfold manifest_calls in Hm.
    destruct (PyStr.eqb (node_name f) (py "package.json"));
      [|apply Ret_inj in Hm; subst; destruct Hc].
    destruct (_read_safe f max_bytes_default) as [[|ch source]|];
      try (apply Ret_inj in Hm; subst; destruct Hc).
    destruct (json_loads L (ch :: source)) as [data|];
      [|apply Ret_inj in Hm; subst; destruct Hc].
    apply bind_Ret in Hm. destruct Hm as (mainc & Hmain & Hm).
    apply bind_Ret in Hm. destruct Hm as (binc & Hbin & Hm).
    apply Ret_inj in Hm. subst manifest.
    apply in_app_or in Hc. destruct Hc as [Hc|Hc].
    - unfold main_calls in Hmain. apply bind_Ret in Hmain.
      destruct Hmain as (mainv & _ & Hmain).
      destruct mainv as [[| | | |target| |]|]; try discriminate;
        [|apply Ret_inj in Hmain; subst; destruct Hc].
      destruct (target_exists L root here target).
      + apply bind_Ret in Hmain. destruct Hmain as (main_rel & _ & Hmain).
        apply Ret_inj in Hmain. subst. destruct Hc as [<- | []].
        discriminate.
      + apply Ret_inj in Hmain. subst. destruct Hc as [<- | []].
        discriminate.
    - unfold bin_calls in Hbin. apply bind_Ret in Hbin.
      destruct Hbin as (binv & _ & Hbin).
      destruct binv as [[| | | | | |items]|];
        try (apply Ret_inj in Hbin; subst; destruct Hc).
      rewrite (bin_items_calls_type _ _ _ _ _ Hbin c Hc). discriminate. }
  assert (forall c, In c (canonical_calls L (path_str (here ++ [node_name f]))
                            (node_name f)) ->
                    ep_type c <> py "python-script") as Hcanonical.
  { intros c Hc. unfold canonical_calls in Hc.
    destruct (PyStr.mem (node_name f) ENTRY_POINT_NAMES); [|destruct Hc].
    destruct Hc as [<- | []]. cbn [ep_type].
    pose proof (classify_entry_cases L (node_name f)) as Hk.
    intros E. rewrite E in Hk.
    repeat (destruct Hk as [Hk|Hk]; [discriminate Hk|]). exact Hk. }
  unfold guard_calls in H.
  destruct (PyStr.endswith (node_name f) (py ".py")) eqn:Eend.
  2: { exfalso. cbn [app] in H.
       assert (In e (canonical_calls L (path_str (here ++ [node_name f]))
                       (node_name f) ++ manifest)) as Hin
           by (rewrite H; apply in_or_app; right; left; reflexivity).
       apply in_app_or in Hin.
       destruct Hin as [Hin|Hin];
         [exact (Hcanonical e Hin Ht) | exact (Hmanifest e Hin Ht)]. }
  destruct (_read_safe f max_bytes_default) as [[|ch source]|] eqn:Er.
  1, 3: exfalso; cbn [app] in H;
    assert (In e (canonical_calls L (path_str (here ++ [node_name f]))
                    (node_name f) ++ manifest)) as Hin
        by (rewrite H; apply in_or_app; right; left; reflexivity);
    apply in_app_or in Hin;
    destruct Hin as [Hin|Hin];
      [exact (Hcanonical e Hin Ht) | exact (Hmanifest e Hin Ht)].
  destruct (_has_python_main_guard L (ch :: source)) eqn:Eg.
  2: { exfalso. cbn [app] in H.
       assert (In e (canonical_calls L (path_str (here ++ [node_name f]))
                       (node_name f) ++ manifest)) as Hin
           by (rewrite H; apply in_or_app; right; left; reflexivity).
       apply in_app_or in Hin.
       destruct Hin as [Hin|Hin];
         [exact (Hcanonical e Hin Ht) | exact (Hmanifest e Hin Ht)]. }
  unfold canonical_calls in *.
  destruct (PyStr.mem (node_name f) ENTRY_POINT_NAMES) eqn:Emem;
    cbn [app] in H.
  - destruct s1 as [|x s1]; cbn [app] in H.
    + injection H as He Hs2. exfalso.
      apply (Hcanonical e); [left; exact He | exact Ht].
    + injection H as Hx Hrest. destruct s1 as [|y s1]; cbn [app] in Hrest.
      * injection Hrest as He Hs2. subst e x. cbn [ep_path].
        split; [reflexivity|]. split; [reflexivity|].
        split; [exists ch, source; split; [reflexivity | exact Eg]|].
        intros _. eexists. split; [left; reflexivity | reflexivity].
      * exfalso. injection Hrest as Hy Hm'.
        apply (Hmanifest e); [|exact Ht]. rewrite Hm'.
        apply in_or_app. right. left. reflexivity.
  - destruct s1 as [|x s1]; cbn [app] in H.
    + injection H as He Hs2. subst e. cbn [ep_path].
      split; [reflexivity|]. split; [reflexivity|].
      split; [exists ch, source; split; [reflexivity | exact Eg]|].
      discriminate.
    + exfalso. injection H as Hx Hm'.
      apply (Hmanifest e); [|exact Ht]. rewrite Hm'.
      apply in_or_app. right. left. reflexivity.
Qed.
End GuardCalls.

(** X29. A record of the category [python-script] is only given for the
    main guard: its path is that of a file that the walk visits, whose
    name ends in [.py], whose first 8192 characters are a non-empty text in
    which [_has_python_main_guard] finds the guard, and whose name is not
    one of the canonical names, since the rule of the canonical names calls
    [add] for the same path first. *)
Theorem find_entry_points_python_script :
  forall (L : library) (root : node) (es : list entry_point)
         (e : entry_point),
    find_entry_points L root = Ret es ->
    In e es ->
    ep_type e = py "python-script" ->
    exists here files f c source,
      In (here, files) (os_walk [] root)
      /\ In f files
      /\ ep_path e = path_str (here ++ [node_name f])
      /\ PyStr.endswith (node_name f) (py ".py") = true
      /\ _read_safe f max_bytes_default = Some (c :: source)
      /\ _has_python_main_guard L (c :: source) = true
      /\ PyStr.mem (node_name f) ENTRY_POINT_NAMES = false.
Proof.
  intros L root es e H He Ht. apply find_entry_points_Ret in H.
  destruct H as (calls & Hcalls & ->).
  apply sorted_In in He. apply keep_first_sound in He.
  destruct He as (_ & pre & post & Hsplit & Hfirst).
  unfold add_calls in Hcalls. apply dirs_calls_concat in Hcalls.
  destruct Hcalls as (segs & Hconcat & Hsegs).
  rewrite Hconcat in Hsplit. apply concat_split in Hsplit.
  destruct Hsplit as (before & seg & after & s1 & s2 & -> & -> & ->).
  rewrite Forall_forall in Hsegs.
  destruct (Hsegs (s1 ++ e :: s2)) as (here & files & f & Hv & Hf & Hfc).
  { apply in_or_app. right. left. reflexivity. }
  destruct (@file_calls_guard L root here f s1 s2 e Hfc Ht)
    as (Hpath & Hend & (c & source & Hread & Hguard) & Hcanon).
  exists here, files, f, c, source. repeat split; auto.
  destruct (PyStr.mem (node_name f) ENTRY_POINT_NAMES) eqn:E; [|reflexivity].
  exfalso. destruct (Hcanon eq_refl) as (canonical & Hin & Heq).
  apply (Hfirst canonical); [|exact Heq].
  apply in_or_app. right. exact Hin.
Qed.

Lemma find_entry_points_python_script_witness :
  exists here files f c source,
    In (here, files) (os_walk [] Sample2.tool_project)
    /\ In f files
    /\ py "tool.py" = path_str (here ++ [node_name f])
    /\ PyStr.endswith (node_name f) (py ".py") = true
    /\ _read_safe f max_bytes_default = Some (c :: source)
    /\ _has_python_main_guard Sample.lib (c :: source) = true
    /\ PyStr.mem (node_name f) ENTRY_POINT_NAMES = false.
Proof.
  apply (@find_entry_points_python_script Sample.lib Sample2.tool_project
           [{| ep_path := py "tool.py";
               ep_type := py "python-script";
               ep_reason := py "contains `if __name__ == '__main__'`" |}]
           {| ep_path := py "tool.py";
              ep_type := py "python-script";
              ep_reason := py "contains `if __name__ == '__main__'`" |});
    [reflexivity | left; reflexivity | reflexivity].
Defined.

(* ------------------------------------------------------------------ *)
(** ** When the run returns *)

Section Returns.
Variable L : library.

Lemma describe_file_Ret (path : node) :
  node_name path <> py "package.json" ->
  (forall name content,
      path = File name (Text content) ->
      str_lower L (path_suffix name) = py ".py" ->
      ast_parse L (firstn max_bytes_default content) <> None
      \/ PyStr.endswith (firstn max_bytes_default content) [10%N] = true) ->
  exists r, describe_file L path = Ret r.
Proof.
  intros Hname Hpy. unfold describe_file.
  assert (forall suffix source,
             exists r,
               describe_comment L suffix (node_name path) source = Ret r)
    as Hcomment.
  { intros suffix source. unfold describe_comment.
    destruct (truthy _); [eexists; reflexivity|]. unfold describe_manifest.
    destruct (PyStr.mem (node_name path) _); [|eexists; reflexivity].
    destruct (PyStr.eqb (node_name path) (py "package.json")) eqn:E;
      [|eexists; reflexivity].
    apply str_eqb_eq in E. contradiction. }
  destruct (_read_safe path max_bytes_default) as [source|] eqn:Er;
    [|eexists; reflexivity].
  destruct (PyStr.eqb _ (py ".py")) eqn:Epy; [|apply Hcomment].
  apply str_eqb_eq in Epy.
  assert (exists r, extract_python_docstring L source = Ret r) as [doc ->].
  { apply docstring_returns.
    destruct path as [name [content|e] | name r cs | name];
      cbn [_read_safe open_read] in Er; try discriminate Er.
    - injection Er as <-. apply (Hpy name content eq_refl Epy).
    - destruct e; discriminate Er. }
  cbn [bind]. destruct (truthy doc) eqn:Et; [|apply Hcomment].
  destruct doc as [[|c d]|]; try discriminate Et.
  pose proof (@splitlines_from_nonempty (c :: d) []) as Hne.
  unfold PyStr.splitlines.
  destruct (PyStr.splitlines_from [] (c :: d));
    [|eexists; reflexivity].
  exfalso. apply Hne; [right; discriminate | reflexivity].
Qed.




End Returns.

(** X8. [describe_file] returns on a directory or a regular file that is
    not named [package.json] and whose first 8192 characters, when the
    suffix is [.py] in lower case, are a text for which [ast.parse] returns
    a tree, or raises [SyntaxError] while the text ends with a line feed:
    it neither raises nor hangs. *)
Theorem describe_file_returns :
  forall (L : library) (path : node),
    is_dir path || is_file path = true ->
    node_name path <> py "package.json" ->
    (forall name content,
        path = File name (Text content) ->
        str_lower L (path_suffix name) = py ".py" ->
        (exists tree,
            ast_parse L (firstn max_bytes_default content) = Some tree)
        \/ (ast_parse L (firstn max_bytes_default content) = None
            /\ PyStr.endswith (firstn max_bytes_default content) [10%N]
               = true)) ->
    exists r, describe_file L path = Ret r.
Proof.
  intros L path _ Hname Hpy. apply describe_file_Ret; [exact Hname|].
  intros name content Hp Hs.
  destruct (Hpy name content Hp Hs) as [[tree Ht] | [_ He]].
  - left. rewrite Ht. discriminate.
  - right. exact He.
Qed.

Lemma describe_file_returns_witness :
  describe_file Sample.lib
    (File (py "notes.py")
       (Text (py "# note" ++ [10%N] ++ py "def (" ++ [10%N])))
  = Ret (Some (py "note")).
Proof.
  destruct (@describe_file_returns Sample.lib
              (File (py "notes.py")
                 (Text (py "# note" ++ [10%N] ++ py "def (" ++ [10%N])))
              eq_refl ltac:(discriminate)) as [r H].
  - intros name content Hp _. injection Hp as <- <-.
    right. split; reflexivity.
  - rewrite H. f_equal.
    assert (describe_file Sample.lib
              (File (py "notes.py")
                 (Text (py "# note" ++ [10%N] ++ py "def (" ++ [10%N])))
            = Ret (Some (py "note"))) as H' by reflexivity.
    rewrite H' in H. apply Ret_inj in H. symmetry. exact H.
Defined.


